(** * OurSchool: grade aggregation, term roll-up, points ledger, attendance

    A shallow embedding of the grading core of the OurSchool application:

    - [app/utils/attendance.py]      attendance rate,
    - [app/models/assignment.py]     percentage grade, term-grade recalculation,
    - [app/models/term.py]           current grade, finalisation,
    - [app/services/term_grading.py] letter grades, bulk term-grade calculation,
    - [app/crud/points.py]           the points ledger,
    - [app/routers/assignments.py]   the grading endpoint, the workflow,
    - [app/routers/integrations.py]  grading through the external API,
    - [app/routers/terms.py]         activating and deleting terms,
    - [app/routers/points.py]        switching and adjusting points,
    - [app/crud/settings.py], [app/routers/settings.py]  the settings.

    Conventions.  Python [int] is [Z].  Python [float] is idealised as an
    exact rational [Q]: every property below is about which rows are summed,
    which branch is taken and which field is written, none is about rounding.
    Numeric results are therefore compared with [==] (equality of rationals).
    A [date] is its ordinal day number, a [datetime] a tick count; the clock
    ([date.today()], [datetime.utcnow()]) is an explicit argument.  A table is
    the list of its rows in storage order and [.first()] picks the first
    matching row; the [student_points] table, whose [student_id] column is
    unique, is a finite map keyed by that column.

    Sessions are created with [autoflush=False] ([app/core/database.py]):
    a query reads the rows as the database holds them, changes made to a
    loaded object reach the database at the next [commit()].  Primary keys
    are taken to be unique, so that a query cannot miss a row that the same
    loop added a moment before.

    The application runs on SQLAlchemy 2 and PostgreSQL: its database URL is
    [postgresql+psycopg://] ([app/core/config.py]).  SQLAlchemy 2 takes the
    whens of [case] as positional arguments and refuses the list that
    [update_term_grade] hands over.  An [Integer] column holds 32 bits and a
    [String(n)] column [n] characters: a flush that would write a value
    outside that range, or a string with more than spaces beyond that
    width, fails.  An exception that nothing catches ends the request with a
    server error ([app/main.py]), and the session is closed without a
    commit. *)

From Stdlib Require Import ZArith QArith Qround Lia Lqa String Ascii.
From Stdlib Require Import DecimalString DecimalZ DecimalPos.
From stdpp Require Import base option list gmap strings.

Open Scope Z_scope.

(** ** Python values *)

Module py.

(** Truth value of an [Optional[float]]: [None] and [0.0] are falsy. *)
Definition float_truthy (x : option Q) : bool :=
  match x with
  | Some q => negb (Qeq_bool q 0)
  | None => false
  end.

(** Truth value of an [Optional[int]]: [None] and [0] are falsy. *)
Definition int_truthy (x : option Z) : bool :=
  match x with
  | Some z => negb (z =? 0)
  | None => false
  end.

(** Truth value of an [Optional[str]]: [None] and the empty string are
    falsy. *)
Definition str_truthy (x : option string) : bool :=
  match x with
  | Some EmptyString => false
  | Some _ => true
  | None => false
  end.

(** Truth value of an [Optional[date]] ([date] objects are always truthy). *)
Definition date_truthy (x : option Z) : bool :=
  match x with Some _ => true | None => false end.

(** [a or b] on optional ints. *)
Definition int_or (a : option Z) (b : Z) : Z :=
  match a with
  | Some z => if z =? 0 then b else z
  | None => b
  end.

Definition lower_ascii (c : ascii) : ascii :=
  let n := nat_of_ascii c in
  if ((65 <=? n)%nat && (n <=? 90)%nat)%bool then ascii_of_nat (n + 32) else c.

(** [str.lower()] (on the ASCII range). *)
Fixpoint lower (s : string) : string :=
  match s with
  | EmptyString => EmptyString
  | String c s' => String (lower_ascii c) (lower s')
  end.

(** [a < b] on floats. *)
Definition float_lt (a b : Q) : bool := negb (Qle_bool b a).

(** [sum(1 for r in l if p r)]. *)
Definition count_if {A} (p : A -> bool) (l : list A) : Z :=
  foldr (fun r acc => if p r then 1 + acc else acc) 0 l.

End py.

(** ** Enumerations ([app/enums.py]) *)

Module AttendanceStatus.
Inductive t := PRESENT | ABSENT | LATE | EXCUSED.
Definition eqb (a b : t) : bool :=
  match a, b with
  | PRESENT, PRESENT | ABSENT, ABSENT | LATE, LATE | EXCUSED, EXCUSED => true
  | _, _ => false
  end.
End AttendanceStatus.

Module AssignmentStatus.
Inductive t := NOT_STARTED | IN_PROGRESS | SUBMITTED | GRADED | OVERDUE | EXCUSED.
End AssignmentStatus.

Module UserRole.
Inductive t := ADMIN | STUDENT.
Definition eqb (a b : t) : bool :=
  match a, b with
  | ADMIN, ADMIN | STUDENT, STUDENT => true
  | _, _ => false
  end.
End UserRole.

(** ** Attendance ([app/utils/attendance.py]) *)

Module AttendanceRecord.
Record t := mk {
  student_id : Z;
  date : Z;
  status : AttendanceStatus.t
}.
End AttendanceRecord.

Definition has_status (s : AttendanceStatus.t) (r : AttendanceRecord.t) : bool :=
  AttendanceStatus.eqb (AttendanceRecord.status r) s.

(** [calculate_attendance_rate(attendance_records, required_days_of_instruction)] *)
Definition calculate_attendance_rate
    (attendance_records : list AttendanceRecord.t)
    (required_days_of_instruction : Z) : Q :=
  let present_days := py.count_if (has_status AttendanceStatus.PRESENT) attendance_records in
  let late_days := py.count_if (has_status AttendanceStatus.LATE) attendance_records in
  let excused_days := py.count_if (has_status AttendanceStatus.EXCUSED) attendance_records in
  let acceptable_days := present_days + late_days + excused_days in
  if 0 <? required_days_of_instruction
  then (inject_Z acceptable_days / inject_Z required_days_of_instruction * 100)%Q
  else 0%Q.

(** The rate as the specification words it: acceptable days over the
    configured requirement, times one hundred. *)
Definition attendance_rate_formula
    (attendance_records : list AttendanceRecord.t) (required : Z) : Q :=
  (inject_Z (py.count_if (has_status AttendanceStatus.PRESENT) attendance_records
             + py.count_if (has_status AttendanceStatus.LATE) attendance_records
             + py.count_if (has_status AttendanceStatus.EXCUSED) attendance_records)
   / inject_Z required * 100)%Q.

(** [n] records of one student with status [s], on consecutive days from [d]. *)
Fixpoint records_with (s : AttendanceStatus.t) (n : nat) (d : Z)
    : list AttendanceRecord.t :=
  match n with
  | O => []
  | S n' => AttendanceRecord.mk 1 d s :: records_with s n' (d + 1)
  end.

(** ** Letter grades *)

(** [TermGradingService._calculate_letter_grade] ([app/services/term_grading.py]). *)
Definition _calculate_letter_grade (percentage : option Q) : option string :=
  match percentage with
  | None => None
  | Some percentage =>
    Some (if Qle_bool 97 percentage then "A+"
          else if Qle_bool 93 percentage then "A"
          else if Qle_bool 90 percentage then "A-"
          else if Qle_bool 87 percentage then "B+"
          else if Qle_bool 83 percentage then "B"
          else if Qle_bool 80 percentage then "B-"
          else if Qle_bool 77 percentage then "C+"
          else if Qle_bool 73 percentage then "C"
          else if Qle_bool 70 percentage then "C-"
          else if Qle_bool 67 percentage then "D+"
          else if Qle_bool 63 percentage then "D"
          else if Qle_bool 60 percentage then "D-"
          else "F")%string
  end.

(** The [if]/[elif] chain written out inside [grade_student_assignment]
    ([app/routers/assignments.py], "Assign letter grade if not provided"). *)
Definition endpoint_letter_grade (percentage : Q) : string :=
  (if Qle_bool 97 percentage then "A+"
   else if Qle_bool 93 percentage then "A"
   else if Qle_bool 90 percentage then "A-"
   else if Qle_bool 87 percentage then "B+"
   else if Qle_bool 83 percentage then "B"
   else if Qle_bool 80 percentage then "B-"
   else if Qle_bool 77 percentage then "C+"
   else if Qle_bool 73 percentage then "C"
   else if Qle_bool 70 percentage then "C-"
   else if Qle_bool 67 percentage then "D+"
   else if Qle_bool 65 percentage then "D"
   else "F")%string.

(** The threshold table as the specification gives it.  The specification
    leaves the boundary between D and D- open, so the band from 60 up to 67
    admits either letter. *)
Definition spec_letter_table (percentage : Q) (g : string) : Prop :=
  ((97 <= percentage)%Q /\ g = "A+"%string)
  \/ ((93 <= percentage < 97)%Q /\ g = "A"%string)
  \/ ((90 <= percentage < 93)%Q /\ g = "A-"%string)
  \/ ((87 <= percentage < 90)%Q /\ g = "B+"%string)
  \/ ((83 <= percentage < 87)%Q /\ g = "B"%string)
  \/ ((80 <= percentage < 83)%Q /\ g = "B-"%string)
  \/ ((77 <= percentage < 80)%Q /\ g = "C+"%string)
  \/ ((73 <= percentage < 77)%Q /\ g = "C"%string)
  \/ ((70 <= percentage < 73)%Q /\ g = "C-"%string)
  \/ ((67 <= percentage < 70)%Q /\ g = "D+"%string)
  \/ ((60 <= percentage < 67)%Q /\ (g = "D"%string \/ g = "D-"%string))
  \/ ((percentage < 60)%Q /\ g = "F"%string).


(** ** The data model ([app/models/*.py], [app/schemas/*.py])

    Each record keeps the columns that the modelled operations read or write.
    Surrogate keys of tables that nothing refers to, creation timestamps and
    free-text columns that no operation reads are left out. *)

Module User.
Record t := mk {
  id : Z;
  role : UserRole.t
}.
End User.

Module AssignmentTemplate.
Record t := mk {
  id : Z;
  name : string;
  subject_id : Z;
  max_points : Z
}.
End AssignmentTemplate.

Module StudentAssignment.
Record t := mk {
  id : Z;
  template_id : Z;
  student_id : Z;
  assigned_date : Z;
  due_date : option Z;
  extended_due_date : option Z;
  status : AssignmentStatus.t;
  started_date : option Z;
  completed_date : option Z;
  submitted_date : option Z;
  points_earned : option Q;
  percentage_grade : option Q;
  letter_grade : option string;
  is_graded : bool;
  graded_date : option Z;
  graded_by : option Z;
  teacher_feedback : option string;
  custom_max_points : option Z
}.

Definition set_status (s : AssignmentStatus.t) (a : t) : t :=
  mk (id a) (template_id a) (student_id a) (assigned_date a) (due_date a)
     (extended_due_date a) s (started_date a) (completed_date a)
     (submitted_date a) (points_earned a) (percentage_grade a) (letter_grade a)
     (is_graded a) (graded_date a) (graded_by a) (teacher_feedback a)
     (custom_max_points a).

Definition set_percentage_grade (p : option Q) (a : t) : t :=
  mk (id a) (template_id a) (student_id a) (assigned_date a) (due_date a)
     (extended_due_date a) (status a) (started_date a) (completed_date a)
     (submitted_date a) (points_earned a) p (letter_grade a)
     (is_graded a) (graded_date a) (graded_by a) (teacher_feedback a)
     (custom_max_points a).

Definition set_letter_grade (g : option string) (a : t) : t :=
  mk (id a) (template_id a) (student_id a) (assigned_date a) (due_date a)
     (extended_due_date a) (status a) (started_date a) (completed_date a)
     (submitted_date a) (points_earned a) (percentage_grade a) g
     (is_graded a) (graded_date a) (graded_by a) (teacher_feedback a)
     (custom_max_points a).

(** The six assignments at the head of "Update grade" in the grading
    endpoint. *)
Definition set_grade (points : Q) (feedback letter : option string)
    (today : Z) (grader : option Z) (a : t) : t :=
  mk (id a) (template_id a) (student_id a) (assigned_date a) (due_date a)
     (extended_due_date a) (status a) (started_date a) (completed_date a)
     (submitted_date a) (Some points) (percentage_grade a) letter
     true (Some today) grader feedback (custom_max_points a).

(** The [max_points] property: [self.custom_max_points or
    self.template.max_points]. *)
Definition max_points (self : t) (template : AssignmentTemplate.t) : Z :=
  py.int_or (custom_max_points self) (AssignmentTemplate.max_points template).

(** [calculate_percentage_grade]: the updated object and the value returned. *)
Definition calculate_percentage_grade (self : t) (template : AssignmentTemplate.t)
    : t * option Q :=
  let self' :=
    match points_earned self with
    | Some p =>
      if 0 <? max_points self template
      then set_percentage_grade
             (Some (p / inject_Z (max_points self template) * 100)%Q) self
      else self
    | None => self
    end in
  (self', percentage_grade self').

(** [update_status] *)
Definition update_status (today : Z) (self : t) : t :=
  let effective_due_date :=
    match extended_due_date self with
    | Some d => Some d
    | None => due_date self
    end in
  if is_graded self then set_status AssignmentStatus.GRADED self
  else if py.date_truthy (submitted_date self) then set_status AssignmentStatus.SUBMITTED self
  else if py.date_truthy (started_date self) then set_status AssignmentStatus.IN_PROGRESS self
  else match effective_due_date with
       | Some d => if d <? today then set_status AssignmentStatus.OVERDUE self
                   else set_status AssignmentStatus.NOT_STARTED self
       | None => set_status AssignmentStatus.NOT_STARTED self
       end.

(** A freshly assigned row: nothing started, nothing graded. *)
Definition fresh (a : t) : Prop :=
  points_earned a = None /\ percentage_grade a = None /\ is_graded a = false.
End StudentAssignment.

Module Term.
Record t := mk {
  id : Z;
  name : string;
  start_date : Z;
  end_date : Z;
  is_active : bool
}.
End Term.

Module TermSubject.
Record t := mk {
  id : Z;
  term_id : Z;
  subject_id : Z;
  is_active : bool;
  weight : Q
}.
End TermSubject.

Module StudentTermGrade.
Record t := mk {
  student_id : Z;
  term_subject_id : Z;
  current_points_earned : Q;
  current_points_possible : Q;
  current_percentage : option Q;
  current_letter_grade : option string;
  final_points_earned : option Q;
  final_points_possible : option Q;
  final_percentage : option Q;
  final_letter_grade : option string;
  is_finalized : bool;
  finalized_date : option Z;
  finalized_by : option Z;
  assignments_completed : Z;
  assignments_total : Z;
  last_calculated : option Z
}.

(** [StudentTermGrade(student_id=..., term_subject_id=...)] once inserted:
    the column defaults are filled in, the other columns are NULL. *)
Definition new (student_id term_subject_id : Z) : t :=
  mk student_id term_subject_id 0%Q 0%Q None None None None None None
     false None None 0 0 None.

(** [calculate_current_grade]: the updated object (the value returned is its
    [current_percentage]). *)
Definition calculate_current_grade (now : Z) (self : t) : t :=
  let pct :=
    if py.float_lt 0 (current_points_possible self)
    then Some (current_points_earned self / current_points_possible self * 100)%Q
    else None in
  mk (student_id self) (term_subject_id self)
     (current_points_earned self) (current_points_possible self)
     pct (current_letter_grade self)
     (final_points_earned self) (final_points_possible self) (final_percentage self)
     (final_letter_grade self) (is_finalized self) (finalized_date self)
     (finalized_by self)
     (assignments_completed self) (assignments_total self) (Some now).

(** "Update grade information" in
    [TermGradingService.calculate_student_term_grades]. *)
Definition set_current (earned possible : Q) (pct : option Q)
    (letter : option string) (total : Z) (now : Z) (g : t) : t :=
  mk (student_id g) (term_subject_id g) earned possible pct letter
     (final_points_earned g) (final_points_possible g) (final_percentage g)
     (final_letter_grade g) (is_finalized g) (finalized_date g) (finalized_by g)
     total total (Some now).

(** [finalize_grade(finalizer_id)] *)
Definition finalize_grade (today : Z) (finalizer_id : Z) (self : t) : t :=
  mk (student_id self) (term_subject_id self)
     (current_points_earned self) (current_points_possible self)
     (current_percentage self) (current_letter_grade self)
     (Some (current_points_earned self)) (Some (current_points_possible self))
     (current_percentage self) (current_letter_grade self)
     true (Some today) (Some finalizer_id)
     (assignments_completed self) (assignments_total self) (last_calculated self).

(** The columns that finalisation freezes. *)
Definition final_fields (g : t) :=
  (final_points_earned g, final_points_possible g, final_percentage g,
   final_letter_grade g, is_finalized g, finalized_date g, finalized_by g).

(** The roll-up columns that a recalculation rewrites. *)
Definition current_fields (g : t) :=
  (current_points_earned g, current_points_possible g, current_percentage g,
   current_letter_grade g, assignments_completed g, assignments_total g).

Definition has_key (student_id' term_subject_id' : Z) (g : t) : bool :=
  (student_id g =? student_id') && (term_subject_id g =? term_subject_id').
End StudentTermGrade.

Module StudentPoints.
Record t := mk {
  student_id : Z;
  current_balance : Z;
  total_earned : Z;
  total_spent : Z
}.
End StudentPoints.

(** The [notes] column is left out: for an award it holds the decimal
    rendering of the grade. *)
Module PointTransaction.
Record t := mk {
  student_id : Z;
  amount : Z;
  transaction_type : string;
  source_id : option Z;
  source_description : option string;
  admin_id : option Z
}.
End PointTransaction.

Module SystemSettings.
Record t := mk {
  setting_key : string;
  setting_value : string;
  is_active : bool
}.
End SystemSettings.

(** Request schemas. *)

Module PointTransactionCreate.
Record t := mk {
  student_id : Z;
  amount : Z;
  transaction_type : string;
  source_id : option Z;
  source_description : option string
}.
End PointTransactionCreate.

Module AdminPointAdjustment.
Record t := mk {
  student_id : Z;
  amount : Z;
  notes : string
}.
End AdminPointAdjustment.

Module StudentAssignmentGrade.
Record t := mk {
  points_earned : Q;
  teacher_feedback : option string;
  letter_grade : option string
}.
End StudentAssignmentGrade.

(** The database: one field per table. *)
Record DB := mkDB {
  users : list User.t;
  assignment_templates : list AssignmentTemplate.t;
  student_assignments : list StudentAssignment.t;
  terms : list Term.t;
  term_subjects : list TermSubject.t;
  student_term_grades : list StudentTermGrade.t;
  student_points : gmap Z StudentPoints.t;
  point_transactions : list PointTransaction.t;
  system_settings : list SystemSettings.t
}.

Definition empty_db : DB := mkDB [] [] [] [] [] [] ∅ [] [].

Definition with_student_assignments (l : list StudentAssignment.t) (db : DB) : DB :=
  mkDB (users db) (assignment_templates db) l (terms db) (term_subjects db)
       (student_term_grades db) (student_points db) (point_transactions db)
       (system_settings db).

Definition with_term_subjects (l : list TermSubject.t) (db : DB) : DB :=
  mkDB (users db) (assignment_templates db) (student_assignments db) (terms db) l
       (student_term_grades db) (student_points db) (point_transactions db)
       (system_settings db).

Definition with_student_term_grades (l : list StudentTermGrade.t) (db : DB) : DB :=
  mkDB (users db) (assignment_templates db) (student_assignments db) (terms db)
       (term_subjects db) l (student_points db) (point_transactions db)
       (system_settings db).

Definition with_student_points (m : gmap Z StudentPoints.t) (db : DB) : DB :=
  mkDB (users db) (assignment_templates db) (student_assignments db) (terms db)
       (term_subjects db) (student_term_grades db) m (point_transactions db)
       (system_settings db).

Definition with_point_transactions (l : list PointTransaction.t) (db : DB) : DB :=
  mkDB (users db) (assignment_templates db) (student_assignments db) (terms db)
       (term_subjects db) (student_term_grades db) (student_points db) l
       (system_settings db).

(** ** Queries and in-place updates on a table *)

(** Mutating the object that [.first()] returned: the first row that
    satisfies [p] is replaced by its image under [f]. *)
Fixpoint update_first {A} (p : A -> bool) (f : A -> A) (l : list A) : list A :=
  match l with
  | [] => []
  | x :: l' => if p x then f x :: l' else x :: update_first p f l'
  end.

(** Find-or-create: [query.first()], and [session.add(new)] when there is
    no such row. *)
Definition ensure_row {A} (p : A -> bool) (new : A) (l : list A) : list A :=
  if existsb p l then l else l ++ [new].

(** The [template] relationship of a student assignment. *)
Definition template_of (db : DB) (a : StudentAssignment.t)
    : option AssignmentTemplate.t :=
  List.find (fun t => AssignmentTemplate.id t =? StudentAssignment.template_id a)
            (assignment_templates db).

(** [query(StudentAssignment).join(AssignmentTemplate)]: every assignment
    paired with its template (an inner join: rows without one drop out). *)
Definition assignments_joined (db : DB)
    : list (StudentAssignment.t * AssignmentTemplate.t) :=
  omap (fun a => match template_of db a with
                 | Some t => Some (a, t)
                 | None => None
                 end)
       (student_assignments db).

(** ** Term-grade recalculation ([StudentAssignment.update_term_grade]) *)

(** Which way the method was left: through one of its three [return]s, or
    with the ArgumentError of
    [case([(StudentAssignment.is_graded, 1)], else_=0)].  The call is
    evaluated while the arguments of the first aggregate query are put
    together, so the method never runs that query, nor the assignments to
    the roll-up row, [calculate_current_grade()] and [session.commit()]
    that follow it. *)
Inductive TermGradeExit :=
| ReturnNotGraded
| ReturnNoActiveTerm
| ReturnNoTermSubject
| RaiseArgumentError.

Definition active_term (db : DB) : option Term.t :=
  List.find Term.is_active (terms db).

Definition term_subject_link (db : DB) (term_id subject_id : Z)
    : option TermSubject.t :=
  List.find (fun ts => (TermSubject.term_id ts =? term_id)
                       && (TermSubject.subject_id ts =? subject_id))
            (term_subjects db).

Definition has_id (assignment_id : Z) (a : StudentAssignment.t) : bool :=
  StudentAssignment.id a =? assignment_id.

(** What a commit does with a loaded assignment object: its row takes the
    values of the object. *)
Definition flush_assignment (a : StudentAssignment.t) (db : DB) : DB :=
  with_student_assignments
    (update_first (has_id (StudentAssignment.id a)) (fun _ => a)
                  (student_assignments db))
    db.

(** [update_term_grade(self, session)], with the [template] relationship of
    [self] resolved by the caller.  [self] is the loaded object, [db] the
    rows as the database holds them when the method is called.  Past the
    three [return]s the method looks up the roll-up row and, if there is
    none, hands a new one to [session.add]; nothing is flushed before
    [case] raises, so the database is left as it was on every way out. *)
Definition update_term_grade (db : DB)
    (self : StudentAssignment.t) (template : AssignmentTemplate.t)
    : TermGradeExit * DB :=
  if negb (StudentAssignment.is_graded self)
     || negb (py.float_truthy (StudentAssignment.points_earned self))
  then (ReturnNotGraded, db)
  else
    match active_term db with
    | None => (ReturnNoActiveTerm, db)
    | Some term =>
      match term_subject_link db (Term.id term)
                              (AssignmentTemplate.subject_id template) with
      | None => (ReturnNoTermSubject, db)
      | Some term_subject => (RaiseArgumentError, db)
      end
    end.

(** ** The term grading service ([app/services/term_grading.py]) *)

(** The next value of an auto-incremented primary key. *)
Definition next_id (ids : list Z) : Z := 1 + foldr Z.max 0 ids.

Definition has_link (term_id subject_id : Z) (ts : TermSubject.t) : bool :=
  (TermSubject.term_id ts =? term_id) && (TermSubject.subject_id ts =? subject_id).

Definition completed_in_term (term : Term.t)
    (row : StudentAssignment.t * AssignmentTemplate.t) : bool :=
  match StudentAssignment.completed_date row.1 with
  | Some d => (Term.start_date term <=? d) && (d <=? Term.end_date term)
  | None => false
  end.

(** The [subject_ids] set that [auto_link_subjects_to_terms] builds for one
    term.  A Python set has no specified iteration order; the model visits
    the subjects in the order [remove_dups] leaves them. *)
Definition linked_subject_ids (db : DB) (term : Term.t) : list Z :=
  remove_dups
    (map (fun row => AssignmentTemplate.subject_id row.2)
       (List.filter
          (fun row => negb (AssignmentTemplate.subject_id row.2 =? 0))
          (List.filter (completed_in_term term) (assignments_joined db)))).

Record LinkResults := mkLinkResults {
  subjects_linked : Z;
  term_subjects_created : Z
}.

(** One turn of the inner loop: "Link subjects to term if not already
    linked". *)
Definition link_subject (term : Term.t)
    (acc : list TermSubject.t * Z) (subject_id : Z) : list TermSubject.t * Z :=
  let p := has_link (Term.id term) subject_id in
  (ensure_row p
     (TermSubject.mk (next_id (map TermSubject.id acc.1)) (Term.id term)
                     subject_id true 1%Q)
     acc.1,
   if existsb p acc.1 then acc.2 else acc.2 + 1).

(** One turn of the outer loop over the terms. *)
Definition link_term (db : DB)
    (acc : list TermSubject.t * LinkResults) (term : Term.t)
    : list TermSubject.t * LinkResults :=
  let subject_ids := linked_subject_ids db term in
  let inner :=
    foldl (link_subject term) (acc.1, term_subjects_created acc.2) subject_ids in
  (inner.1,
   mkLinkResults (subjects_linked acc.2 + Z.of_nat (length subject_ids)) inner.2).

(** The [terms] that [auto_link_subjects_to_terms] goes through: all of them
    unless [term_id] is truthy. *)
Definition selected_terms (db : DB) (term_id : option Z) : list Term.t :=
  if py.int_truthy term_id
  then List.filter (fun t => bool_decide (Some (Term.id t) = term_id)) (terms db)
  else terms db.

(** [TermGradingService.auto_link_subjects_to_terms(db, term_id)] *)
Definition auto_link_subjects_to_terms (db : DB) (term_id : option Z)
    : DB * LinkResults :=
  let out :=
    foldl (link_term db) (term_subjects db, mkLinkResults 0 0)
          (selected_terms db term_id) in
  (with_term_subjects out.1 db, out.2).

Definition graded_in_term (student_id subject_id : Z) (term : Term.t)
    (row : StudentAssignment.t * AssignmentTemplate.t) : bool :=
  (StudentAssignment.student_id row.1 =? student_id)
  && (AssignmentTemplate.subject_id row.2 =? subject_id)
  && StudentAssignment.is_graded row.1
  && completed_in_term term row.

(** [sum(a.points_earned or 0 for a in graded_assignments)] *)
Definition sum_points_earned
    (rows : list (StudentAssignment.t * AssignmentTemplate.t)) : Q :=
  foldl (fun acc row =>
           (acc + match StudentAssignment.points_earned row.1 with
                  | Some p => if Qeq_bool p 0 then 0 else p
                  | None => 0
                  end)%Q)
        0%Q rows.

(** [sum(a.max_points for a in graded_assignments)] *)
Definition sum_max_points
    (rows : list (StudentAssignment.t * AssignmentTemplate.t)) : Z :=
  foldl (fun acc row => acc + StudentAssignment.max_points row.1 row.2) 0 rows.

Inductive ServiceResult :=
| TermNotFound
| GradesCalculated (grades_calculated students_processed : Z).

(** The body of the loop over [term_subjects], for one student. *)
Definition grade_term_subject (now : Z) (db : DB) (term : Term.t) (student : User.t)
    (acc : list StudentTermGrade.t * Z) (term_subject : TermSubject.t)
    : list StudentTermGrade.t * Z :=
  let graded_assignments :=
    List.filter
      (graded_in_term (User.id student) (TermSubject.subject_id term_subject) term)
      (assignments_joined db) in
  match graded_assignments with
  | [] => acc
  | _ :: _ =>
    let total_points_earned := sum_points_earned graded_assignments in
    let total_points_possible := sum_max_points graded_assignments in
    let total_assignments := Z.of_nat (length graded_assignments) in
    let current_percentage :=
      if 0 <? total_points_possible
      then Some (total_points_earned / inject_Z total_points_possible * 100)%Q
      else None in
    let letter_grade := _calculate_letter_grade current_percentage in
    let key :=
      StudentTermGrade.has_key (User.id student) (TermSubject.id term_subject) in
    (update_first key
       (StudentTermGrade.set_current total_points_earned
          (inject_Z total_points_possible) current_percentage letter_grade
          total_assignments now)
       (ensure_row key
          (StudentTermGrade.new (User.id student) (TermSubject.id term_subject))
          acc.1),
     acc.2 + 1)
  end.

(** The body of the loop over [students]. *)
Definition grade_student (now : Z) (db : DB) (term : Term.t)
    (term_subjects : list TermSubject.t)
    (acc : list StudentTermGrade.t * (Z * Z)) (student : User.t)
    : list StudentTermGrade.t * (Z * Z) :=
  let inner :=
    foldl (grade_term_subject now db term student) (acc.1, acc.2.1) term_subjects in
  (inner.1, (inner.2, acc.2.2 + 1)).

(** [TermGradingService.calculate_student_term_grades(db, term_id, student_id)] *)
Definition calculate_student_term_grades (now : Z) (db : DB)
    (term_id : Z) (student_id : option Z) : DB * ServiceResult :=
  let db := (auto_link_subjects_to_terms db (Some term_id)).1 in
  match List.find (fun t => Term.id t =? term_id) (terms db) with
  | None => (db, TermNotFound)
  | Some term =>
    let term_subjects :=
      List.filter (fun ts => TermSubject.term_id ts =? term_id) (term_subjects db) in
    let students :=
      List.filter
        (fun u => UserRole.eqb (User.role u) UserRole.STUDENT
                  && (if py.int_truthy student_id
                      then bool_decide (Some (User.id u) = student_id)
                      else true))
        (users db) in
    let out :=
      foldl (grade_student now db term term_subjects)
            (student_term_grades db, (0, 0)) students in
    (with_student_term_grades out.1 db,
     GradesCalculated out.2.1 out.2.2)
  end.

(** ** The session: staged changes, commits and failing database calls

    The points code stages objects with [db.add], mutates tracked objects and
    makes them durable with [db.commit()].  A session is therefore what has
    been committed, what the session currently sees, and whether what is
    pending can be written at all.  Each database round trip of
    [app/crud/points.py] is named, and an oracle says which of them raise for
    reasons of their own; a commit also raises when a pending value does not
    fit its column, and the schema validation of a request object is the
    third source of exceptions.  A call that raises leaves the committed
    state as it is; what the caller does next is what its own [except]
    clause says. *)

Inductive DbCall :=
| QueryStudentPoints       (* the query in get_or_create_student_points *)
| CommitNewStudentPoints   (* db.commit() in get_or_create_student_points *)
| RefreshNewStudentPoints  (* db.refresh(student_points) *)
| CommitTransaction        (* db.commit() in create_point_transaction *)
| RefreshTransaction.      (* db.refresh(db_transaction) *)

Inductive Exn :=
| ValidationError
| OperationalError (call : DbCall)
| DataError (call : DbCall).

Record Session := mkSession {
  stored : DB;
  working : DB;
  flushable : bool
}.

Definition op (A : Type) : Type :=
  (DbCall -> bool) -> Session -> Session * (Exn + A).

#[global] Instance op_ret : MRet op :=
  fun A a _ s => (s, inr a).

#[global] Instance op_bind : MBind op :=
  fun A B k m fails s =>
    match m fails s with
    | (s', inr a) => k a fails s'
    | (s', inl e) => (s', inl e)
    end.

Definition raise {A} (e : Exn) : op A :=
  fun _ s => (s, inl e).

Definition db_query {A} (call : DbCall) (q : DB -> A) : op A :=
  fun fails s =>
    if fails call then (s, inl (OperationalError call))
    else (s, inr (q (working s))).

(** [db.add(obj)], or an attribute assignment on a tracked object; [fits]
    tells whether the values handed over fit their columns. *)
Definition db_stage (fits : bool) (f : DB -> DB) : op () :=
  fun _ s =>
    (mkSession (stored s) (f (working s)) (flushable s && fits), inr ()).

(** [db.commit()]: the flush writes what is pending, or fails on a value
    out of range, and the session then rolls back. *)
Definition db_commit (call : DbCall) : op () :=
  fun fails s =>
    if fails call then (s, inl (OperationalError call))
    else if flushable s then (mkSession (working s) (working s) true, inr ())
    else (mkSession (stored s) (stored s) true, inl (DataError call)).

Definition db_refresh (call : DbCall) : op () :=
  fun fails s =>
    if fails call then (s, inl (OperationalError call)) else (s, inr ()).

(** A request runs in a session of its own; when the request ends the session
    is closed and whatever was not committed is gone. *)
Definition run_request {A} (m : op A) (fails : DbCall -> bool) (db : DB)
    : DB * (Exn + A) :=
  let out := m fails (mkSession db db true) in
  (stored out.1, out.2).

Definition no_failure : DbCall -> bool := fun _ => false.

(** The values of an [Integer] column. *)
Definition fits_Integer (z : Z) : bool :=
  (-2147483648 <=? z) && (z <=? 2147483647).

(** The values of a [String(n)] column: PostgreSQL refuses a value that has
    anything but spaces beyond the width [n]; such spaces it cuts off. *)
Fixpoint fits_String (n : nat) (s : string) : bool :=
  match s with
  | EmptyString => true
  | String c s' =>
    match n with
    | O => Ascii.eqb c " " && fits_String O s'
    | S n' => fits_String n' s'
    end
  end.

Fixpoint as_String (n : nat) (s : string) : string :=
  match s, n with
  | String c s', S n' => String c (as_String n' s')
  | _, _ => EmptyString
  end.

(** ** The points ledger ([app/crud/points.py]) *)

(** [get_system_setting(db, setting_key)] *)
Definition get_system_setting (db : DB) (setting_key : string)
    : option SystemSettings.t :=
  List.find (fun s => String.eqb (SystemSettings.setting_key s) setting_key
                      && SystemSettings.is_active s)
            (system_settings db).

(** [is_points_system_enabled(db)] *)
Definition is_points_system_enabled (db : DB) : bool :=
  match get_system_setting db "points_system_enabled" with
  | None => false
  | Some setting =>
    String.eqb (py.lower (SystemSettings.setting_value setting)) "true"
  end.

(** [get_or_create_student_points(db, student_id)] *)
Definition get_or_create_student_points (student_id : Z) : op StudentPoints.t :=
  found ← db_query QueryStudentPoints
            (fun db => student_points db !! student_id);
  match found with
  | Some points_row => mret points_row
  | None =>
    let points_row := StudentPoints.mk student_id 0 0 0 in
    db_stage true (fun db =>
      with_student_points (<[student_id := points_row]> (student_points db)) db);;
    db_commit CommitNewStudentPoints;;
    db_refresh RefreshNewStudentPoints;;
    mret points_row
  end.

(** The balance update of [create_point_transaction], on Python's
    integers. *)
Definition apply_amount (amount : Z) (sp : StudentPoints.t) : StudentPoints.t :=
  let balance := StudentPoints.current_balance sp + amount in
  if 0 <? amount
  then StudentPoints.mk (StudentPoints.student_id sp) balance
         (StudentPoints.total_earned sp + amount) (StudentPoints.total_spent sp)
  else StudentPoints.mk (StudentPoints.student_id sp) balance
         (StudentPoints.total_earned sp)
         (StudentPoints.total_spent sp + Z.abs amount).

(** The three counters of a row fit their columns. *)
Definition counters_fit (sp : StudentPoints.t) : bool :=
  fits_Integer (StudentPoints.current_balance sp)
  && fits_Integer (StudentPoints.total_earned sp)
  && fits_Integer (StudentPoints.total_spent sp).

(** Whether a transaction fits the columns of its table ([amount] is an
    [Integer], [transaction_type] a [String(50)], [source_description] a
    [String(255)]), and the row that it makes. *)
Definition transaction_fits (t : PointTransaction.t) : bool :=
  fits_Integer (PointTransaction.amount t)
  && fits_String 50 (PointTransaction.transaction_type t)
  && match PointTransaction.source_description t with
     | Some description => fits_String 255 description
     | None => true
     end.

Definition transaction_row (t : PointTransaction.t) : PointTransaction.t :=
  PointTransaction.mk
    (PointTransaction.student_id t) (PointTransaction.amount t)
    (as_String 50 (PointTransaction.transaction_type t))
    (PointTransaction.source_id t)
    (as_String 255 <$> PointTransaction.source_description t)
    (PointTransaction.admin_id t).

(** [create_point_transaction(db, transaction, admin_id)].  The amount, the
    strings and the counters come from the request and need not fit their
    columns; the ids are those of rows that exist.  The object returned is
    the one that [db.refresh] has read back. *)
Definition create_point_transaction (transaction : PointTransactionCreate.t)
    (admin_id : option Z) : op PointTransaction.t :=
  let db_transaction :=
    PointTransaction.mk
      (PointTransactionCreate.student_id transaction)
      (PointTransactionCreate.amount transaction)
      (PointTransactionCreate.transaction_type transaction)
      (PointTransactionCreate.source_id transaction)
      (PointTransactionCreate.source_description transaction)
      admin_id in
  db_stage (transaction_fits db_transaction) (fun db =>
    with_point_transactions
      (point_transactions db ++ [transaction_row db_transaction]) db);;
  points_row ←
    get_or_create_student_points (PointTransactionCreate.student_id transaction);
  let points_row :=
    apply_amount (PointTransactionCreate.amount transaction) points_row in
  db_stage (counters_fit points_row) (fun db =>
    with_student_points
      (<[PointTransactionCreate.student_id transaction := points_row]>
         (student_points db))
      db);;
  db_commit CommitTransaction;;
  db_refresh RefreshTransaction;;
  mret (transaction_row db_transaction).

(** [admin_adjust_points(db, adjustment, admin_id)]; [admin_id] is [None] when
    the caller is an API key. *)
Definition admin_adjust_points (adjustment : AdminPointAdjustment.t)
    (admin_id : option Z) : op PointTransaction.t :=
  let positive := 0 <? AdminPointAdjustment.amount adjustment in
  let transaction_type :=
    (if positive then "admin_award" else "admin_deduction")%string in
  let transaction_data :=
    PointTransactionCreate.mk
      (AdminPointAdjustment.student_id adjustment)
      (AdminPointAdjustment.amount adjustment)
      transaction_type
      None
      (Some ("Manual " ++ (if positive then "award" else "deduction")
             ++ " by admin")%string) in
  create_point_transaction transaction_data admin_id.

(** Validation of the [amount: int] field of [PointTransactionCreate] when it
    is handed a float.  The schemas are written for pydantic 2 (their
    [Config] sets [from_attributes]), which converts a float without
    fractional part and rejects any other. *)
Definition validate_int (x : Q) : option Z :=
  if Qeq_bool (inject_Z (Qfloor x)) x then Some (Qfloor x) else None.

(** [award_assignment_points(db, student_id, assignment_id, points_earned,
    assignment_title)]; the grading endpoints pass the float of the grade as
    [points_earned]. *)
Definition award_assignment_points (student_id assignment_id : Z)
    (points_earned : Q) (assignment_title : string) : op PointTransaction.t :=
  match validate_int points_earned with
  | None => raise ValidationError
  | Some amount =>
    create_point_transaction
      (PointTransactionCreate.mk student_id amount "assignment"
         (Some assignment_id) (Some ("Assignment: " ++ assignment_title)%string))
      None
  end.

(** ** The grading endpoint ([app/routers/assignments.py]) *)

Inductive Response (A : Type) :=
| Ok (body : A)
| HTTPException (status_code : Z)
| InternalServerError.
Arguments Ok {A} body.
Arguments HTTPException {A} status_code.
Arguments InternalServerError {A}.

(** What "Update grade", "Calculate percentage", "Assign letter grade if not
    provided" and [update_status] make of the assignment object. *)
Definition graded_assignment (today : Z) (grade_data : StudentAssignmentGrade.t)
    (grader : option Z) (assignment : StudentAssignment.t)
    (template : AssignmentTemplate.t) : StudentAssignment.t :=
  let assignment :=
    StudentAssignment.set_grade
      (StudentAssignmentGrade.points_earned grade_data)
      (StudentAssignmentGrade.teacher_feedback grade_data)
      (StudentAssignmentGrade.letter_grade grade_data)
      today grader assignment in
  let '(assignment, percentage) :=
    StudentAssignment.calculate_percentage_grade assignment template in
  let assignment :=
    match percentage with
    | Some percentage =>
      if negb (py.str_truthy (StudentAssignmentGrade.letter_grade grade_data))
      then StudentAssignment.set_letter_grade
             (Some (endpoint_letter_grade percentage)) assignment
      else StudentAssignment.set_letter_grade
             (StudentAssignmentGrade.letter_grade grade_data) assignment
    | None =>
      StudentAssignment.set_letter_grade
        (StudentAssignmentGrade.letter_grade grade_data) assignment
    end in
  StudentAssignment.update_status today assignment.

(** The [try] block "Award points if points system is enabled": whatever the
    award raises is logged and dropped. *)
Definition try_award_points (fails : DbCall -> bool) (db : DB)
    (assignment : StudentAssignment.t) (template : AssignmentTemplate.t)
    (points_earned : Q) : DB :=
  if is_points_system_enabled db
  then (run_request
          (award_assignment_points (StudentAssignment.student_id assignment)
             (StudentAssignment.id assignment) points_earned
             (AssignmentTemplate.name template))
          fails db).1
  else db.

(** "Automatically update term grades" and the [db.commit()] after it:
    [assignment.update_term_grade(db)] runs while the graded assignment is
    still only in the session.  When it returns, the commit writes the
    assignment; when it raises, nothing catches the exception and the
    request is over ([None]). *)
Definition commit_grade (db : DB)
    (assignment : StudentAssignment.t) (template : AssignmentTemplate.t)
    : option DB :=
  match update_term_grade db assignment template with
  | (RaiseArgumentError, _) => None
  | (_, db) => Some (flush_assignment assignment db)
  end.

(** [grade_student_assignment(assignment_id, grade_data, db, current_user)].
    The first test is the [Field(..., ge=0)] constraint of the request
    schema.  [template_id] is a non-null foreign key; should it dangle, the
    attribute access on the missing template ends the request with a server
    error. *)
Definition grade_student_assignment (fails : DbCall -> bool) (today : Z)
    (db : DB) (assignment_id : Z) (grade_data : StudentAssignmentGrade.t)
    (current_user : User.t) : DB * Response StudentAssignment.t :=
  if negb (Qle_bool 0 (StudentAssignmentGrade.points_earned grade_data))
  then (db, HTTPException 422)
  else if negb (UserRole.eqb (User.role current_user) UserRole.ADMIN)
  then (db, HTTPException 403)
  else
    match List.find (has_id assignment_id) (student_assignments db) with
    | None => (db, HTTPException 404)
    | Some assignment =>
      match List.find
              (fun u => (User.id u =? StudentAssignment.student_id assignment)
                        && UserRole.eqb (User.role u) UserRole.STUDENT)
              (users db) with
      | None => (db, HTTPException 404)
      | Some student =>
        match template_of db assignment with
        | None => (db, InternalServerError)
        | Some template =>
          let max_points := StudentAssignment.max_points assignment template in
          if py.float_lt (inject_Z max_points)
                         (StudentAssignmentGrade.points_earned grade_data)
          then (db, HTTPException 400)
          else
            let assignment :=
              graded_assignment today grade_data (Some (User.id current_user))
                                assignment template in
            match commit_grade db assignment template with
            | None => (db, InternalServerError)
            | Some db =>
              let db :=
                try_award_points fails db assignment template
                  (StudentAssignmentGrade.points_earned grade_data) in
              (db, Ok assignment)
            end
        end
      end
    end.

(** ** Vocabulary of the properties *)

(** A grading request as the endpoint receives it, with the day and the
    failing database calls of its run. *)
Record GradeRequest := mkGradeRequest {
  req_fails : DbCall -> bool;
  req_today : Z;
  req_assignment_id : Z;
  req_grade_data : StudentAssignmentGrade.t;
  req_current_user : User.t
}.

Definition run_grading (db : DB) (r : GradeRequest) : DB :=
  (grade_student_assignment (req_fails r) (req_today r) db
     (req_assignment_id r) (req_grade_data r) (req_current_user r)).1.

Definition run_gradings (db : DB) (rs : list GradeRequest) : DB :=
  foldl run_grading db rs.

(** The checks of the endpoint that precede any mutation all pass. *)
Definition valid_grade_request (db : DB) (assignment_id : Z)
    (grade_data : StudentAssignmentGrade.t) (current_user : User.t)
    (assignment : StudentAssignment.t) (template : AssignmentTemplate.t) : Prop :=
  Qle_bool 0 (StudentAssignmentGrade.points_earned grade_data) = true
  /\ User.role current_user = UserRole.ADMIN
  /\ List.find (has_id assignment_id) (student_assignments db) = Some assignment
  /\ is_Some (List.find
                (fun u => (User.id u =? StudentAssignment.student_id assignment)
                          && UserRole.eqb (User.role u) UserRole.STUDENT)
                (users db))
  /\ template_of db assignment = Some template
  /\ py.float_lt (inject_Z (StudentAssignment.max_points assignment template))
                 (StudentAssignmentGrade.points_earned grade_data) = false.

(** The percentage invariant of a student assignment, relative to its
    template. *)
Definition percentage_invariant (a : StudentAssignment.t)
    (t : AssignmentTemplate.t) : Prop :=
  (is_Some (StudentAssignment.percentage_grade a)
   <-> is_Some (StudentAssignment.points_earned a)
       /\ 0 < StudentAssignment.max_points a t)
  /\ (forall p pct,
        StudentAssignment.points_earned a = Some p ->
        StudentAssignment.percentage_grade a = Some pct ->
        pct = (p / inject_Z (StudentAssignment.max_points a t) * 100)%Q)
  /\ (StudentAssignment.max_points a t <= 0 ->
      (StudentAssignment.calculate_percentage_grade a t).2 = None).

(** A point-transaction operation: an assignment award or an admin
    adjustment, with the failing database calls of its run. *)
Inductive PointsOp :=
| AwardAssignment (fails : DbCall -> bool) (student_id assignment_id : Z)
                  (points_earned : Q) (assignment_title : string)
| AdminAdjust (fails : DbCall -> bool) (adjustment : AdminPointAdjustment.t)
              (admin_id : option Z).

(** What the operation leaves in the database, and how it ends. *)
Definition outcome (db : DB) (o : PointsOp) : DB * (Exn + PointTransaction.t) :=
  match o with
  | AwardAssignment fails s a p title =>
    run_request (award_assignment_points s a p title) fails db
  | AdminAdjust fails adj admin =>
    run_request (admin_adjust_points adj admin) fails db
  end.

Definition perform (db : DB) (o : PointsOp) : DB := (outcome db o).1.

(** Every operation of the sequence returns. *)
Fixpoint all_return (db : DB) (ops : list PointsOp) : Prop :=
  match ops with
  | [] => True
  | o :: ops =>
    (exists t, (outcome db o).2 = inr t) /\ all_return (perform db o) ops
  end.

(** The sum of [PointTransaction.amount] over one student's transactions. *)
Definition ledger_sum (student_id : Z) (txs : list PointTransaction.t) : Z :=
  foldr (fun t acc =>
           if PointTransaction.student_id t =? student_id
           then PointTransaction.amount t + acc else acc)
        0 txs.

(** The roll-up row of a student for a term subject. *)
Definition term_grade_of (db : DB) (student_id term_subject_id : Z)
    : option StudentTermGrade.t :=
  List.find (StudentTermGrade.has_key student_id term_subject_id)
            (student_term_grades db).

(** ** Keyed tables

    Bookkeeping for tables addressed through a key (a uniqueness constraint
    in the schema): [update_unseen key g seen l] applies [g] to each row of
    [l] that is the first one carrying its key, the keys in [seen] counting as
    met already. *)

Fixpoint update_unseen {A K} `{EqDecision K} (key : A -> K) (g : A -> A)
    (seen : list K) (l : list A) : list A :=
  match l with
  | [] => []
  | r :: l' =>
    (if decide (key r ∈ seen) then r else g r)
      :: update_unseen key g (key r :: seen) l'
  end.

(** Find-or-create followed by an assignment to the row: one turn of a loop
    that upserts [(k, v)] at time [t]. *)
Definition upsert {A K V T} (P : K -> A -> bool) (blank : K -> A)
    (set : V -> T -> A -> A) (t : T) (l : list A) (kv : K * V) : list A :=
  update_first (P kv.1) (set kv.2 t) (ensure_row (P kv.1) (blank kv.1) l).

(** The value that a sequence of upserts leaves on a row: that of the last
    entry addressed to the row's key. *)
Definition last_match {A K V} (P : K -> A -> bool) (r : A) (acc : option V)
    (U : list (K * V)) : option V :=
  foldl (fun acc kv => if P kv.1 r then Some kv.2 else acc) acc U.

Definition apply_match {A V T} (set : V -> T -> A -> A) (t : T) (r : A)
    (m : option V) : A :=
  match m with
  | Some v => set v t r
  | None => r
  end.

(** The key of a roll-up row: the columns of its uniqueness constraint. *)
Definition term_grade_key (g : StudentTermGrade.t) : Z * Z :=
  (StudentTermGrade.student_id g, StudentTermGrade.term_subject_id g).

(** What one turn of the loop over [term_subjects] writes, as data: earned,
    possible, percentage, letter and count, or nothing when the student has no
    graded assignment for the subject. *)
Definition term_subject_entry (db : DB) (term : Term.t) (student : User.t)
    (term_subject : TermSubject.t)
    : option ((Z * Z) * (Q * Q * option Q * option string * Z)) :=
  let graded_assignments :=
    List.filter
      (graded_in_term (User.id student) (TermSubject.subject_id term_subject) term)
      (assignments_joined db) in
  match graded_assignments with
  | [] => None
  | _ :: _ =>
    let total_points_earned := sum_points_earned graded_assignments in
    let total_points_possible := sum_max_points graded_assignments in
    let current_percentage :=
      if 0 <? total_points_possible
      then Some (total_points_earned / inject_Z total_points_possible * 100)%Q
      else None in
    Some ((User.id student, TermSubject.id term_subject),
          (total_points_earned, inject_Z total_points_possible,
           current_percentage, _calculate_letter_grade current_percentage,
           Z.of_nat (length graded_assignments)))
  end.

Definition set_entry (v : Q * Q * option Q * option string * Z) (now : Z)
    (g : StudentTermGrade.t) : StudentTermGrade.t :=
  let '(earned, possible, pct, letter, total) := v in
  StudentTermGrade.set_current earned possible pct letter total now g.

(** All the writes of one run of the service, in loop order. *)
Definition service_entries (db : DB) (term : Term.t)
    (term_subjects : list TermSubject.t) (students : list User.t)
    : list ((Z * Z) * (Q * Q * option Q * option string * Z)) :=
  concat (map (fun student => omap (term_subject_entry db term student) term_subjects)
              students).

(** One turn of the linking loops on the table alone. *)
Definition link_step (l : list TermSubject.t) (link : Z * Z) : list TermSubject.t :=
  ensure_row (has_link link.1 link.2)
    (TermSubject.mk (next_id (map TermSubject.id l)) link.1 link.2 true 1%Q) l.

(** All the links that one run of [auto_link_subjects_to_terms] asks for. *)
Definition wanted_links (db : DB) (selected : list Term.t) : list (Z * Z) :=
  concat (map (fun term => map (fun k => (Term.id term, k))
                               (linked_subject_ids db term))
              selected).

(** Every row of [l] is still in place in [l'], with the same frozen
    columns. *)
Definition keeps_final (l l' : list StudentTermGrade.t) : Prop :=
  forall i g, l !! i = Some g ->
    exists g', l' !! i = Some g'
               /\ StudentTermGrade.final_fields g' = StudentTermGrade.final_fields g.

(** The ways a term grade gets recalculated: a grading request, the method
    on its own, the term grading service. *)
Inductive Recalculation :=
| ByGrading (request : GradeRequest)
| ByMethod (self : StudentAssignment.t) (template : AssignmentTemplate.t)
| ByService (now : Z) (term_id : Z) (student_id : option Z).

Definition recalculate (db : DB) (c : Recalculation) : DB :=
  match c with
  | ByGrading request => run_grading db request
  | ByMethod self template => (update_term_grade db self template).2
  | ByService now term_id student_id =>
    (calculate_student_term_grades now db term_id student_id).1
  end.

(** ** Relations and invariants used in the proofs *)

(** [same_except_points db db']: only the two points tables may differ. *)
Definition same_except_points (db db' : DB) : Prop :=
  db' = with_point_transactions (point_transactions db')
          (with_student_points (student_points db') db).

(** The balance invariant of the ledger. *)
Definition ledger_consistent (db : DB) : Prop :=
  forall s,
    match student_points db !! s with
    | Some row =>
      StudentPoints.current_balance row = ledger_sum s (point_transactions db)
    | None =>
      Forall (fun t => PointTransaction.student_id t <> s) (point_transactions db)
    end.

Definition grading_invariant (db : DB) : Prop :=
  forall a t, a ∈ student_assignments db -> template_of db a = Some t ->
              percentage_invariant a t.

Abbreviation grade_upsert :=
  (upsert (fun k => StudentTermGrade.has_key k.1 k.2)
          (fun k => StudentTermGrade.new k.1 k.2) set_entry).

(** ** Sample data for the concrete instances *)

Definition admin : User.t := User.mk 1 UserRole.ADMIN.
Definition pupil : User.t := User.mk 2 UserRole.STUDENT.

Definition essay_template : AssignmentTemplate.t :=
  AssignmentTemplate.mk 1 "Essay" 7 100.

(** An essay assigned on day 90 and completed on day 110. *)
Definition essay : StudentAssignment.t :=
  StudentAssignment.mk 1 1 2 90 None None AssignmentStatus.NOT_STARTED
    None (Some 110) None None None None false None None None None.

(** The active term runs from day 100 to day 200. *)
Definition fall_term : Term.t := Term.mk 1 "Fall" 100 200 true.

Definition points_enabled : SystemSettings.t :=
  SystemSettings.mk "points_system_enabled" "True" true.

Definition school_db : DB :=
  mkDB [admin; pupil] [essay_template] [essay] [fall_term] [] [] ∅ []
       [points_enabled].

Definition grade_of (points : Q) : StudentAssignmentGrade.t :=
  StudentAssignmentGrade.mk points None None.

Definition grade_request (points : Q) : GradeRequest :=
  mkGradeRequest no_failure 120 1 (grade_of points) admin.

(** The final commit of [create_point_transaction] fails, every other call
    goes through. *)
Definition final_commit_fails : DbCall -> bool :=
  fun c => match c with CommitTransaction => true | _ => false end.

(** The school after the essay was graded 85 and the term grading service
    has run: the service links the subject to the term (the essay was
    completed within the term) and writes the roll-up row. *)
Definition term_report_db : DB :=
  (calculate_student_term_grades 1 (run_grading school_db (grade_request 85))
     1 None).1.

(** The same, with every roll-up row finalised on day 210 by the admin. *)
Definition finalized_db : DB :=
  with_student_term_grades
    (map (StudentTermGrade.finalize_grade 210 1) (student_term_grades term_report_db))
    term_report_db.

(** A lab report assigned on day 120, worth 50 points for this pupil and not
    graded yet, in a school whose active term is linked to the subject. *)
Definition lab_fresh : StudentAssignment.t :=
  StudentAssignment.mk 2 1 2 120 None None AssignmentStatus.NOT_STARTED
    None None None None None None false None None None (Some 50).

Definition fresh_linked_db : DB :=
  mkDB [admin; pupil] [essay_template] [lab_fresh] [fall_term]
       [TermSubject.mk 1 1 7 true 1%Q] [] ∅ [] [points_enabled].

(** The same school before the subject was linked to the term. *)
Definition fresh_school_db : DB :=
  mkDB [admin; pupil] [essay_template] [lab_fresh] [fall_term] [] [] ∅ []
       [points_enabled].

Definition lab_request (points : Q) : GradeRequest :=
  mkGradeRequest no_failure 125 2 (grade_of points) admin.

(** ** More of the code

    The sections from here to the sample data embed functions around the
    ones above: the rest of [app/utils/attendance.py], the settings that
    feed it, the term endpoints, more of the points ledger, the assignment
    workflow and the grading route of the external API. *)

(** ** Tables and checks shared by the endpoints *)

Definition with_terms (l : list Term.t) (db : DB) : DB :=
  mkDB (users db) (assignment_templates db) (student_assignments db) l
       (term_subjects db) (student_term_grades db) (student_points db)
       (point_transactions db) (system_settings db).

Definition with_system_settings (l : list SystemSettings.t) (db : DB) : DB :=
  mkDB (users db) (assignment_templates db) (student_assignments db) (terms db)
       (term_subjects db) (student_term_grades db) (student_points db)
       (point_transactions db) l.

Definition is_admin (u : User.t) : bool :=
  UserRole.eqb (User.role u) UserRole.ADMIN.

(** ** School days and attendance statistics ([app/utils/attendance.py]) *)

(** [date.weekday()] on the ordinal of a date: Monday is 0 and Sunday 6, and
    ordinal 1, the first of January of year 1, is a Monday. *)
Definition weekday (d : Z) : Z := (d + 6) mod 7.

(** The [while] loop of [calculate_school_days]; [days] bounds the number of
    turns. *)
Fixpoint school_days_loop (days : nat) (current_date end_date school_days : Z)
    : Z :=
  match days with
  | O => school_days
  | S days' =>
    if current_date <=? end_date
    then school_days_loop days' (current_date + 1) end_date
           (if weekday current_date <? 5 then school_days + 1 else school_days)
    else school_days
  end.

(** [calculate_school_days(start_date, end_date)].  The loop makes one turn
    for each day of the range, so that many turns are granted. *)
Definition calculate_school_days (start_date end_date : Z) : Z :=
  school_days_loop (Z.to_nat (end_date - start_date + 1)) start_date end_date 0.

Record AttendanceStatistics := mkAttendanceStatistics {
  present_days : Z;
  absent_days : Z;
  late_days : Z;
  excused_days : Z
}.

(** [get_attendance_statistics(attendance_records)] *)
Definition get_attendance_statistics
    (attendance_records : list AttendanceRecord.t) : AttendanceStatistics :=
  mkAttendanceStatistics
    (py.count_if (has_status AttendanceStatus.PRESENT) attendance_records)
    (py.count_if (has_status AttendanceStatus.ABSENT) attendance_records)
    (py.count_if (has_status AttendanceStatus.LATE) attendance_records)
    (py.count_if (has_status AttendanceStatus.EXCUSED) attendance_records).

(** [sorted(attendance_records, key=lambda x: x.date)]: a stable sort, here
    by insertion. *)
Fixpoint insert_by_date (r : AttendanceRecord.t) (l : list AttendanceRecord.t)
    : list AttendanceRecord.t :=
  match l with
  | [] => [r]
  | x :: l' =>
    if AttendanceRecord.date r <=? AttendanceRecord.date x
    then r :: x :: l'
    else x :: insert_by_date r l'
  end.

Definition sorted_by_date (l : list AttendanceRecord.t) : list AttendanceRecord.t :=
  foldr insert_by_date [] l.

(** [find_first_absence_date(attendance_records)]; [isoformat] is
    [date.isoformat()]. *)
Definition find_first_absence_date (isoformat : Z -> string)
    (attendance_records : list AttendanceRecord.t) : option string :=
  match List.find (has_status AttendanceStatus.ABSENT)
                  (sorted_by_date attendance_records) with
  | Some record => Some (isoformat (AttendanceRecord.date record))
  | None => None
  end.

(** ** Conversions between [int] and [str]: [str(n)] of an int, and
    [int(s)] of a string of ASCII characters, which strips white space,
    takes one sign and then decimal digits that single underscores may
    separate. *)
Module builtins.

Definition str (n : Z) : string := NilZero.string_of_int (Z.to_int n).

Definition is_space (c : ascii) : bool :=
  let n := nat_of_ascii c in
  ((9 <=? n)%nat && (n <=? 13)%nat) || (n =? 32)%nat.

Definition is_digit (c : ascii) : bool :=
  let n := nat_of_ascii c in (48 <=? n)%nat && (n <=? 57)%nat.

Fixpoint lstrip (s : string) : string :=
  match s with
  | EmptyString => EmptyString
  | String c s' => if is_space c then lstrip s' else s
  end.

Fixpoint rstrip (s : string) : string :=
  match s with
  | EmptyString => EmptyString
  | String c s' =>
    match rstrip s' with
    | EmptyString => if is_space c then EmptyString else String c EmptyString
    | r => String c r
    end
  end.

(** The digits of a numeral, its underscores dropped; [need_digit] holds at
    the start and after an underscore. *)
Fixpoint digits (need_digit : bool) (s : string) : option string :=
  match s with
  | EmptyString => if need_digit then None else Some EmptyString
  | String c s' =>
    if is_digit c then option_map (String c) (digits false s')
    else if Ascii.eqb c "_" && negb need_digit then digits true s'
    else None
  end.

Definition unsigned (s : string) : option Z :=
  match digits true s with
  | Some ds => option_map Z.of_uint (NilZero.uint_of_string ds)
  | None => None
  end.

(** [int(s)]; [None] is ValueError. *)
Definition int (s : string) : option Z :=
  match rstrip (lstrip s) with
  | String "+" r => unsigned r
  | String "-" r => option_map Z.opp (unsigned r)
  | r => unsigned r
  end.

End builtins.

(** ** System settings ([app/crud/settings.py], [app/routers/settings.py]) *)

Definition has_setting_key (setting_key : string) (s : SystemSettings.t) : bool :=
  String.eqb (SystemSettings.setting_key s) setting_key.

Definition set_setting_value (setting_value : string) (s : SystemSettings.t)
    : SystemSettings.t :=
  SystemSettings.mk (SystemSettings.setting_key s) setting_value
                    (SystemSettings.is_active s).

(** [get_setting(db, setting_key)] *)
Definition get_setting (db : DB) (setting_key : string)
    : option SystemSettings.t :=
  List.find (fun s => String.eqb (SystemSettings.setting_key s) setting_key
                      && SystemSettings.is_active s)
            (system_settings db).

(** [upsert_setting(db, setting_key, value, setting_type, description)], on
    the columns of the record.  As in [update_system_setting], [None] is the
    IntegrityError of an INSERT whose key an inactive row holds. *)
Definition upsert_setting (db : DB) (setting_key value : string)
    : option (DB * SystemSettings.t) :=
  match get_setting db setting_key with
  | Some existing =>
    Some (with_system_settings
            (update_first
               (fun s => String.eqb (SystemSettings.setting_key s) setting_key
                         && SystemSettings.is_active s)
               (set_setting_value value) (system_settings db))
            db,
          set_setting_value value existing)
  | None =>
    if existsb (has_setting_key setting_key) (system_settings db) then None
    else
      let new_setting := SystemSettings.mk setting_key value true in
      Some (with_system_settings (system_settings db ++ [new_setting]) db,
            new_setting)
  end.

(** [get_setting_value(db, setting_key, default_value, value_type=int)]: the
    [int] branch of the conversion, with its [except ValueError]. *)
Definition get_setting_value_int (db : DB) (setting_key : string)
    (default_value : Z) : Z :=
  match get_setting db setting_key with
  | None => default_value
  | Some setting =>
    match builtins.int (SystemSettings.setting_value setting) with
    | Some n => n
    | None => default_value
    end
  end.

(** [get_required_days_of_instruction(db)] ([app/utils/attendance.py]) *)
Definition get_required_days_of_instruction (db : DB) : Z :=
  get_setting_value_int db "attendance.required_days_of_instruction" 180.

(** [update_required_days_of_instruction(required_days, db, current_user)] *)
Definition update_required_days_of_instruction (db : DB) (required_days : Z)
    (current_user : User.t) : DB * Response SystemSettings.t :=
  if negb (is_admin current_user) then (db, HTTPException 403)
  else if (required_days <? 1) || (365 <? required_days)
  then (db, HTTPException 400)
  else
    match upsert_setting db "attendance.required_days_of_instruction"
                         (builtins.str required_days) with
    | Some (db', setting) => (db', Ok setting)
    | None => (db, InternalServerError)
    end.

(** ** Terms ([app/models/term.py], [app/routers/terms.py]) *)

Definition set_is_active (b : bool) (t : Term.t) : Term.t :=
  Term.mk (Term.id t) (Term.name t) (Term.start_date t) (Term.end_date t) b.

(** The [completion_rate] property of a roll-up row. *)
Definition completion_rate (self : StudentTermGrade.t) : Q :=
  if 0 <? StudentTermGrade.assignments_total self
  then (inject_Z (StudentTermGrade.assignments_completed self)
        / inject_Z (StudentTermGrade.assignments_total self) * 100)%Q
  else 0%Q.

Definition has_term_id (term_id : Z) (t : Term.t) : bool := Term.id t =? term_id.

(** [activate_term(term_id, db, current_user)]: the bulk [UPDATE] clears the
    flag on every row, then the loaded term is flagged and committed. *)
Definition activate_term (db : DB) (term_id : Z) (current_user : User.t)
    : DB * Response Term.t :=
  if negb (is_admin current_user) then (db, HTTPException 403)
  else
    match List.find (has_term_id term_id) (terms db) with
    | None => (db, HTTPException 404)
    | Some term =>
      let cleared := map (set_is_active false) (terms db) in
      (with_terms
         (update_first (has_term_id (Term.id term)) (set_is_active true) cleared)
         db,
       Ok (set_is_active true term))
    end.

(** [get_active_term(db, current_user)] *)
Definition get_active_term (db : DB) : Response Term.t :=
  match active_term db with
  | Some term => Ok term
  | None => HTTPException 404
  end.

(** [delete_term(term_id, db, current_user)].  [term.term_subjects] is the
    collection of the links whose [term_id] is the term's. *)
Definition delete_term (db : DB) (term_id : Z) (current_user : User.t)
    : DB * Response () :=
  if negb (is_admin current_user) then (db, HTTPException 403)
  else
    match List.find (has_term_id term_id) (terms db) with
    | None => (db, HTTPException 404)
    | Some term =>
      if existsb (fun ts => TermSubject.term_id ts =? Term.id term)
                 (term_subjects db)
      then (db, HTTPException 400)
      else (with_terms
              (List.filter (fun t => negb (has_term_id (Term.id term) t))
                           (terms db))
              db,
            Ok ())
    end.

(** [calculate_term_grades(term_id, db, current_user, student_id)]; the body
    of the answer is the pair of counts of its [details]. *)
Definition calculate_term_grades (now : Z) (db : DB) (term_id : Z)
    (current_user : User.t) (student_id : option Z) : DB * Response (Z * Z) :=
  if negb (is_admin current_user) then (db, HTTPException 403)
  else
    match List.find (has_term_id term_id) (terms db) with
    | None => (db, HTTPException 404)
    | Some _ =>
      match calculate_student_term_grades now db term_id student_id with
      | (db', TermNotFound) => (db', HTTPException 400)
      | (db', GradesCalculated grades_calculated students_processed) =>
        (db', Ok (grades_calculated, students_processed))
      end
    end.

(** ** More of the points ledger ([app/crud/points.py],
    [app/routers/points.py]) *)

(** [update_system_setting(db, setting_key, setting_value)].  The column
    [setting_key] is declared [unique], while the lookup sees active rows
    only: when an inactive row holds the key, the INSERT of the new row is
    refused and the commit raises IntegrityError, which is [None] here. *)
Definition update_system_setting (db : DB) (setting_key setting_value : string)
    : option (DB * SystemSettings.t) :=
  match get_system_setting db setting_key with
  | Some setting =>
    Some (with_system_settings
            (update_first
               (fun s => String.eqb (SystemSettings.setting_key s) setting_key
                         && SystemSettings.is_active s)
               (set_setting_value setting_value) (system_settings db))
            db,
          set_setting_value setting_value setting)
  | None =>
    if existsb (has_setting_key setting_key) (system_settings db) then None
    else
      let setting := SystemSettings.mk setting_key setting_value true in
      Some (with_system_settings (system_settings db ++ [setting]) db, setting)
  end.

(** [toggle_points_system(current_user, db)]; the body of the answer is its
    [enabled] entry.  An exception that nothing catches ends the request
    with a server error, and the session is closed without a commit. *)
Definition toggle_points_system (db : DB) (current_user : User.t)
    : DB * Response bool :=
  if negb (is_admin current_user) then (db, HTTPException 403)
  else
    let current_status := is_points_system_enabled db in
    let new_status := (if current_status then "false" else "true")%string in
    match update_system_setting db "points_system_enabled" new_status with
    | Some (db', _) => (db', Ok (negb current_status))
    | None => (db, InternalServerError)
    end.

(** [delete_student_points_data(db, student_id)].  [raises] tells whether a
    database call inside the [try] block fails; the [except] clause then
    rolls back and answers [False]. *)
Definition delete_student_points_data (raises : bool) (db : DB) (student_id : Z)
    : DB * bool :=
  if raises then (db, false)
  else
    (with_student_points (delete student_id (student_points db))
       (with_point_transactions
          (List.filter
             (fun t => negb (PointTransaction.student_id t =? student_id))
             (point_transactions db))
          db),
     true).

(** A query whose failure is not followed up. *)
Definition db_read {A} (q : DB -> A) : op A :=
  fun _ s => (s, inr (q (working s))).

Definition transactions_of (student_id : Z) (db : DB) : list PointTransaction.t :=
  List.filter (fun t => PointTransaction.student_id t =? student_id)
              (point_transactions db).

(** [get_student_points_ledger(db, student_id, page, per_page)].
    [newest_first] is the order in which [ORDER BY created_at DESC] returns
    the rows.  The routers hand over [page >= 1] and [1 <= per_page <= 100]
    ([Query(..., ge=1)]); [OFFSET] and [LIMIT] are [drop] and [take]. *)
Definition get_student_points_ledger
    (newest_first : list PointTransaction.t -> list PointTransaction.t)
    (student_id page per_page : Z)
    : op (StudentPoints.t * list PointTransaction.t * Z) :=
  points_row ← get_or_create_student_points student_id;
  total_transactions ←
    db_read (fun db => Z.of_nat (length (transactions_of student_id db)));
  transactions ←
    db_read (fun db =>
               take (Z.to_nat per_page)
                    (drop (Z.to_nat ((page - 1) * per_page))
                          (newest_first (transactions_of student_id db))));
  let total_pages := (total_transactions + per_page - 1) / per_page in
  mret (points_row, transactions, total_pages).

(** What one call shows: the transactions of the page and the page count. *)
Definition ledger_page
    (newest_first : list PointTransaction.t -> list PointTransaction.t)
    (db : DB) (student_id page per_page : Z)
    : list PointTransaction.t * Z :=
  match (run_request (get_student_points_ledger newest_first student_id page
                        per_page) no_failure db).2 with
  | inr (_, transactions, total_pages) => (transactions, total_pages)
  | inl _ => ([], 0)
  end.

(** ** API keys and the two kinds of caller ([app/core/api_auth.py],
    [app/core/dual_auth.py]) *)

(** [APIKeyUser] ([app/core/api_auth.py]): an authenticated API key. *)
Module APIKeyUser.
Record t := mk {
  api_key_id : Z;
  permissions : list string;
  name : string
}.

(** [has_permission(permission)]: [permission in self.permissions]. *)
Definition has_permission (self : t) (permission : string) : bool :=
  existsb (String.eqb permission) (permissions self).
End APIKeyUser.

(** [AuthUser = Union[User, APIKeyUser]] ([app/core/dual_auth.py]) *)
Inductive AuthUser :=
| UserSession (user : User.t)
| ApiKey (key : APIKeyUser.t).

(** [require_admin_or_permission(permission)]; [None] lets the request
    through. *)
Definition require_admin_or_permission (permission : string)
    (auth_user : AuthUser) : option Z :=
  match auth_user with
  | UserSession user => if negb (is_admin user) then Some 403 else None
  | ApiKey key =>
    if negb (APIKeyUser.has_permission key permission) then Some 403 else None
  end.

(** [get_user_id_from_auth(auth_user)] *)
Definition get_user_id_from_auth (auth_user : AuthUser) : option Z :=
  match auth_user with
  | UserSession user => Some (User.id user)
  | ApiKey _ => None
  end.

(** [adjust_student_points(adjustment, auth_user, db)]
    ([app/routers/points.py]).  The first test is the dependency, the second
    the length constraint of [notes] in the request schema.  An error of
    [admin_adjust_points] is caught by nothing. *)
Definition adjust_student_points (fails : DbCall -> bool) (db : DB)
    (adjustment : AdminPointAdjustment.t) (auth_user : AuthUser)
    : DB * Response PointTransaction.t :=
  match require_admin_or_permission "points:write" auth_user with
  | Some status_code => (db, HTTPException status_code)
  | None =>
    let notes_length := String.length (AdminPointAdjustment.notes adjustment) in
    if ((notes_length <? 1) || (500 <? notes_length))%nat
    then (db, HTTPException 422)
    else if negb (is_points_system_enabled db) then (db, HTTPException 403)
    else
      match List.find
              (fun u => (User.id u =? AdminPointAdjustment.student_id adjustment)
                        && UserRole.eqb (User.role u) UserRole.STUDENT)
              (users db) with
      | None => (db, HTTPException 404)
      | Some student =>
        match run_request
                (admin_adjust_points adjustment (get_user_id_from_auth auth_user))
                fails db with
        | (db', inr transaction) => (db', Ok transaction)
        | (db', inl _) => (db', InternalServerError)
        end
      end
  end.

(** ** The assignment workflow ([app/routers/assignments.py]) and the
    grading route of the external API ([app/routers/integrations.py]) *)

Definition set_started_date (d : option Z) (a : StudentAssignment.t)
    : StudentAssignment.t :=
  StudentAssignment.mk
    (StudentAssignment.id a) (StudentAssignment.template_id a)
    (StudentAssignment.student_id a) (StudentAssignment.assigned_date a)
    (StudentAssignment.due_date a) (StudentAssignment.extended_due_date a)
    (StudentAssignment.status a) d (StudentAssignment.completed_date a)
    (StudentAssignment.submitted_date a) (StudentAssignment.points_earned a)
    (StudentAssignment.percentage_grade a) (StudentAssignment.letter_grade a)
    (StudentAssignment.is_graded a) (StudentAssignment.graded_date a)
    (StudentAssignment.graded_by a) (StudentAssignment.teacher_feedback a)
    (StudentAssignment.custom_max_points a).

(** [assignment.completed_date = date.today()] and
    [assignment.submitted_date = date.today()]. *)
Definition set_completed (today : Z) (a : StudentAssignment.t)
    : StudentAssignment.t :=
  StudentAssignment.mk
    (StudentAssignment.id a) (StudentAssignment.template_id a)
    (StudentAssignment.student_id a) (StudentAssignment.assigned_date a)
    (StudentAssignment.due_date a) (StudentAssignment.extended_due_date a)
    (StudentAssignment.status a) (StudentAssignment.started_date a) (Some today)
    (Some today) (StudentAssignment.points_earned a)
    (StudentAssignment.percentage_grade a) (StudentAssignment.letter_grade a)
    (StudentAssignment.is_graded a) (StudentAssignment.graded_date a)
    (StudentAssignment.graded_by a) (StudentAssignment.teacher_feedback a)
    (StudentAssignment.custom_max_points a).

(** "Verify student access" of [start_assignment] and [complete_assignment]:
    a student acts on their own assignments only; for an admin the student of
    the assignment has to exist.  [None] lets the request through. *)
Definition verify_student_access (db : DB) (current_user : User.t)
    (assignment : StudentAssignment.t) : option Z :=
  match User.role current_user with
  | UserRole.STUDENT =>
    if negb (User.id current_user =? StudentAssignment.student_id assignment)
    then Some 403 else None
  | UserRole.ADMIN =>
    match List.find
            (fun u => (User.id u =? StudentAssignment.student_id assignment)
                      && UserRole.eqb (User.role u) UserRole.STUDENT)
            (users db) with
    | None => Some 404
    | Some _ => None
    end
  end.

(** [start_assignment(assignment_id, db, current_user)] *)
Definition start_assignment (today : Z) (db : DB) (assignment_id : Z)
    (current_user : User.t) : DB * Response StudentAssignment.t :=
  match List.find (has_id assignment_id) (student_assignments db) with
  | None => (db, HTTPException 404)
  | Some assignment =>
    match verify_student_access db current_user assignment with
    | Some status_code => (db, HTTPException status_code)
    | None =>
      match StudentAssignment.started_date assignment with
      | None =>
        let assignment :=
          StudentAssignment.update_status today
            (set_started_date (Some today) assignment) in
        (flush_assignment assignment db, Ok assignment)
      | Some _ => (db, Ok assignment)
      end
    end
  end.

(** [complete_assignment(assignment_id, db, current_user, submission_notes,
    submission_artifacts)]; the two optional arguments fill free-text
    columns that are not part of the record. *)
Definition complete_assignment (today : Z) (db : DB) (assignment_id : Z)
    (current_user : User.t) : DB * Response StudentAssignment.t :=
  match List.find (has_id assignment_id) (student_assignments db) with
  | None => (db, HTTPException 404)
  | Some assignment =>
    match verify_student_access db current_user assignment with
    | Some status_code => (db, HTTPException status_code)
    | None =>
      let assignment := set_completed today assignment in
      let assignment :=
        match StudentAssignment.started_date assignment with
        | None => set_started_date (Some today) assignment
        | Some _ => assignment
        end in
      let assignment := StudentAssignment.update_status today assignment in
      (flush_assignment assignment db, Ok assignment)
    end
  end.

(** [grade_assignment_via_api(assignment_id, grade_data, db, api_key_user)]
    ([app/routers/integrations.py]).  The first test is the dependency
    [require_permission("assignments:grade")], the second the [ge=0]
    constraint of the request schema; a dangling [template_id] is treated as
    in [grade_student_assignment]. *)
Definition grade_assignment_via_api (fails : DbCall -> bool) (today : Z)
    (db : DB) (assignment_id : Z) (grade_data : StudentAssignmentGrade.t)
    (api_key_user : APIKeyUser.t) : DB * Response StudentAssignment.t :=
  if negb (APIKeyUser.has_permission api_key_user "assignments:grade")
  then (db, HTTPException 403)
  else if negb (Qle_bool 0 (StudentAssignmentGrade.points_earned grade_data))
  then (db, HTTPException 422)
  else
    match List.find (has_id assignment_id) (student_assignments db) with
    | None => (db, HTTPException 404)
    | Some assignment =>
      match template_of db assignment with
      | None => (db, InternalServerError)
      | Some template =>
        let max_points := StudentAssignment.max_points assignment template in
        if py.float_lt (inject_Z max_points)
                       (StudentAssignmentGrade.points_earned grade_data)
        then (db, HTTPException 400)
        else
          let assignment :=
            graded_assignment today grade_data None assignment template in
          match commit_grade db assignment template with
          | None => (db, InternalServerError)
          | Some db =>
            let db :=
              try_award_points fails db assignment template
                (StudentAssignmentGrade.points_earned grade_data) in
            (db, Ok assignment)
          end
      end
    end.

(** ** More vocabulary *)

(** The school days among the [n] days from [d] on. *)
Fixpoint school_days_from (n : nat) (d : Z) : Z :=
  match n with
  | O => 0
  | S n' => (if weekday d <? 5 then 1 else 0) + school_days_from n' (d + 1)
  end.

(** Dates in non-decreasing order. *)
Fixpoint date_sorted (l : list AttendanceRecord.t) : Prop :=
  match l with
  | [] => True
  | x :: l' =>
    Forall (fun y => AttendanceRecord.date x <= AttendanceRecord.date y) l'
    /\ date_sorted l'
  end.

Fixpoint all_chars (p : ascii -> bool) (s : string) : bool :=
  match s with
  | EmptyString => true
  | String c s' => p c && all_chars p s'
  end.

(** Every link points to a term that exists. *)
Definition links_resolve (db : DB) : Prop :=
  forall ts, ts ∈ term_subjects db ->
    exists t, t ∈ terms db /\ Term.id t = TermSubject.term_id ts.

(** The columns of the uniqueness constraint [uq_term_subject]. *)
Definition link_key (ts : TermSubject.t) : Z * Z :=
  (TermSubject.term_id ts, TermSubject.subject_id ts).

(** The counts of a roll-up row are in order. *)
Definition counts_in_order (g : StudentTermGrade.t) : Prop :=
  0 <= StudentTermGrade.assignments_completed g
       <= StudentTermGrade.assignments_total g.

(** The percentage of a roll-up row is the one its totals give. *)
Definition percentage_current (g : StudentTermGrade.t) : Prop :=
  match StudentTermGrade.current_percentage g with
  | Some pct =>
    (0 < StudentTermGrade.current_points_possible g)%Q
    /\ (pct == StudentTermGrade.current_points_earned g
               / StudentTermGrade.current_points_possible g * 100)%Q
  | None => (StudentTermGrade.current_points_possible g <= 0)%Q
  end.

(** The three counters of a StudentPoints row agree. *)
Definition totals_agree (row : StudentPoints.t) : Prop :=
  StudentPoints.current_balance row
  = StudentPoints.total_earned row - StudentPoints.total_spent row
  /\ 0 <= StudentPoints.total_earned row
  /\ 0 <= StudentPoints.total_spent row.

Definition totals_consistent (db : DB) : Prop :=
  forall s row, student_points db !! s = Some row -> totals_agree row.

(** The award of [n] points to the student can be stored: the amount, the
    description and the counters it leads to fit their columns. *)
Definition award_fits (db : DB) (student_id n : Z) (assignment_title : string)
    : bool :=
  fits_Integer n
  && fits_String 255 ("Assignment: " ++ assignment_title)
  && counters_fit
       (apply_amount n
          (default (StudentPoints.mk student_id 0 0 0)
                   (student_points db !! student_id))).

(** The balance of a student; a student without a row has none. *)
Definition balance_of (db : DB) (student_id : Z) : Z :=
  match student_points db !! student_id with
  | Some row => StudentPoints.current_balance row
  | None => 0
  end.

(** Only the settings table may differ. *)
Definition same_except_settings (db db' : DB) : Prop :=
  db' = with_system_settings (system_settings db') db.

(** A call of the workflow by a student, with the day it is made on. *)
Inductive WorkflowCall :=
| StartAssignment (today assignment_id : Z)
| CompleteAssignment (today assignment_id : Z).

Definition workflow (current_user : User.t) (db : DB) (c : WorkflowCall) : DB :=
  match c with
  | StartAssignment today assignment_id =>
    (start_assignment today db assignment_id current_user).1
  | CompleteAssignment today assignment_id =>
    (complete_assignment today db assignment_id current_user).1
  end.

(** A row keeps its place and its student. *)
Definition same_students (l l' : list StudentAssignment.t) (protected : Z -> bool)
    : Prop :=
  forall i a, l !! i = Some a ->
    exists a', l' !! i = Some a'
      /\ StudentAssignment.student_id a' = StudentAssignment.student_id a
      /\ (protected (StudentAssignment.student_id a) = true -> a' = a).

Definition other_than (student_id : Z) : Z -> bool :=
  fun s => negb (s =? student_id).

(** No assignment has been completed. *)
Definition nothing_completed (db : DB) : Prop :=
  forall a, a ∈ student_assignments db -> StudentAssignment.completed_date a = None.

(** A request that may write to the ledger: a grading, by either route, or
    an adjustment. *)
Inductive LedgerRequest :=
| Grade (request : GradeRequest)
| GradeViaApi (fails : DbCall -> bool) (today assignment_id : Z)
              (grade_data : StudentAssignmentGrade.t) (key : APIKeyUser.t)
| Adjust (fails : DbCall -> bool) (adjustment : AdminPointAdjustment.t)
         (auth_user : AuthUser).

Definition serve (db : DB) (r : LedgerRequest) : DB :=
  match r with
  | Grade request => run_grading db request
  | GradeViaApi fails today assignment_id grade_data key =>
    (grade_assignment_via_api fails today db assignment_id grade_data key).1
  | Adjust fails adjustment auth_user =>
    (adjust_student_points fails db adjustment auth_user).1
  end.

(** ** More sample data *)

Definition two_terms_db : DB :=
  mkDB [admin; pupil] [essay_template] [essay]
       [fall_term; Term.mk 2 "Spring" 201 300 false]
       [TermSubject.mk 1 1 7 true 1%Q] [] ∅ [] [points_enabled].

(** The essay graded 85, the service run on the term, and the essay
    regraded 90: the service links the subject and writes the roll-up row,
    the regrading leaves it as it is. *)
Definition essay_recalculations : list Recalculation :=
  [ByGrading (grade_request 85); ByService 1 1 None; ByGrading (grade_request 90)].

Definition essay_rollup : StudentTermGrade.t :=
  StudentTermGrade.set_current 85 100 (Some (8500 # 100)) (Some "B"%string)
    1 1 (StudentTermGrade.new 2 1).

(** The school after the essay was graded 85: the pupil holds 85 points. *)
Definition graded_school_db : DB := run_grading school_db (grade_request 85).

(** A ledger with two students: the pupil earns 85 and redeems 20, a
    classmate receives a bonus of 10. *)
Definition ledger_ops : list PointsOp :=
  [AwardAssignment no_failure 2 1 85 "Essay";
   AdminAdjust no_failure (AdminPointAdjustment.mk 3 10 "bonus") (Some 1);
   AdminAdjust no_failure (AdminPointAdjustment.mk 2 (-20) "store redemption")
               (Some 1)].

Definition ledger_db : DB := foldl perform school_db ledger_ops.

(** A classmate of the pupil, with an assignment of their own. *)
Definition classmate : User.t := User.mk 3 UserRole.STUDENT.

Definition classmate_essay : StudentAssignment.t :=
  StudentAssignment.mk 3 1 3 90 (Some 95) None AssignmentStatus.NOT_STARTED
    None None None None None None false None None None None.

Definition classroom_db : DB :=
  mkDB [admin; pupil; classmate] [essay_template] [essay; classmate_essay]
       [fall_term] [] [] ∅ [] [points_enabled].

Definition grading_key : APIKeyUser.t :=
  APIKeyUser.mk 1 ["assignments:read"; "assignments:grade"]%string "gradebook".

(** The school with the points system switched off. *)
Definition points_disabled : SystemSettings.t :=
  SystemSettings.mk "points_system_enabled" "false" true.

Definition closed_db : DB :=
  mkDB [admin; pupil] [essay_template] [essay] [fall_term] [] [] ∅ []
       [points_disabled].

(** ** Tactics *)

(** Case analysis on the next threshold test of a letter-grade chain. *)
Ltac case_threshold :=
  match goal with
  | |- context [Qle_bool ?a ?b] =>
    let E := fresh "E" in
    destruct (Qle_bool a b) eqn:E;
    [apply Qle_bool_iff in E
    | assert (b < a)%Q by
        (apply Qnot_le_lt; intros Hle; apply Qle_bool_iff in Hle; congruence);
      clear E]
  end.

(** Discharges [valid_grade_request] on concrete data. *)
Ltac valid_request :=
  unfold valid_grade_request;
  repeat split; try (eexists; reflexivity); reflexivity.

(** * Proofs *)

(** ** Which tables an operation touches *)

Lemma with_student_term_grades_id db :
  with_student_term_grades (student_term_grades db) db = db.
Proof. destruct db; reflexivity. Qed.

(** [update_term_grade] writes nothing, whichever way it is left. *)
Lemma update_term_grade_db db self tmpl :
  (update_term_grade db self tmpl).2 = db.
Proof.
  unfold update_term_grade. destruct (_ || _); [reflexivity |].
  destruct (active_term db); [| reflexivity].
  destruct (term_subject_link _ _ _); reflexivity.
Qed.


(** Either [update_term_grade] raises and the request is over, or the
    endpoint commits the graded object. *)
Lemma commit_grade_cases db a tmpl :
  (commit_grade db a tmpl = None
   /\ update_term_grade db a tmpl = (RaiseArgumentError, db))
  \/ (commit_grade db a tmpl = Some (flush_assignment a db)
      /\ (update_term_grade db a tmpl).1 <> RaiseArgumentError).
Proof.
  unfold commit_grade, update_term_grade.
  destruct (_ || _); [right; split; [reflexivity | discriminate] |].
  destruct (active_term db); [| right; split; [reflexivity | discriminate]].
  destruct (term_subject_link _ _ _);
    [left; split; reflexivity | right; split; [reflexivity | discriminate]].
Qed.

(** The runs of [create_point_transaction], by what they leave behind:
    nothing; the transaction next to a new row of zeros, when the student
    had no row and the run broke off after the commit inside
    [get_or_create_student_points]; or the transaction and the updated
    counters. *)
Lemma create_point_transaction_cases tx admin_id fails db :
  let s := PointTransactionCreate.student_id tx in
  let db_transaction :=
    PointTransaction.mk s (PointTransactionCreate.amount tx)
      (PointTransactionCreate.transaction_type tx)
      (PointTransactionCreate.source_id tx)
      (PointTransactionCreate.source_description tx) admin_id in
  let t := transaction_row db_transaction in
  let row :=
    apply_amount (PointTransactionCreate.amount tx)
      (default (StudentPoints.mk s 0 0 0) (student_points db !! s)) in
  let out := run_request (create_point_transaction tx admin_id) fails db in
  (out.1 = db /\ exists e, out.2 = inl e)
  \/ (student_points db !! s = None
      /\ out.1 = with_student_points
                   (<[s := StudentPoints.mk s 0 0 0]> (student_points db))
                   (with_point_transactions (point_transactions db ++ [t]) db)
      /\ exists e, out.2 = inl e)
  \/ (transaction_fits db_transaction = true
      /\ counters_fit row = true
      /\ out.1 = with_student_points (<[s := row]> (student_points db))
                   (with_point_transactions (point_transactions db ++ [t]) db)
      /\ (out.2 = inr t \/ out.2 = inl (OperationalError RefreshTransaction))).
Proof.
  cbv zeta.
  unfold run_request, create_point_transaction, get_or_create_student_points,
    db_stage, db_query, db_commit, db_refresh, mbind, mret, op_bind, op_ret.
  cbn -[apply_amount counters_fit transaction_fits transaction_row].
  destruct (fails QueryStudentPoints);
    cbn -[apply_amount counters_fit transaction_fits transaction_row];
    [left; eauto |].
  destruct (student_points db !! PointTransactionCreate.student_id tx) eqn:E;
    cbn -[apply_amount counters_fit transaction_fits transaction_row].
  - destruct (fails CommitTransaction);
      cbn -[apply_amount counters_fit transaction_fits transaction_row];
      [left; eauto |].
    destruct (transaction_fits _) eqn:Ha;
      cbn -[apply_amount counters_fit transaction_fits transaction_row];
      [| left; eauto].
    destruct (counters_fit _) eqn:Hc;
      cbn -[apply_amount counters_fit transaction_fits transaction_row];
      [| left; eauto].
    right. right. split; [reflexivity |]. split; [reflexivity |].
    destruct (fails RefreshTransaction); cbn; split; auto.
  - destruct (fails CommitNewStudentPoints);
      cbn -[apply_amount counters_fit transaction_fits transaction_row];
      [left; eauto |].
    destruct (transaction_fits _) eqn:Ha;
      cbn -[apply_amount counters_fit transaction_fits transaction_row];
      [| left; eauto].
    destruct (fails RefreshNewStudentPoints);
      cbn -[apply_amount counters_fit transaction_fits transaction_row];
      [right; left; eauto |].
    destruct (fails CommitTransaction);
      cbn -[apply_amount counters_fit transaction_fits transaction_row];
      [right; left; eauto |].
    destruct (counters_fit _) eqn:Hc;
      cbn -[apply_amount counters_fit transaction_fits transaction_row];
      [| right; left; eauto].
    right. right. split; [reflexivity |]. split; [reflexivity |].
    rewrite insert_insert_eq.
    destruct (fails RefreshTransaction); cbn; split; auto.
Qed.

Lemma same_except_points_refl db : same_except_points db db.
Proof. destruct db; reflexivity. Qed.

Lemma create_point_transaction_frame tx admin_id fails db :
  same_except_points db (run_request (create_point_transaction tx admin_id) fails db).1.
Proof.
  destruct (create_point_transaction_cases tx admin_id fails db)
    as [[-> _] | [(_ & -> & _) | (_ & _ & -> & _)]];
    destruct db; reflexivity.
Qed.

Lemma award_assignment_points_frame s a p title fails db :
  same_except_points db
    (run_request (award_assignment_points s a p title) fails db).1.
Proof.
  unfold award_assignment_points. destruct (validate_int p).
  - apply create_point_transaction_frame.
  - apply same_except_points_refl.
Qed.

Lemma try_award_points_frame fails db a t p :
  same_except_points db (try_award_points fails db a t p).
Proof.
  unfold try_award_points. destruct (is_points_system_enabled db).
  - apply award_assignment_points_frame.
  - apply same_except_points_refl.
Qed.

(** ** Keyed tables: find-or-create and update *)

Section update_first.
Context {A : Type}.
Implicit Types (p q : A -> bool) (f : A -> A) (l : list A).

Lemma existsb_update_first p q f l :
  (forall x, q (f x) = q x) ->
  existsb q (update_first p f l) = existsb q l.
Proof.
  intros Hq. induction l as [| x l IH]; cbn; [reflexivity |].
  destruct (p x); cbn; [rewrite Hq | rewrite IH]; reflexivity.
Qed.

Lemma update_first_app_l p f l l' :
  existsb p l = true ->
  update_first p f (l ++ l') = update_first p f l ++ l'.
Proof.
  induction l as [| x l IH]; cbn; [discriminate |].
  destruct (p x); cbn; [reflexivity |]. intros H. rewrite IH by exact H.
  reflexivity.
Qed.

Lemma ensure_row_present p new l :
  existsb p l = true -> ensure_row p new l = l.
Proof. intros H. unfold ensure_row. rewrite H. reflexivity. Qed.

Lemma existsb_ensure_row p new l :
  p new = true -> existsb p (ensure_row p new l) = true.
Proof.
  intros H. unfold ensure_row. destruct (existsb p l) eqn:E; [exact E |].
  rewrite existsb_app. cbn. rewrite H. apply orb_true_iff. right. reflexivity.
Qed.

Lemma existsb_ensure_row_mono p q new l :
  existsb q l = true -> existsb q (ensure_row p new l) = true.
Proof.
  intros H. unfold ensure_row. destruct (existsb p l); [exact H |].
  rewrite existsb_app, H. reflexivity.
Qed.

Lemma find_ensure_row p new l :
  p new = true ->
  List.find p (ensure_row p new l) = Some (default new (List.find p l)).
Proof.
  intros Hnew. unfold ensure_row. destruct (existsb p l) eqn:E.
  - apply existsb_exists in E as (x & Hx & Hpx).
    destruct (List.find p l) eqn:F; [reflexivity |].
    apply (find_none _ _ F) in Hx. congruence.
  - induction l as [| x l IH]; cbn in *.
    + rewrite Hnew. reflexivity.
    + apply orb_false_iff in E as [-> E]. apply IH, E.
Qed.

End update_first.

Lemma find_update_first {A} (p : A -> bool) (f : A -> A) (l : list A) a :
  List.find p l = Some a -> p (f a) = true ->
  List.find p (update_first p f l) = Some (f a).
Proof.
  induction l as [| x l IH]; cbn; [discriminate |].
  destruct (p x) eqn:Hp.
  - intros [= ->] Hf. cbn. rewrite Hf. reflexivity.
  - intros Hfind Hf. cbn. rewrite Hp. apply IH; assumption.
Qed.

Lemma elem_of_update_first {A} (p : A -> bool) (f : A -> A) (l : list A) x :
  x ∈ update_first p f l -> x ∈ l \/ exists y, y ∈ l /\ p y = true /\ x = f y.
Proof.
  induction l as [| y l IH]; cbn; [intros H; left; exact H |].
  destruct (p y) eqn:Hp; intros H; apply elem_of_cons in H as [-> | H].
  - right. exists y. split; [left | auto].
  - left. right. exact H.
  - left. left.
  - destruct (IH H) as [H' | (z & Hz & Hpz & ->)].
    + left. right. exact H'.
    + right. exists z. split; [right; exact Hz | auto].
Qed.

Lemma find_some_elem_of {A} (p : A -> bool) (l : list A) x :
  List.find p l = Some x -> x ∈ l /\ p x = true.
Proof.
  intros H. apply find_some in H as [H1 H2]. split; [| exact H2].
  apply list_elem_of_In. exact H1.
Qed.


Section keyed.
Context {A K V T W : Type} `{EqDecision K}.
Context (key : A -> K) (P : K -> A -> bool) (blank : K -> A)
        (set : V -> T -> A -> A) (view : A -> W).
Hypothesis P_spec : forall k a, P k a = true <-> key a = k.
Hypothesis key_blank : forall k, key (blank k) = k.
Hypothesis key_set : forall v t a, key (set v t a) = key a.
Hypothesis set_set : forall v v' t t' a, set v' t' (set v t a) = set v' t' a.
Hypothesis view_set : forall v t t' a, view (set v t a) = view (set v t' a).

Implicit Types (l : list A) (U : list (K * V)) (seen : list K).

Let cond (t : T) (kv : K * V) (r : A) : A :=
  if P kv.1 r then set kv.2 t r else r.

Let ens l (kv : K * V) : list A := ensure_row (P kv.1) (blank kv.1) l.

Let upd (t : T) l (kv : K * V) : list A := update_first (P kv.1) (set kv.2 t) l.

Lemma P_set k v t a : P k (set v t a) = P k a.
Proof.
  destruct (P k a) eqn:E.
  - apply P_spec. rewrite key_set. apply P_spec, E.
  - destruct (P k (set v t a)) eqn:E'; [| reflexivity].
    apply P_spec in E'. rewrite key_set in E'. apply P_spec in E'. congruence.
Qed.

Lemma key_cond t kv r : key (cond t kv r) = key r.
Proof. unfold cond. destruct (P kv.1 r); [apply key_set | reflexivity]. Qed.

Lemma update_unseen_seen t kv seen l :
  kv.1 ∈ seen -> update_unseen key (cond t kv) seen l = l.
Proof.
  revert seen. induction l as [| r l IH]; intros seen Hk; cbn; [reflexivity |].
  rewrite IH by (right; exact Hk). f_equal.
  destruct (decide (key r ∈ seen)) as [| Hr]; [reflexivity |].
  unfold cond. destruct (P kv.1 r) eqn:E; [| reflexivity].
  apply P_spec in E. congruence.
Qed.

Lemma upd_update_unseen t kv seen l :
  kv.1 ∉ seen -> upd t l kv = update_unseen key (cond t kv) seen l.
Proof.
  unfold upd. revert seen.
  induction l as [| r l IH]; intros seen Hk; cbn; [reflexivity |].
  destruct (P kv.1 r) eqn:E.
  - pose proof (proj1 (P_spec _ _) E) as Hkey.
    destruct (decide (key r ∈ seen)) as [Hr |]; [congruence |].
    rewrite update_unseen_seen by (rewrite Hkey; left).
    unfold cond. rewrite E. reflexivity.
  - assert (Hne : key r <> kv.1)
      by (intros Hkey; apply P_spec in Hkey; congruence).
    rewrite (IH (key r :: seen))
      by (intros Hin; apply elem_of_cons in Hin as [|]; congruence).
    f_equal. unfold cond. rewrite E.
    destruct (decide (key r ∈ seen)); reflexivity.
Qed.

Lemma update_unseen_compose g1 g2 seen l :
  (forall r, key (g1 r) = key r) ->
  update_unseen key g2 seen (update_unseen key g1 seen l)
  = update_unseen key (fun r => g2 (g1 r)) seen l.
Proof.
  intros Hg1. revert seen.
  induction l as [| r l IH]; intros seen; cbn; [reflexivity |].
  destruct (decide (key r ∈ seen)) as [Hr | Hr].
  - destruct (decide (key r ∈ seen)); [| contradiction]. rewrite IH. reflexivity.
  - rewrite Hg1. destruct (decide (key r ∈ seen)); [contradiction |].
    rewrite IH. reflexivity.
Qed.

Lemma update_unseen_view g1 g2 seen l :
  (forall r, view (g1 r) = view (g2 r)) ->
  map view (update_unseen key g1 seen l) = map view (update_unseen key g2 seen l).
Proof.
  intros Hg. revert seen.
  induction l as [| r l IH]; intros seen; cbn; [reflexivity |].
  rewrite IH. destruct (decide (key r ∈ seen)); [| rewrite Hg]; reflexivity.
Qed.

Lemma update_unseen_id seen l : update_unseen key (fun r => r) seen l = l.
Proof.
  revert seen. induction l as [| r l IH]; intros seen; cbn; [reflexivity |].
  rewrite IH. destruct (decide (key r ∈ seen)); reflexivity.
Qed.

(** A run of updates, row by row. *)
Lemma foldl_upd_update_unseen t U l :
  foldl (upd t) l U
  = update_unseen key (fun r => foldl (fun r kv => cond t kv r) r U) [] l.
Proof.
  revert l. induction U as [| kv U IH]; intros l; cbn.
  - symmetry. apply update_unseen_id.
  - rewrite IH, (upd_update_unseen t kv []) by apply not_elem_of_nil.
    apply update_unseen_compose. intros r. apply key_cond.
Qed.

Lemma foldl_cond_last_match t U r acc :
  foldl (fun r kv => cond t kv r) (apply_match set t r acc) U
  = apply_match set t r (last_match P r acc U).
Proof.
  revert acc. unfold last_match.
  induction U as [| kv U IH]; intros acc; cbn; [reflexivity |].
  rewrite <- IH. f_equal. unfold cond.
  assert (HP : P kv.1 (apply_match set t r acc) = P kv.1 r)
    by (destruct acc; cbn; [apply P_set | reflexivity]).
  rewrite HP. destruct (P kv.1 r); [| reflexivity].
  destruct acc; cbn; [apply set_set | reflexivity].
Qed.

Lemma last_match_key U r r' acc :
  key r' = key r -> last_match P r' acc U = last_match P r acc U.
Proof.
  intros Hkey. unfold last_match. revert acc.
  induction U as [| kv U IH]; intros acc; cbn; [reflexivity |].
  assert (HP : P kv.1 r' = P kv.1 r).
  { destruct (P kv.1 r) eqn:E.
    - apply P_spec. rewrite Hkey. apply P_spec, E.
    - destruct (P kv.1 r') eqn:E'; [| reflexivity].
      apply P_spec in E'. rewrite Hkey in E'. apply P_spec in E'. congruence. }
  rewrite HP. apply IH.
Qed.

Lemma foldl_cond_twice t t' U r :
  view (foldl (fun r kv => cond t' kv r)
          (foldl (fun r kv => cond t kv r) r U) U)
  = view (foldl (fun r kv => cond t kv r) r U).
Proof.
  pose proof (foldl_cond_last_match t U r None) as H1. cbn in H1. rewrite H1.
  pose proof (foldl_cond_last_match t'
                U (apply_match set t r (last_match P r None U)) None) as H2.
  cbn in H2. rewrite H2.
  rewrite (last_match_key U r (apply_match set t r (last_match P r None U)))
    by (destruct (last_match P r None U); cbn; [apply key_set | reflexivity]).
  destruct (last_match P r None U) as [v |]; cbn; [| reflexivity].
  rewrite set_set. apply view_set.
Qed.

(** Creating the missing rows first and updating afterwards gives what the
    loop gives. *)
Lemma ens_upd_comm t l kv kv' :
  existsb (P kv.1) l = true ->
  ens (upd t l kv) kv' = upd t (ens l kv') kv.
Proof.
  intros Hk. unfold ens, upd, ensure_row.
  rewrite existsb_update_first by (intros x; apply P_set).
  destruct (existsb (P kv'.1) l); [reflexivity |].
  rewrite update_first_app_l by exact Hk. reflexivity.
Qed.

Lemma existsb_foldl_ens k l ks :
  existsb (P k) l = true -> existsb (P k) (foldl ens l ks) = true.
Proof.
  revert l. induction ks as [| kv ks IH]; intros l H; cbn; [exact H |].
  apply IH, existsb_ensure_row_mono, H.
Qed.

Lemma foldl_ens_upd t l kv U :
  existsb (P kv.1) l = true ->
  foldl ens (upd t l kv) U = upd t (foldl ens l U) kv.
Proof.
  revert l. induction U as [| kv' U IH]; intros l H; cbn; [reflexivity |].
  rewrite ens_upd_comm by exact H.
  apply IH, existsb_ensure_row_mono, H.
Qed.

Lemma foldl_upsert_split t l U :
  foldl (upsert P blank set t) l U = foldl (upd t) (foldl ens l U) U.
Proof.
  revert l. induction U as [| kv U IH]; intros l; cbn; [reflexivity |].
  rewrite IH. change (upsert P blank set t l kv) with (upd t (ens l kv) kv).
  rewrite foldl_ens_upd; [reflexivity |].
  apply existsb_ensure_row, P_spec, key_blank.
Qed.

Lemma foldl_ens_all l U kv :
  kv ∈ U -> existsb (P kv.1) (foldl ens l U) = true.
Proof.
  revert l. induction U as [| kv' U IH]; intros l Hin; [inversion Hin |].
  cbn. apply elem_of_cons in Hin as [-> | Hin].
  - apply existsb_foldl_ens, existsb_ensure_row, P_spec, key_blank.
  - apply IH, Hin.
Qed.

Lemma foldl_ens_present l U :
  (forall kv, kv ∈ U -> existsb (P kv.1) l = true) -> foldl ens l U = l.
Proof.
  revert l. induction U as [| kv U IH]; intros l H; cbn; [reflexivity |].
  unfold ens at 2. rewrite ensure_row_present by (apply H; left).
  apply IH. intros kv' Hkv'. apply H. right. exact Hkv'.
Qed.

Lemma existsb_foldl_upd t k l U :
  existsb (P k) (foldl (upd t) l U) = existsb (P k) l.
Proof.
  revert l. induction U as [| kv U IH]; intros l; cbn; [reflexivity |].
  rewrite IH. apply existsb_update_first. intros x. apply P_set.
Qed.

(** Running the same sequence of upserts a second time, at another time,
    changes nothing that [view] shows. *)
Lemma foldl_upsert_twice t t' l U :
  map view (foldl (upsert P blank set t')
              (foldl (upsert P blank set t) l U) U)
  = map view (foldl (upsert P blank set t) l U).
Proof.
  rewrite (foldl_upsert_split t' (foldl (upsert P blank set t) l U)).
  rewrite (foldl_upsert_split t l U).
  rewrite foldl_ens_present.
  - rewrite !foldl_upd_update_unseen, update_unseen_compose.
    + apply update_unseen_view. intros r. apply foldl_cond_twice.
    + intros r. induction U as [| kv U IH] using rev_ind; [reflexivity |].
      rewrite foldl_app. cbn. rewrite key_cond. exact IH.
  - intros kv Hkv. rewrite existsb_foldl_upd. apply foldl_ens_all, Hkv.
Qed.
End keyed.

(** ** Percentages and letter grades *)

Lemma inject_Z_pos m : 0 < m -> (0 < inject_Z m)%Q.
Proof. intros H. change 0%Q with (inject_Z 0). rewrite <- Zlt_Qlt. exact H. Qed.

Lemma percentage_in_range (p : Q) (m : Z) :
  0 < m -> (0 <= p)%Q -> (p <= inject_Z m)%Q ->
  (0 <= p / inject_Z m * 100 /\ p / inject_Z m * 100 <= 100)%Q.
Proof.
  intros Hm H0 H1. pose proof (inject_Z_pos m Hm) as Hm'. split.
  - apply Qmult_le_0_compat; [| lra]. apply Qle_shift_div_l; lra.
  - assert (p / inject_Z m <= 1)%Q by (apply Qle_shift_div_r; lra). lra.
Qed.

Lemma calculate_percentage_grade_in_range a t p :
  StudentAssignment.points_earned a = Some p ->
  0 < StudentAssignment.max_points a t ->
  (0 <= p)%Q -> (p <= inject_Z (StudentAssignment.max_points a t))%Q ->
  exists pct,
    (StudentAssignment.calculate_percentage_grade a t).2 = Some pct
    /\ pct = (p / inject_Z (StudentAssignment.max_points a t) * 100)%Q
    /\ (0 <= pct /\ pct <= 100)%Q.
Proof.
  intros Hp Hm H0 H1. unfold StudentAssignment.calculate_percentage_grade.
  rewrite Hp. destruct (Z.ltb_spec 0 (StudentAssignment.max_points a t)); [| lia].
  eexists. split; [reflexivity |]. split; [reflexivity |].
  apply percentage_in_range; assumption.
Qed.

(** The service's letter-grade function follows the threshold table of the
    specification, with D from 63. *)
Lemma _calculate_letter_grade_table pct :
  exists g, _calculate_letter_grade (Some pct) = Some g /\ spec_letter_table pct g.
Proof.
  unfold _calculate_letter_grade, spec_letter_table.
  repeat case_threshold; eexists; (split; [reflexivity |]).
  all: first
    [ left; split; [lra | reflexivity]
    | do 1 right; left; split; [lra | reflexivity]
    | do 2 right; left; split; [lra | reflexivity]
    | do 3 right; left; split; [lra | reflexivity]
    | do 4 right; left; split; [lra | reflexivity]
    | do 5 right; left; split; [lra | reflexivity]
    | do 6 right; left; split; [lra | reflexivity]
    | do 7 right; left; split; [lra | reflexivity]
    | do 8 right; left; split; [lra | reflexivity]
    | do 9 right; left; split; [lra | reflexivity]
    | do 10 right; left; split; [lra | auto]
    | do 11 right; split; [lra | reflexivity] ].
Qed.

(** A letter grade is a function of the percentage: one grade, and only
    one. *)
Lemma _calculate_letter_grade_total pct :
  exists! g, _calculate_letter_grade (Some pct) = Some g.
Proof.
  destruct (_calculate_letter_grade_table pct) as (g & Hg & _).
  exists g. split; [exact Hg | intros g' Hg'; congruence].
Qed.

Lemma endpoint_letter_grade_below_65 pct :
  (pct < 65)%Q -> endpoint_letter_grade pct = "F"%string.
Proof.
  intros H. unfold endpoint_letter_grade.
  repeat case_threshold; first [reflexivity | lra].
Qed.

(** C6 (defect): graded 62 out of 100 without a letter, an assignment gets
    62 percent, inside [0, 100]; the threshold table of the specification and
    the service's [_calculate_letter_grade] make that a D-, the endpoint's own
    chain, which has no D- branch and starts D at 65, records an F. *)
Theorem C6_endpoint_letter_grade_62 :
  exists db' a',
    grade_student_assignment no_failure 120 school_db 1 (grade_of 62) admin
    = (db', Ok a')
    /\ (exists pct, StudentAssignment.percentage_grade a' = Some pct
                    /\ (pct == 62)%Q /\ (0 <= pct /\ pct <= 100)%Q)
    /\ StudentAssignment.letter_grade a' = Some "F"%string
    /\ _calculate_letter_grade (StudentAssignment.percentage_grade a')
       = Some "D-"%string
    /\ ~ spec_letter_table 62 "F"
    /\ spec_letter_table 62 "D-".
Proof.
  eexists _, _. split; [vm_compute; reflexivity |].
  split; [eexists; split; [reflexivity |]; split; [| split]; vm_compute;
          first [reflexivity | discriminate] |].
  split; [reflexivity |]. split; [reflexivity |]. split.
  - unfold spec_letter_table. intros H.
    repeat (destruct H as [H | H]); destruct H as [H1 H2];
      first [discriminate H2 | destruct H2; discriminate | lra].
  - unfold spec_letter_table. do 10 right. left. split; [lra | auto].
Qed.

(** ** Attendance rate *)

Lemma attendance_rate_positive records required :
  0 < required ->
  calculate_attendance_rate records required
  = attendance_rate_formula records required.
Proof.
  intros H. unfold calculate_attendance_rate, attendance_rate_formula.
  destruct (Z.ltb_spec 0 required); [reflexivity | lia].
Qed.

Lemma attendance_rate_guard records required :
  required <= 0 -> calculate_attendance_rate records required = 0%Q.
Proof.
  intros H. unfold calculate_attendance_rate.
  destruct (Z.ltb_spec 0 required); [lia | reflexivity].
Qed.

(** The rate does not look at how many records there are: absences leave it
    unchanged. *)
Lemma attendance_rate_ignores_absences records required d :
  calculate_attendance_rate
    (AttendanceRecord.mk 1 d AttendanceStatus.ABSENT :: records) required
  = calculate_attendance_rate records required.
Proof. reflexivity. Qed.

(** C7, as stated, fails where the guard of the function applies: with a
    requirement of -180 and 90 days present the function returns 0 while the
    formula gives -50. *)
Lemma C7_counterexample :
  ~ (calculate_attendance_rate (records_with AttendanceStatus.PRESENT 90 1) (-180)
     == attendance_rate_formula (records_with AttendanceStatus.PRESENT 90 1) (-180))%Q.
Proof. vm_compute. discriminate. Qed.

(** C7 (amended): for every list of attendance records and every required
    number of days greater than 0 the attendance rate is
    (present + late + excused) / required * 100, whatever the number of
    records; for a requirement of 0 or less it is 0.  With 90 days present
    and 180 required it is 50; with 170 present, 5 absent and 5 late it is
    (170 + 5) / 180 * 100. *)
Theorem C7_attendance_rate :
  forall records required,
    (0 < required ->
     (calculate_attendance_rate records required
      == attendance_rate_formula records required)%Q)
    /\ (required <= 0 ->
        (calculate_attendance_rate records required == 0)%Q)
    /\ (calculate_attendance_rate
          (records_with AttendanceStatus.PRESENT 90 1) 180 == 50)%Q
    /\ (calculate_attendance_rate
          (records_with AttendanceStatus.PRESENT 170 1
           ++ records_with AttendanceStatus.ABSENT 5 171
           ++ records_with AttendanceStatus.LATE 5 176) 180
        == (170 + 5) / 180 * 100)%Q.
Proof.
  intros records required. split; [| split; [| split]].
  - intros H. rewrite attendance_rate_positive by exact H. reflexivity.
  - intros H. rewrite attendance_rate_guard by exact H. reflexivity.
  - vm_compute. reflexivity.
  - vm_compute. reflexivity.
Qed.

Lemma C7_attendance_rate_witness :
  0 < 180
  /\ (calculate_attendance_rate (records_with AttendanceStatus.LATE 3 1) 180
      == attendance_rate_formula (records_with AttendanceStatus.LATE 3 1) 180)%Q.
Proof.
  split; [lia |].
  apply (proj1 (C7_attendance_rate (records_with AttendanceStatus.LATE 3 1) 180)).
  lia.
Defined.

(** ** The grading endpoint *)

Lemma grade_student_assignment_valid fails today db id gd user a tmpl :
  valid_grade_request db id gd user a tmpl ->
  let a' := graded_assignment today gd (Some (User.id user)) a tmpl in
  grade_student_assignment fails today db id gd user
  = match commit_grade db a' tmpl with
    | None => (db, InternalServerError)
    | Some db1 =>
      (try_award_points fails db1 a' tmpl
         (StudentAssignmentGrade.points_earned gd),
       Ok a')
    end.
Proof.
  intros (H0 & Hrole & Hfind & [s Hs] & Htmpl & Hmax). cbn zeta.
  unfold grade_student_assignment.
  rewrite H0, Hrole, Hfind, Hs, Htmpl, Hmax. reflexivity.
Qed.

(** Either the request ends before anything changes, turned down or broken
    off by [update_term_grade], or it is a valid request that is answered
    with the graded assignment. *)
Lemma grade_student_assignment_cases fails today db id gd user :
  (grade_student_assignment fails today db id gd user).1 = db
  \/ exists a tmpl,
       valid_grade_request db id gd user a tmpl
       /\ grade_student_assignment fails today db id gd user
          = (try_award_points fails
               (flush_assignment
                  (graded_assignment today gd (Some (User.id user)) a tmpl) db)
               (graded_assignment today gd (Some (User.id user)) a tmpl) tmpl
               (StudentAssignmentGrade.points_earned gd),
             Ok (graded_assignment today gd (Some (User.id user)) a tmpl)).
Proof.
  assert (Hcases :
    (grade_student_assignment fails today db id gd user).1 = db
    \/ exists a tmpl, valid_grade_request db id gd user a tmpl).
  { unfold grade_student_assignment, valid_grade_request.
    destruct (Qle_bool 0 _) eqn:H0; [| left; reflexivity]. cbn [negb].
    destruct (User.role user) eqn:Hrole; [| left; reflexivity].
    cbn [UserRole.eqb negb].
    destruct (List.find (has_id id) _) as [a |] eqn:Hfind; [| left; reflexivity].
    destruct (List.find _ (users db)) as [s |] eqn:Hs; [| left; reflexivity].
    destruct (template_of db a) as [tmpl |] eqn:Htmpl; [| left; reflexivity].
    destruct (py.float_lt _ _) eqn:Hmax; [left; reflexivity |].
    right. exists a, tmpl. rewrite Hs. eauto 10. }
  destruct Hcases as [H | (a & tmpl & Hvalid)]; [left; exact H |].
  rewrite (grade_student_assignment_valid _ _ _ _ _ _ _ _ Hvalid).
  destruct (commit_grade_cases db
              (graded_assignment today gd (Some (User.id user)) a tmpl) tmpl)
    as [[-> _] | [-> _]]; [left; reflexivity |].
  right. exists a, tmpl. split; [exact Hvalid | reflexivity].
Qed.

Lemma try_award_points_assignments fails db a t p :
  student_assignments (try_award_points fails db a t p) = student_assignments db.
Proof. rewrite (try_award_points_frame fails db a t p). reflexivity. Qed.

Lemma try_award_points_templates fails db a t p :
  assignment_templates (try_award_points fails db a t p) = assignment_templates db.
Proof. rewrite (try_award_points_frame fails db a t p). reflexivity. Qed.

Lemma try_award_points_term_grades fails db a t p :
  student_term_grades (try_award_points fails db a t p) = student_term_grades db.
Proof. rewrite (try_award_points_frame fails db a t p). reflexivity. Qed.

(** The graded assignment, field by field. *)
Lemma graded_assignment_eq today gd grader a tmpl :
  graded_assignment today gd grader a tmpl
  = let pct :=
      if 0 <? StudentAssignment.max_points a tmpl
      then Some (StudentAssignmentGrade.points_earned gd
                 / inject_Z (StudentAssignment.max_points a tmpl) * 100)%Q
      else StudentAssignment.percentage_grade a in
    StudentAssignment.mk
      (StudentAssignment.id a) (StudentAssignment.template_id a)
      (StudentAssignment.student_id a) (StudentAssignment.assigned_date a)
      (StudentAssignment.due_date a) (StudentAssignment.extended_due_date a)
      AssignmentStatus.GRADED
      (StudentAssignment.started_date a) (StudentAssignment.completed_date a)
      (StudentAssignment.submitted_date a)
      (Some (StudentAssignmentGrade.points_earned gd))
      pct
      (match pct with
       | Some pct =>
         if py.str_truthy (StudentAssignmentGrade.letter_grade gd)
         then StudentAssignmentGrade.letter_grade gd
         else Some (endpoint_letter_grade pct)
       | None => StudentAssignmentGrade.letter_grade gd
       end)
      true (Some today) grader
      (StudentAssignmentGrade.teacher_feedback gd)
      (StudentAssignment.custom_max_points a).
Proof.
  unfold graded_assignment, StudentAssignment.calculate_percentage_grade,
    StudentAssignment.max_points.
  cbn [StudentAssignment.points_earned StudentAssignment.set_grade
       StudentAssignment.custom_max_points].
  destruct (0 <? _); cbn.
  - destruct (StudentAssignmentGrade.letter_grade gd) as [[| c s] |]; reflexivity.
  - destruct (StudentAssignment.percentage_grade a) eqn:E;
      destruct (StudentAssignmentGrade.letter_grade gd) as [[| c s] |];
      unfold StudentAssignment.update_status, StudentAssignment.set_status,
        StudentAssignment.set_letter_grade, StudentAssignment.set_grade;
      cbn; rewrite ?E; reflexivity.
Qed.

Lemma graded_assignment_template_id today gd grader a tmpl :
  StudentAssignment.template_id (graded_assignment today gd grader a tmpl)
  = StudentAssignment.template_id a.
Proof. rewrite graded_assignment_eq. reflexivity. Qed.

Lemma graded_assignment_custom_max_points today gd grader a tmpl :
  StudentAssignment.custom_max_points (graded_assignment today gd grader a tmpl)
  = StudentAssignment.custom_max_points a.
Proof. rewrite graded_assignment_eq. reflexivity. Qed.

Lemma graded_assignment_points_earned today gd grader a tmpl :
  StudentAssignment.points_earned (graded_assignment today gd grader a tmpl)
  = Some (StudentAssignmentGrade.points_earned gd).
Proof. rewrite graded_assignment_eq. reflexivity. Qed.

Lemma graded_assignment_is_graded today gd grader a tmpl :
  StudentAssignment.is_graded (graded_assignment today gd grader a tmpl) = true.
Proof. rewrite graded_assignment_eq. reflexivity. Qed.

Lemma graded_assignment_percentage_grade today gd grader a tmpl :
  StudentAssignment.percentage_grade (graded_assignment today gd grader a tmpl)
  = if 0 <? StudentAssignment.max_points a tmpl
    then Some (StudentAssignmentGrade.points_earned gd
               / inject_Z (StudentAssignment.max_points a tmpl) * 100)%Q
    else StudentAssignment.percentage_grade a.
Proof. rewrite graded_assignment_eq. reflexivity. Qed.

Lemma graded_assignment_max_points today gd grader a tmpl t :
  StudentAssignment.max_points (graded_assignment today gd grader a tmpl) t
  = StudentAssignment.max_points a t.
Proof.
  unfold StudentAssignment.max_points.
  rewrite graded_assignment_custom_max_points. reflexivity.
Qed.

Lemma percentage_invariant_return a t :
  (is_Some (StudentAssignment.percentage_grade a)
   <-> is_Some (StudentAssignment.points_earned a)
       /\ 0 < StudentAssignment.max_points a t) ->
  StudentAssignment.max_points a t <= 0 ->
  (StudentAssignment.calculate_percentage_grade a t).2 = None.
Proof.
  intros Hiff Hm. unfold StudentAssignment.calculate_percentage_grade. cbn.
  assert (Hnone : StudentAssignment.percentage_grade a = None).
  { destruct (StudentAssignment.percentage_grade a) eqn:E; [| reflexivity].
    destruct (proj1 Hiff) as [_ H]; [eauto | lia]. }
  destruct (StudentAssignment.points_earned a); [| exact Hnone].
  destruct (Z.ltb_spec 0 (StudentAssignment.max_points a t)); [lia | exact Hnone].
Qed.

Lemma percentage_invariant_fresh a t :
  StudentAssignment.fresh a -> percentage_invariant a t.
Proof.
  intros (Hp & Hg & _). unfold percentage_invariant. rewrite Hp, Hg.
  assert (Hiff : is_Some (@None Q) <-> is_Some (@None Q)
                                       /\ 0 < StudentAssignment.max_points a t).
  { split; [intros [? ?]; discriminate | intros [[? ?] _]; discriminate]. }
  split; [exact Hiff |]. split; [intros ? ? ?; discriminate |].
  intros Hm. apply percentage_invariant_return; [| exact Hm].
  rewrite Hp, Hg. exact Hiff.
Qed.

Lemma percentage_invariant_graded today gd grader a tmpl :
  percentage_invariant a tmpl ->
  percentage_invariant (graded_assignment today gd grader a tmpl) tmpl.
Proof.
  intros (Hiff & _ & _).
  assert (Hiff' :
    is_Some (StudentAssignment.percentage_grade
               (graded_assignment today gd grader a tmpl))
    <-> is_Some (StudentAssignment.points_earned
                   (graded_assignment today gd grader a tmpl))
        /\ 0 < StudentAssignment.max_points
                 (graded_assignment today gd grader a tmpl) tmpl).
  { rewrite graded_assignment_percentage_grade, graded_assignment_points_earned,
      graded_assignment_max_points.
    destruct (Z.ltb_spec 0 (StudentAssignment.max_points a tmpl)) as [Hm | Hm].
    - split; [intros _; split; [eauto | exact Hm] | intros _; eauto].
    - split; [intros H; apply Hiff in H as [_ H]; lia | intros [_ H]; lia]. }
  split; [exact Hiff' |]. split.
  - intros p pct. rewrite graded_assignment_percentage_grade,
      graded_assignment_points_earned, graded_assignment_max_points.
    intros [= <-].
    destruct (Z.ltb_spec 0 (StudentAssignment.max_points a tmpl)) as [Hm | Hm].
    + intros [= <-]. reflexivity.
    + intros H. assert (Hs : is_Some (StudentAssignment.percentage_grade a)) by eauto.
      apply Hiff in Hs as [_ Hs]. lia.
  - apply percentage_invariant_return. exact Hiff'.
Qed.

Lemma template_of_ext db db' a a' :
  assignment_templates db' = assignment_templates db ->
  StudentAssignment.template_id a' = StudentAssignment.template_id a ->
  template_of db' a' = template_of db a.
Proof. intros H1 H2. unfold template_of. rewrite H1, H2. reflexivity. Qed.

Lemma run_grading_invariant db r :
  grading_invariant db -> grading_invariant (run_grading db r).
Proof.
  intros Hinv. unfold run_grading.
  destruct (grade_student_assignment_cases (req_fails r) (req_today r)
              db (req_assignment_id r) (req_grade_data r) (req_current_user r))
    as [-> | (a & tmpl & Hvalid & ->)]; [exact Hinv |].
  cbn [fst].
  destruct Hvalid as (_ & _ & Hfind & _ & Htmpl & _).
  apply find_some_elem_of in Hfind as [Hin _].
  intros x t Hx Ht.
  rewrite try_award_points_assignments in Hx.
  cbn [flush_assignment student_assignments with_student_assignments] in Hx.
  apply elem_of_update_first in Hx as [Hx | (y & _ & _ & ->)].
  - apply Hinv; [exact Hx |]. rewrite <- Ht. symmetry. apply template_of_ext.
    + rewrite try_award_points_templates. reflexivity.
    + reflexivity.
  - assert (Ht' : template_of db a = Some t).
    { rewrite <- Ht. symmetry. apply template_of_ext.
      - rewrite try_award_points_templates. reflexivity.
      - apply graded_assignment_template_id. }
    assert (t = tmpl) as -> by congruence.
    apply percentage_invariant_graded. apply Hinv; assumption.
Qed.

Lemma run_gradings_invariant requests db :
  grading_invariant db -> grading_invariant (run_gradings db requests).
Proof.
  unfold run_gradings. revert db.
  induction requests as [| r rs IH]; intros db Hdb; [exact Hdb |].
  cbn [foldl]. apply IH, run_grading_invariant, Hdb.
Qed.

(** C9: starting from freshly assigned rows, after any sequence of grading
    requests every student assignment has a percentage grade exactly when it
    has points and its maximum is positive, the percentage then is
    points / max_points * 100, and with a maximum of 0 or less
    [calculate_percentage_grade] returns None instead of failing. *)
Theorem C9_percentage_grade_invariant db requests a t
    (Hfresh : forall a0, a0 ∈ student_assignments db -> StudentAssignment.fresh a0) :
  a ∈ student_assignments (run_gradings db requests) ->
  template_of (run_gradings db requests) a = Some t ->
  (is_Some (StudentAssignment.percentage_grade a)
   <-> is_Some (StudentAssignment.points_earned a)
       /\ 0 < StudentAssignment.max_points a t)
  /\ (forall p pct,
        StudentAssignment.points_earned a = Some p ->
        StudentAssignment.percentage_grade a = Some pct ->
        pct = (p / inject_Z (StudentAssignment.max_points a t) * 100)%Q)
  /\ (StudentAssignment.max_points a t <= 0 ->
      (StudentAssignment.calculate_percentage_grade a t).2 = None).
Proof.
  intros Ha Ht.
  assert (Hinv : grading_invariant (run_gradings db requests)).
  { apply run_gradings_invariant. intros a0 t0 Ha0 _.
    apply percentage_invariant_fresh, Hfresh, Ha0. }
  exact (Hinv a t Ha Ht).
Qed.

Lemma C9_percentage_grade_invariant_witness :
  let db := run_gradings school_db [grade_request 85] in
  let a := graded_assignment 120 (grade_of 85) (Some 1) essay essay_template in
  (forall a0, a0 ∈ student_assignments school_db -> StudentAssignment.fresh a0)
  /\ a ∈ student_assignments db
  /\ template_of db a = Some essay_template
  /\ (is_Some (StudentAssignment.percentage_grade a)
      <-> is_Some (StudentAssignment.points_earned a)
          /\ 0 < StudentAssignment.max_points a essay_template).
Proof.
  assert (Hfresh : forall a0, a0 ∈ student_assignments school_db ->
                              StudentAssignment.fresh a0).
  { intros a0 H. apply list_elem_of_singleton in H. subst a0.
    repeat split. }
  assert (Hin : graded_assignment 120 (grade_of 85) (Some 1) essay essay_template
                ∈ student_assignments (run_gradings school_db [grade_request 85])).
  { apply list_elem_of_In. vm_compute. left. reflexivity. }
  assert (Ht : template_of (run_gradings school_db [grade_request 85])
                 (graded_assignment 120 (grade_of 85) (Some 1) essay essay_template)
               = Some essay_template).
  { vm_compute. reflexivity. }
  cbv zeta. split; [exact Hfresh |]. split; [exact Hin |]. split; [exact Ht |].
  exact (proj1 (C9_percentage_grade_invariant school_db [grade_request 85] _ _
                  Hfresh Hin Ht)).
Defined.

(** ** Skipped recalculations *)

Lemma float_truthy_zero (x : option Q) :
  x = None \/ (exists q, x = Some q /\ (q == 0)%Q) -> py.float_truthy x = false.
Proof.
  intros [-> | (q & -> & Hq)]; [reflexivity |]. cbn.
  apply Qeq_bool_iff in Hq. rewrite Hq. reflexivity.
Qed.

Lemma update_term_grade_not_graded db self tmpl :
  py.float_truthy (StudentAssignment.points_earned self) = false ->
  update_term_grade db self tmpl = (ReturnNotGraded, db).
Proof.
  intros H. unfold update_term_grade. rewrite H.
  rewrite orb_true_r. reflexivity.
Qed.

(** C10: when the assignment's points are 0 or null, [update_term_grade]
    leaves through its first [return], before any query, and hands back the
    database as it was; a grading request with 0 points therefore leaves the
    Term, TermSubject and StudentTermGrade tables exactly as they were. *)
Theorem C10_zero_points_skip_recalculation :
  (forall db self tmpl,
      StudentAssignment.points_earned self = None
      \/ (exists q, StudentAssignment.points_earned self = Some q /\ (q == 0)%Q) ->
      update_term_grade db self tmpl = (ReturnNotGraded, db))
  /\ (forall fails today db assignment_id grade_data current_user,
        (StudentAssignmentGrade.points_earned grade_data == 0)%Q ->
        let db' := (grade_student_assignment fails today db assignment_id
                      grade_data current_user).1 in
        terms db' = terms db
        /\ term_subjects db' = term_subjects db
        /\ student_term_grades db' = student_term_grades db).
Proof.
  split.
  - intros db self tmpl H.
    apply update_term_grade_not_graded, float_truthy_zero, H.
  - intros fails today db id gd user Hzero. cbv zeta.
    destruct (grade_student_assignment_cases fails today db id gd user)
      as [-> | (a & tmpl & Hvalid & _)]; [auto |].
    rewrite (grade_student_assignment_valid _ _ _ _ _ _ _ _ Hvalid).
    set (a' := graded_assignment today gd (Some (User.id user)) a tmpl).
    unfold commit_grade. rewrite (update_term_grade_not_graded db a' tmpl).
    + cbn [fst].
      rewrite (try_award_points_frame fails (flush_assignment a' db) a' tmpl
                 (StudentAssignmentGrade.points_earned gd)).
      repeat split.
    + apply float_truthy_zero. right. eexists. split; [| exact Hzero].
      apply graded_assignment_points_earned.
Qed.

Lemma C10_zero_points_skip_recalculation_witness :
  (StudentAssignment.points_earned
     (graded_assignment 120 (grade_of 0) (Some 1) essay essay_template) = None
   \/ (exists q,
         StudentAssignment.points_earned
           (graded_assignment 120 (grade_of 0) (Some 1) essay essay_template)
         = Some q /\ (q == 0)%Q))
  /\ update_term_grade school_db
       (graded_assignment 120 (grade_of 0) (Some 1) essay essay_template)
       essay_template
     = (ReturnNotGraded, school_db).
Proof.
  assert (H : StudentAssignment.points_earned
                (graded_assignment 120 (grade_of 0) (Some 1) essay essay_template)
              = None
              \/ (exists q,
                    StudentAssignment.points_earned
                      (graded_assignment 120 (grade_of 0) (Some 1) essay
                         essay_template)
                    = Some q /\ (q == 0)%Q)).
  { right. exists 0%Q. split; reflexivity. }
  split; [exact H |].
  exact (proj1 C10_zero_points_skip_recalculation school_db _ essay_template H).
Defined.




(** ** The points ledger *)

Lemma ledger_sum_app s txs t :
  ledger_sum s (txs ++ [t])
  = ledger_sum s txs
    + (if PointTransaction.student_id t =? s then PointTransaction.amount t else 0).
Proof.
  unfold ledger_sum. induction txs as [| x txs IH]; cbn.
  - destruct (_ =? _); lia.
  - rewrite IH. destruct (PointTransaction.student_id x =? s); lia.
Qed.

Lemma apply_amount_balance amount row :
  StudentPoints.current_balance (apply_amount amount row)
  = StudentPoints.current_balance row + amount.
Proof. unfold apply_amount. destruct (0 <? amount); reflexivity. Qed.

(** A run of [create_point_transaction] in which no database call fails and
    every value fits its column appends one ledger row and rewrites the
    student's balance row, created with zeros if it was missing; nothing
    else moves. *)
Lemma create_point_transaction_ok tx admin_id db :
  let s := PointTransactionCreate.student_id tx in
  let db_transaction :=
    PointTransaction.mk s (PointTransactionCreate.amount tx)
      (PointTransactionCreate.transaction_type tx)
      (PointTransactionCreate.source_id tx)
      (PointTransactionCreate.source_description tx) admin_id in
  let t := transaction_row db_transaction in
  let row :=
    apply_amount (PointTransactionCreate.amount tx)
      (default (StudentPoints.mk s 0 0 0) (student_points db !! s)) in
  transaction_fits db_transaction = true ->
  counters_fit row = true ->
  run_request (create_point_transaction tx admin_id) no_failure db
  = (with_student_points (<[s := row]> (student_points db))
       (with_point_transactions (point_transactions db ++ [t]) db),
     inr t).
Proof.
  cbv zeta.
  unfold run_request, create_point_transaction, get_or_create_student_points,
    db_stage, db_query, db_commit, db_refresh, mbind, mret, op_bind, op_ret,
    no_failure.
  intros Ha Hc.
  cbn -[apply_amount counters_fit transaction_fits transaction_row] in *.
  destruct (student_points db !! PointTransactionCreate.student_id tx);
    cbn -[apply_amount counters_fit transaction_fits transaction_row] in *;
    rewrite Ha; cbn -[apply_amount counters_fit transaction_fits transaction_row];
    rewrite Hc; [reflexivity |].
  rewrite insert_insert_eq. reflexivity.
Qed.

Lemma ledger_sum_absent s txs :
  Forall (fun t => PointTransaction.student_id t <> s) txs -> ledger_sum s txs = 0.
Proof.
  induction 1 as [| t txs Ht _ IH]; [reflexivity |]. cbn.
  destruct (Z.eqb_spec (PointTransaction.student_id t) s); [contradiction | exact IH].
Qed.

(** A run of [create_point_transaction] that returns keeps the balance
    invariant. *)
Lemma create_point_transaction_consistent tx admin_id fails db t :
  ledger_consistent db ->
  (run_request (create_point_transaction tx admin_id) fails db).2 = inr t ->
  ledger_consistent (run_request (create_point_transaction tx admin_id) fails db).1.
Proof.
  intros Hinv Hret.
  destruct (create_point_transaction_cases tx admin_id fails db)
    as [[_ [e He]] | [(_ & _ & [e He]) | (_ & _ & -> & _)]];
    [congruence | congruence |].
  intros s. specialize (Hinv s).
  cbn [student_points point_transactions with_student_points
       with_point_transactions].
  destruct (Z.eq_dec s (PointTransactionCreate.student_id tx)) as [-> | Hne].
  - rewrite lookup_insert_eq, apply_amount_balance, ledger_sum_app. cbn.
    rewrite Z.eqb_refl.
    destruct (student_points db !! PointTransactionCreate.student_id tx); cbn.
    + rewrite Hinv. reflexivity.
    + rewrite (ledger_sum_absent _ _ Hinv). reflexivity.
  - rewrite lookup_insert_ne by congruence.
    destruct (student_points db !! s).
    + rewrite ledger_sum_app. cbn.
      destruct (Z.eqb_spec (PointTransactionCreate.student_id tx) s); [congruence |].
      lia.
    + apply Forall_app. split; [exact Hinv |].
      constructor; [cbn; congruence | constructor].
Qed.

Lemma perform_consistent db o t :
  ledger_consistent db -> (outcome db o).2 = inr t ->
  ledger_consistent (perform db o).
Proof.
  intros Hinv. unfold perform.
  destruct o as [fails s a p title | fails adj admin_id]; cbn [outcome].
  - unfold award_assignment_points. destruct (validate_int p).
    + intros H. apply (create_point_transaction_consistent _ _ _ _ t Hinv H).
    + discriminate.
  - intros H. apply (create_point_transaction_consistent _ _ _ _ t Hinv H).
Qed.

(** As long as every operation returns, the balances follow the ledger. *)
Lemma performs_consistent ops db :
  ledger_consistent db -> all_return db ops ->
  ledger_consistent (foldl perform db ops).
Proof.
  revert db. induction ops as [| o ops IH]; intros db Hdb Hret; [exact Hdb |].
  destruct Hret as [[t Ht] Hret]. cbn [foldl].
  apply IH; [apply (perform_consistent db o t Hdb Ht) | exact Hret].
Qed.

(** C1 (defect): the balance invariant breaks without any failure of the
    database.  The pupil has no StudentPoints row; an admin adjustment of
    -2147483648, the least value of an [Integer] column, is stored together
    with a row of zeros by the commit inside [get_or_create_student_points];
    [total_spent] then becomes 2147483648, the last commit fails on it and
    the balance stays 0 while the ledger adds up to -2147483648.  The same
    state follows an award whose last commit fails for any other reason. *)
Theorem C1_overflowing_adjustment_unbalances_ledger :
  let adjustment := AdminPointAdjustment.mk 2 (-2147483648) "correction" in
  let o := AdminAdjust no_failure adjustment (Some 1) in
  let o' := AwardAssignment final_commit_fails 2 1 85 "Essay" in
  student_points school_db = ∅
  /\ point_transactions school_db = []
  /\ (outcome school_db o).2 = inl (DataError CommitTransaction)
  /\ point_transactions (perform school_db o)
     = [PointTransaction.mk 2 (-2147483648) "admin_deduction" None
          (Some "Manual deduction by admin"%string) (Some 1)]
  /\ student_points (perform school_db o) !! 2 = Some (StudentPoints.mk 2 0 0 0)
  /\ ~ ledger_consistent (perform school_db o)
  /\ (outcome school_db o').2 = inl (OperationalError CommitTransaction)
  /\ ledger_sum 2 (point_transactions (perform school_db o')) = 85
  /\ student_points (perform school_db o') !! 2 = Some (StudentPoints.mk 2 0 0 0)
  /\ ~ ledger_consistent (perform school_db o').
Proof.
  cbv zeta.
  repeat match goal with
         | |- _ /\ _ => split
         | |- ~ ledger_consistent _ =>
           let H := fresh "H" in
           intros H; specialize (H 2); vm_compute in H; discriminate H
         | |- _ = _ => vm_compute; reflexivity
         end.
Qed.

(** ** A failing award *)

Lemma graded_assignment_id today gd grader a tmpl :
  StudentAssignment.id (graded_assignment today gd grader a tmpl)
  = StudentAssignment.id a.
Proof. rewrite graded_assignment_eq. reflexivity. Qed.

Lemma graded_assignment_student_id today gd grader a tmpl :
  StudentAssignment.student_id (graded_assignment today gd grader a tmpl)
  = StudentAssignment.student_id a.
Proof. rewrite graded_assignment_eq. reflexivity. Qed.

(** C2 (defect): the pupil has no StudentPoints row yet and the last commit
    of [create_point_transaction] fails.  The award raises, the endpoint
    answers with the graded assignment and the grade is recorded; but the
    ledger holds the row of the award and a StudentPoints row with balance 0
    has appeared, both made durable by the commit inside
    [get_or_create_student_points]: the amounts of the pupil's transactions
    add up to 85, the balance is 0. *)
Theorem C2_failed_award_leaves_transaction :
  let graded := graded_assignment 120 (grade_of 85) (Some 1) essay essay_template in
  let out :=
    grade_student_assignment final_commit_fails 120 school_db 1 (grade_of 85)
      admin in
  (run_request (award_assignment_points 2 1 85 "Essay") final_commit_fails
     (flush_assignment graded school_db)).2
  = inl (OperationalError CommitTransaction)
  /\ out.2 = Ok graded
  /\ List.find (has_id 1) (student_assignments out.1) = Some graded
  /\ point_transactions school_db = []
  /\ point_transactions out.1
     = [PointTransaction.mk 2 85 "assignment" (Some 1) (Some "Assignment: Essay")
          None]
  /\ student_points school_db !! 2 = None
  /\ student_points out.1 !! 2 = Some (StudentPoints.mk 2 0 0 0)
  /\ ledger_sum 2 (point_transactions out.1) = 85.
Proof. cbv zeta. repeat split; vm_compute; reflexivity. Qed.

(** ** Recalculating twice *)

Lemma has_key_spec k g :
  StudentTermGrade.has_key k.1 k.2 g = true <-> term_grade_key g = k.
Proof.
  destruct k as [s t]. unfold StudentTermGrade.has_key, term_grade_key. cbn.
  rewrite andb_true_iff, !Z.eqb_eq. split; [intros [-> ->] | intros [= -> ->]]; auto.
Qed.

Lemma set_entry_key v now g : term_grade_key (set_entry v now g) = term_grade_key g.
Proof. destruct v as [[[[? ?] ?] ?] ?]. reflexivity. Qed.

Lemma set_entry_twice v v' now now' g :
  set_entry v' now' (set_entry v now g) = set_entry v' now' g.
Proof.
  destruct v as [[[[? ?] ?] ?] ?], v' as [[[[? ?] ?] ?] ?]. reflexivity.
Qed.

Lemma set_entry_current v now now' g :
  StudentTermGrade.current_fields (set_entry v now g)
  = StudentTermGrade.current_fields (set_entry v now' g).
Proof. destruct v as [[[[? ?] ?] ?] ?]. reflexivity. Qed.

Lemma set_entry_final v now g :
  StudentTermGrade.final_fields (set_entry v now g)
  = StudentTermGrade.final_fields g.
Proof. destruct v as [[[[? ?] ?] ?] ?]. reflexivity. Qed.

(** The loops of the service are a run of upserts over [service_entries]. *)

Lemma grade_term_subject_upsert now db term student acc ts :
  (grade_term_subject now db term student acc ts).1
  = match term_subject_entry db term student ts with
    | Some kv => grade_upsert now acc.1 kv
    | None => acc.1
    end.
Proof.
  unfold grade_term_subject, term_subject_entry.
  destruct (List.filter _ _); reflexivity.
Qed.

Lemma foldl_grade_term_subject now db term student tss acc :
  (foldl (grade_term_subject now db term student) acc tss).1
  = foldl (grade_upsert now) acc.1 (omap (term_subject_entry db term student) tss).
Proof.
  revert acc. induction tss as [| ts tss IH]; intros acc; cbn; [reflexivity |].
  rewrite IH, grade_term_subject_upsert.
  destruct (term_subject_entry db term student ts); reflexivity.
Qed.

Lemma foldl_grade_student now db term tss students acc :
  (foldl (grade_student now db term tss) acc students).1
  = foldl (grade_upsert now) acc.1 (service_entries db term tss students).
Proof.
  unfold service_entries. revert acc.
  induction students as [| u students IH]; intros acc; cbn; [reflexivity |].
  rewrite IH, foldl_app. f_equal. unfold grade_student. cbn [fst].
  apply (foldl_grade_term_subject now db term u tss (acc.1, acc.2.1)).
Qed.

Lemma grade_upsert_twice now now' l U :
  map StudentTermGrade.current_fields
      (foldl (grade_upsert now') (foldl (grade_upsert now) l U) U)
  = map StudentTermGrade.current_fields (foldl (grade_upsert now) l U).
Proof.
  apply (foldl_upsert_twice term_grade_key).
  - apply has_key_spec.
  - intros [s t]. reflexivity.
  - apply set_entry_key.
  - apply set_entry_twice.
  - apply set_entry_current.
Qed.

(** Linking twice links nothing new. *)

Lemma foldl_link_subject term ks acc :
  (foldl (link_subject term) acc ks).1
  = foldl link_step acc.1 (map (fun k => (Term.id term, k)) ks).
Proof.
  revert acc. induction ks as [| k ks IH]; intros acc; cbn; [reflexivity |].
  rewrite IH. reflexivity.
Qed.

Lemma foldl_link_term db selected acc :
  (foldl (link_term db) acc selected).1
  = foldl link_step acc.1 (wanted_links db selected).
Proof.
  unfold wanted_links. revert acc.
  induction selected as [| term selected IH]; intros acc; cbn; [reflexivity |].
  rewrite IH, foldl_app. f_equal. unfold link_term. cbn [fst].
  apply (foldl_link_subject term (linked_subject_ids db term)
           (acc.1, term_subjects_created acc.2)).
Qed.

Lemma existsb_link_step q l link :
  existsb q l = true -> existsb q (link_step l link) = true.
Proof. apply existsb_ensure_row_mono. Qed.

Lemma existsb_foldl_link_step q links l :
  existsb q l = true -> existsb q (foldl link_step l links) = true.
Proof.
  revert l. induction links as [| k links IH]; intros l H; cbn; [exact H |].
  apply IH, existsb_link_step, H.
Qed.

Lemma foldl_link_step_all links l link :
  link ∈ links ->
  existsb (has_link link.1 link.2) (foldl link_step l links) = true.
Proof.
  revert l. induction links as [| k links IH]; intros l Hin; [inversion Hin |].
  cbn. apply elem_of_cons in Hin as [-> | Hin]; [| apply IH, Hin].
  apply existsb_foldl_link_step, existsb_ensure_row.
  unfold has_link. cbn. rewrite !Z.eqb_refl. reflexivity.
Qed.

Lemma foldl_link_step_present links l :
  (forall link, link ∈ links -> existsb (has_link link.1 link.2) l = true) ->
  foldl link_step l links = l.
Proof.
  revert l. induction links as [| k links IH]; intros l H; cbn; [reflexivity |].
  unfold link_step at 2. rewrite ensure_row_present by (apply H; left).
  apply IH. intros link Hlink. apply H. right. exact Hlink.
Qed.

Lemma foldl_link_step_twice links l :
  foldl link_step (foldl link_step l links) links = foldl link_step l links.
Proof. apply foldl_link_step_present. intros link. apply foldl_link_step_all. Qed.

Lemma auto_link_eq db term_id :
  (auto_link_subjects_to_terms db term_id).1
  = with_term_subjects
      (foldl link_step (term_subjects db)
             (wanted_links db (selected_terms db term_id)))
      db.
Proof.
  unfold auto_link_subjects_to_terms. cbn [fst]. f_equal.
  apply (foldl_link_term db _ (term_subjects db, mkLinkResults 0 0)).
Qed.

(** Once linked, a database is a fixed point of the linking, whatever has
    happened to its roll-up table since. *)
Lemma auto_link_twice db term_id grades :
  (auto_link_subjects_to_terms
     (with_student_term_grades grades
        (auto_link_subjects_to_terms db term_id).1) term_id).1
  = with_student_term_grades grades (auto_link_subjects_to_terms db term_id).1.
Proof.
  rewrite (auto_link_eq (with_student_term_grades _ _)), auto_link_eq.
  set (links := wanted_links db (selected_terms db term_id)).
  change (with_term_subjects
            (foldl link_step (foldl link_step (term_subjects db) links) links)
            (with_student_term_grades grades
               (with_term_subjects (foldl link_step (term_subjects db) links) db))
          = with_student_term_grades grades
              (with_term_subjects (foldl link_step (term_subjects db) links) db)).
  rewrite foldl_link_step_twice. reflexivity.
Qed.

Lemma calculate_student_term_grades_eq now db term_id student_id :
  let db1 := (auto_link_subjects_to_terms db (Some term_id)).1 in
  (calculate_student_term_grades now db term_id student_id).1
  = match List.find (fun t => Term.id t =? term_id) (terms db) with
    | None => db1
    | Some term =>
      with_student_term_grades
        (foldl (grade_upsert now) (student_term_grades db)
           (service_entries db term
              (List.filter (fun ts => TermSubject.term_id ts =? term_id)
                           (term_subjects db1))
              (List.filter
                 (fun u => UserRole.eqb (User.role u) UserRole.STUDENT
                           && (if py.int_truthy student_id
                               then bool_decide (Some (User.id u) = student_id)
                               else true))
                 (users db))))
        db1
    end.
Proof.
  cbv zeta. unfold calculate_student_term_grades.
  change (terms (auto_link_subjects_to_terms db (Some term_id)).1) with (terms db).
  destruct (List.find _ (terms db)) as [term |]; [| reflexivity].
  cbn [fst]. rewrite foldl_grade_student. reflexivity.
Qed.

Lemma calculate_student_term_grades_twice now now' db term_id student_id :
  map StudentTermGrade.current_fields
      (student_term_grades
         (calculate_student_term_grades now'
            (calculate_student_term_grades now db term_id student_id).1
            term_id student_id).1)
  = map StudentTermGrade.current_fields
        (student_term_grades
           (calculate_student_term_grades now db term_id student_id).1).
Proof.
  rewrite (calculate_student_term_grades_eq now' _ term_id student_id).
  rewrite (calculate_student_term_grades_eq now db term_id student_id).
  cbv zeta.
  destruct (List.find (fun t => Term.id t =? term_id) (terms db)) as [term |] eqn:E.
  - change (terms (with_student_term_grades ?g
                     (auto_link_subjects_to_terms db (Some term_id)).1))
      with (terms db).
    rewrite E, auto_link_twice. cbn [student_term_grades with_student_term_grades].
    apply grade_upsert_twice.
  - change (terms (auto_link_subjects_to_terms db (Some term_id)).1) with (terms db).
    rewrite E.
    rewrite <- (with_student_term_grades_id
                  (auto_link_subjects_to_terms db (Some term_id)).1) at 1.
    rewrite auto_link_twice, with_student_term_grades_id. reflexivity.
Qed.

(** The recalculation that grading triggers never gets to write a roll-up
    row. *)
Lemma run_grading_term_grades db r :
  student_term_grades (run_grading db r) = student_term_grades db.
Proof.
  unfold run_grading.
  destruct (grade_student_assignment_cases (req_fails r) (req_today r)
              db (req_assignment_id r) (req_grade_data r) (req_current_user r))
    as [-> | (a & tmpl & _ & ->)]; [reflexivity |].
  cbn [fst]. rewrite try_award_points_term_grades. reflexivity.
Qed.

Lemma has_key_new s t :
  StudentTermGrade.has_key s t (StudentTermGrade.new s t) = true.
Proof. unfold StudentTermGrade.has_key. cbn. rewrite !Z.eqb_refl. reflexivity. Qed.

(** C4: running the recalculation twice in a row leaves every
    StudentTermGrade row with the same current_points_earned,
    current_points_possible, current_percentage, current_letter_grade,
    assignments_completed and assignments_total after the second run as
    after the first.  [update_term_grade], called on its own or by a grading
    request, returns or raises before it has written a row, so the table is
    the same after each run; the term grading service recomputes the rows
    from the assignment rows, which it leaves as they are. *)
Theorem C4_recalculation_idempotent :
  (forall db self template,
      let db1 := (update_term_grade db self template).2 in
      let db2 := (update_term_grade db1 self template).2 in
      student_assignments db1 = student_assignments db
      /\ map StudentTermGrade.current_fields (student_term_grades db2)
         = map StudentTermGrade.current_fields (student_term_grades db1))
  /\ (forall db request,
        let db1 := run_grading db request in
        let db2 := run_grading db1 request in
        map StudentTermGrade.current_fields (student_term_grades db2)
        = map StudentTermGrade.current_fields (student_term_grades db1))
  /\ (forall now now' db term_id student_id,
        let db1 := (calculate_student_term_grades now db term_id student_id).1 in
        let db2 := (calculate_student_term_grades now' db1 term_id student_id).1 in
        student_assignments db1 = student_assignments db
        /\ map StudentTermGrade.current_fields (student_term_grades db2)
           = map StudentTermGrade.current_fields (student_term_grades db1)).
Proof.
  split; [| split].
  - intros db self tmpl. cbv zeta. rewrite !update_term_grade_db.
    split; reflexivity.
  - intros db request. cbv zeta. rewrite run_grading_term_grades. reflexivity.
  - intros now now' db term_id student_id. cbv zeta. split.
    + rewrite !calculate_student_term_grades_eq. cbv zeta.
      destruct (List.find _ (terms db)); reflexivity.
    + apply calculate_student_term_grades_twice.
Qed.

(** ** Finalised grades *)

Lemma keeps_final_refl l : keeps_final l l.
Proof. intros i g H. eauto. Qed.

Lemma keeps_final_trans l1 l2 l3 :
  keeps_final l1 l2 -> keeps_final l2 l3 -> keeps_final l1 l3.
Proof.
  intros H12 H23 i g Hg.
  destruct (H12 i g Hg) as (g2 & Hg2 & E2).
  destruct (H23 i g2 Hg2) as (g3 & Hg3 & E3).
  exists g3. split; [exact Hg3 | congruence].
Qed.

Lemma keeps_final_update_first p f l :
  (forall g, StudentTermGrade.final_fields (f g) = StudentTermGrade.final_fields g) ->
  keeps_final l (update_first p f l).
Proof.
  intros Hf. induction l as [| x l IH]; [apply keeps_final_refl |].
  intros [| i] g Hg; cbn in *.
  - injection Hg as <-. destruct (p x); cbn; eauto.
  - destruct (p x); cbn; [eauto | apply IH, Hg].
Qed.

Lemma keeps_final_ensure_row p new l : keeps_final l (ensure_row p new l).
Proof.
  unfold ensure_row. destruct (existsb p l); [apply keeps_final_refl |].
  intros i g Hg. exists g. split; [| reflexivity].
  apply lookup_app_l_Some, Hg.
Qed.

Lemma keeps_final_grade_upsert now l kv : keeps_final l (grade_upsert now l kv).
Proof.
  eapply keeps_final_trans; [apply keeps_final_ensure_row |].
  apply keeps_final_update_first. intros g. apply set_entry_final.
Qed.

Lemma keeps_final_foldl_grade_upsert now U l :
  keeps_final l (foldl (grade_upsert now) l U).
Proof.
  revert l. induction U as [| kv U IH]; intros l; [apply keeps_final_refl |].
  cbn. eapply keeps_final_trans; [apply keeps_final_grade_upsert | apply IH].
Qed.

Lemma keeps_final_update_term_grade db self tmpl :
  keeps_final (student_term_grades db)
              (student_term_grades (update_term_grade db self tmpl).2).
Proof. rewrite update_term_grade_db. apply keeps_final_refl. Qed.

Lemma keeps_final_service now db term_id student_id :
  keeps_final (student_term_grades db)
    (student_term_grades
       (calculate_student_term_grades now db term_id student_id).1).
Proof.
  rewrite calculate_student_term_grades_eq. cbv zeta.
  destruct (List.find _ (terms db)); [| apply keeps_final_refl].
  cbn [student_term_grades with_student_term_grades].
  apply keeps_final_foldl_grade_upsert.
Qed.

Lemma keeps_final_run_grading db r :
  keeps_final (student_term_grades db) (student_term_grades (run_grading db r)).
Proof. rewrite run_grading_term_grades. apply keeps_final_refl. Qed.

Lemma keeps_final_recalculate db c :
  keeps_final (student_term_grades db) (student_term_grades (recalculate db c)).
Proof.
  destruct c; cbn.
  - apply keeps_final_run_grading.
  - apply keeps_final_update_term_grade.
  - apply keeps_final_service.
Qed.

Lemma keeps_final_recalculations cs db :
  keeps_final (student_term_grades db)
              (student_term_grades (foldl recalculate db cs)).
Proof.
  revert db. induction cs as [| c cs IH]; intros db; [apply keeps_final_refl |].
  cbn. eapply keeps_final_trans; [apply keeps_final_recalculate | apply IH].
Qed.

(** C5: a StudentTermGrade row on which [finalize_grade] was called keeps its
    final_points_earned, final_points_possible, final_percentage,
    final_letter_grade, is_finalized, finalized_date and finalized_by through
    any later recalculations, whether triggered by grading, called directly
    or run by the term grading service. *)
Theorem C5_finalization_freeze today finalizer_id db i g calls
    (Hrow : student_term_grades db !! i
            = Some (StudentTermGrade.finalize_grade today finalizer_id g)) :
  exists g',
    student_term_grades (foldl recalculate db calls) !! i = Some g'
    /\ StudentTermGrade.final_fields g'
       = (Some (StudentTermGrade.current_points_earned g),
          Some (StudentTermGrade.current_points_possible g),
          StudentTermGrade.current_percentage g,
          StudentTermGrade.current_letter_grade g,
          true, Some today, Some finalizer_id).
Proof.
  destruct (keeps_final_recalculations calls db i _ Hrow) as (g' & Hg' & E).
  exists g'. split; [exact Hg' |]. rewrite E. reflexivity.
Qed.

Lemma C5_finalization_freeze_witness :
  let g := StudentTermGrade.set_current 85 100 (Some (8500 # 100)) (Some "B"%string)
             1 1 (StudentTermGrade.new 2 1) in
  let calls := [ByGrading (grade_request 50); ByService 5 1 None] in
  student_term_grades finalized_db !! 0%nat
  = Some (StudentTermGrade.finalize_grade 210 1 g)
  /\ exists g',
       student_term_grades (foldl recalculate finalized_db calls) !! 0%nat = Some g'
       /\ StudentTermGrade.final_fields g'
          = (Some 85%Q, Some 100%Q, Some (8500 # 100), Some "B"%string, true,
             Some 210, Some 1).
Proof.
  cbv zeta.
  assert (Hrow : student_term_grades finalized_db !! 0%nat
                 = Some (StudentTermGrade.finalize_grade 210 1
                           (StudentTermGrade.set_current 85 100 (Some (8500 # 100))
                              (Some "B"%string) 1 1 (StudentTermGrade.new 2 1))))
    by (vm_compute; reflexivity).
  split; [exact Hrow |].
  exact (C5_finalization_freeze 210 1 finalized_db 0%nat _
           [ByGrading (grade_request 50); ByService 5 1 None] Hrow).
Defined.

(** ** The recalculation that never runs *)

Lemma update_term_grade_raises db self tmpl term ts :
  StudentAssignment.is_graded self = true ->
  py.float_truthy (StudentAssignment.points_earned self) = true ->
  active_term db = Some term ->
  term_subject_link db (Term.id term) (AssignmentTemplate.subject_id tmpl)
  = Some ts ->
  update_term_grade db self tmpl = (RaiseArgumentError, db).
Proof.
  intros H1 H2 H3 H4. unfold update_term_grade. rewrite H1, H2, H3, H4.
  reflexivity.
Qed.

Lemma float_truthy_nonzero (q : Q) :
  ~ (q == 0)%Q -> py.float_truthy (Some q) = true.
Proof.
  intros H. cbn. destruct (Qeq_bool q 0) eqn:E; [| reflexivity].
  apply Qeq_bool_iff in E. contradiction.
Qed.

(** C3 (defect): whenever the recalculation would run, that is for a valid
    grading request with points other than 0 while a term is active and
    linked to the assignment's subject, [update_term_grade] raises on its
    call of [case] before it has read an assignment row or written a total;
    the endpoint answers with a server error and the database is what it
    was: neither the grade nor a roll-up total is stored. *)
Theorem C3_term_grade_recalculation_raises
    fails today db assignment_id grade_data current_user assignment template
    term term_subject
    (Hvalid : valid_grade_request db assignment_id grade_data current_user
                assignment template)
    (Hpoints : ~ (StudentAssignmentGrade.points_earned grade_data == 0)%Q)
    (Hterm : active_term db = Some term)
    (Hlink : term_subject_link db (Term.id term)
               (AssignmentTemplate.subject_id template) = Some term_subject) :
  let graded :=
    graded_assignment today grade_data (Some (User.id current_user))
      assignment template in
  update_term_grade db graded template = (RaiseArgumentError, db)
  /\ grade_student_assignment fails today db assignment_id grade_data
       current_user
     = (db, InternalServerError).
Proof.
  cbv zeta.
  assert (Hraise :
    update_term_grade db
      (graded_assignment today grade_data (Some (User.id current_user))
         assignment template) template
    = (RaiseArgumentError, db)).
  { apply (update_term_grade_raises _ _ _ term term_subject);
      [apply graded_assignment_is_graded | | exact Hterm | exact Hlink].
    rewrite graded_assignment_points_earned.
    apply float_truthy_nonzero, Hpoints. }
  split; [exact Hraise |].
  rewrite (grade_student_assignment_valid _ _ _ _ _ _ _ _ Hvalid).
  unfold commit_grade. rewrite Hraise. reflexivity.
Qed.

Lemma C3_term_grade_recalculation_raises_witness :
  valid_grade_request fresh_linked_db 2 (grade_of 40) admin lab_fresh
    essay_template
  /\ ~ (StudentAssignmentGrade.points_earned (grade_of 40) == 0)%Q
  /\ active_term fresh_linked_db = Some fall_term
  /\ term_subject_link fresh_linked_db 1 7 = Some (TermSubject.mk 1 1 7 true 1%Q)
  /\ grade_student_assignment no_failure 125 fresh_linked_db 2 (grade_of 40) admin
     = (fresh_linked_db, InternalServerError)
  /\ student_term_grades fresh_linked_db = []
  /\ List.find (has_id 2) (student_assignments fresh_linked_db) = Some lab_fresh.
Proof.
  assert (Hvalid : valid_grade_request fresh_linked_db 2 (grade_of 40) admin
                     lab_fresh essay_template) by valid_request.
  assert (Hpoints : ~ (StudentAssignmentGrade.points_earned (grade_of 40) == 0)%Q)
    by (vm_compute; discriminate).
  split; [exact Hvalid |]. split; [exact Hpoints |].
  split; [reflexivity |]. split; [reflexivity |].
  split; [| split; reflexivity].
  exact (proj2 (C3_term_grade_recalculation_raises no_failure 125 fresh_linked_db
                  2 (grade_of 40) admin lab_fresh essay_template fall_term
                  (TermSubject.mk 1 1 7 true 1%Q) Hvalid Hpoints eq_refl eq_refl)).
Defined.

(** * More of the code: proofs *)

(** ** School days *)

Lemma school_days_loop_count fuel n d e acc :
  Z.of_nat n = Z.max 0 (e - d + 1) -> (n <= fuel)%nat ->
  school_days_loop fuel d e acc = acc + school_days_from n d.
Proof.
  revert n d acc. induction fuel as [| fuel IH]; intros n d acc Hn Hle.
  - assert (n = O) by lia. subst. cbn. lia.
  - cbn [school_days_loop]. destruct (Z.leb_spec d e) as [Hde | Hde].
    + destruct n as [| n]; [lia |].
      rewrite (IH n) by lia. cbn [school_days_from].
      destruct (weekday d <? 5); lia.
    + assert (n = O) by lia. subst. cbn. lia.
Qed.

Lemma calculate_school_days_count s e :
  calculate_school_days s e = school_days_from (Z.to_nat (e - s + 1)) s.
Proof.
  unfold calculate_school_days.
  rewrite (school_days_loop_count _ (Z.to_nat (e - s + 1))); lia.
Qed.

Lemma school_days_from_app n m d :
  school_days_from (n + m) d
  = school_days_from n d + school_days_from m (d + Z.of_nat n).
Proof.
  revert d. induction n as [| n IH]; intros d.
  - cbn [Nat.add school_days_from]. rewrite Z.add_0_r. reflexivity.
  - cbn [Nat.add school_days_from]. rewrite IH.
    replace (d + 1 + Z.of_nat n) with (d + Z.of_nat (S n)) by lia. lia.
Qed.

Lemma school_days_from_week d : school_days_from 7 d = 5.
Proof.
  cbn [school_days_from]. unfold weekday.
  pose proof (Z.mod_pos_bound (d + 6) 7 ltac:(lia)) as Hb.
  assert (forall i, 0 <= i -> (d + i + 6) mod 7 = ((d + 6) mod 7 + i) mod 7) as Hs.
  { intros i _. rewrite Zplus_mod_idemp_l. f_equal. lia. }
  replace (d + 1 + 1 + 1 + 1 + 1 + 1 + 6) with (d + 6 + 6) by lia.
  replace (d + 1 + 1 + 1 + 1 + 1 + 6) with (d + 5 + 6) by lia.
  replace (d + 1 + 1 + 1 + 1 + 6) with (d + 4 + 6) by lia.
  replace (d + 1 + 1 + 1 + 6) with (d + 3 + 6) by lia.
  replace (d + 1 + 1 + 6) with (d + 2 + 6) by lia.
  rewrite !Hs by lia.
  set (r := (d + 6) mod 7) in *.
  assert (r = 0 \/ r = 1 \/ r = 2 \/ r = 3 \/ r = 4 \/ r = 5 \/ r = 6) as Hr by lia.
  destruct Hr as [-> | [-> | [-> | [-> | [-> | [-> | ->]]]]]]; reflexivity.
Qed.

Lemma school_days_from_weeks k d :
  school_days_from (7 * k) d = 5 * Z.of_nat k.
Proof.
  revert d. induction k as [| k IH]; intros d; [reflexivity |].
  replace (7 * S k)%nat with (7 + 7 * k)%nat by lia.
  rewrite school_days_from_app, school_days_from_week, IH. lia.
Qed.

(** X1: a range of whole weeks, whatever day it starts on, holds five school
    days for each week: [calculate_school_days] from a day to the day before
    the same weekday [k] weeks later is [5 * k]. *)
Theorem calculate_school_days_whole_weeks (start_date : Z) (k : nat) :
  calculate_school_days start_date (start_date + 7 * Z.of_nat k - 1)
  = 5 * Z.of_nat k.
Proof.
  rewrite calculate_school_days_count.
  replace (Z.to_nat (start_date + 7 * Z.of_nat k - 1 - start_date + 1))
    with (7 * k)%nat by lia.
  apply school_days_from_weeks.
Qed.

(** X2: the school days of a range are those of its two parts: for a day
    [mid] with [start_date <= mid + 1] and [mid <= end_date] the count
    from [start_date] to [end_date] is the count up to [mid] plus the count
    from the day after. *)
Theorem calculate_school_days_split (start_date mid end_date : Z) :
  start_date <= mid + 1 -> mid <= end_date ->
  calculate_school_days start_date end_date
  = calculate_school_days start_date mid
    + calculate_school_days (mid + 1) end_date.
Proof.
  intros H1 H2. rewrite !calculate_school_days_count.
  replace (Z.to_nat (end_date - start_date + 1))
    with (Z.to_nat (mid - start_date + 1) + Z.to_nat (end_date - (mid + 1) + 1))%nat
    by lia.
  rewrite school_days_from_app. do 2 f_equal. lia.
Qed.

Lemma calculate_school_days_split_witness :
  calculate_school_days 10 30
  = calculate_school_days 10 19 + calculate_school_days (19 + 1) 30.
Proof. apply (calculate_school_days_split 10 19 30); lia. Defined.

(** ** Attendance statistics *)

Lemma count_if_nonneg {A} (p : A -> bool) l : 0 <= py.count_if p l.
Proof.
  unfold py.count_if.
  induction l as [| x l IH]; cbn [foldr]; [lia | destruct (p x); lia].
Qed.

Lemma count_if_cons {A} (p : A -> bool) x l :
  py.count_if p (x :: l) = (if p x then 1 else 0) + py.count_if p l.
Proof. unfold py.count_if. cbn [foldr]. destruct (p x); lia. Qed.

Lemma status_counts_partition (records : list AttendanceRecord.t) :
  py.count_if (has_status AttendanceStatus.PRESENT) records
  + py.count_if (has_status AttendanceStatus.ABSENT) records
  + py.count_if (has_status AttendanceStatus.LATE) records
  + py.count_if (has_status AttendanceStatus.EXCUSED) records
  = Z.of_nat (length records).
Proof.
  induction records as [| r records IH]; [reflexivity |].
  rewrite !count_if_cons. cbn [length]. unfold has_status at 1 3 5 7.
  destruct (AttendanceRecord.status r); cbn [AttendanceStatus.eqb]; lia.
Qed.

(** X3: the four counts of [get_attendance_statistics] are not negative and
    add up to the number of records: every record is counted once. *)
Theorem attendance_statistics_partition records :
  let stats := get_attendance_statistics records in
  present_days stats + absent_days stats + late_days stats + excused_days stats
  = Z.of_nat (length records)
  /\ 0 <= present_days stats /\ 0 <= absent_days stats
  /\ 0 <= late_days stats /\ 0 <= excused_days stats.
Proof.
  cbn. split; [apply status_counts_partition |].
  repeat split; apply count_if_nonneg.
Qed.

(** X4: as long as there are no more records than required days of
    instruction, the attendance rate lies between 0 and 100. *)
Theorem attendance_rate_in_range records required :
  Z.of_nat (length records) <= required ->
  (0 <= calculate_attendance_rate records required <= 100)%Q.
Proof.
  intros Hlen.
  pose proof (status_counts_partition records) as Hsum.
  pose proof (count_if_nonneg (has_status AttendanceStatus.PRESENT) records).
  pose proof (count_if_nonneg (has_status AttendanceStatus.ABSENT) records).
  pose proof (count_if_nonneg (has_status AttendanceStatus.LATE) records).
  pose proof (count_if_nonneg (has_status AttendanceStatus.EXCUSED) records).
  unfold calculate_attendance_rate.
  destruct (Z.ltb_spec 0 required) as [Hr | Hr]; [| lra].
  apply percentage_in_range; [exact Hr | |].
  - change 0%Q with (inject_Z 0). rewrite <- Zle_Qle. lia.
  - rewrite <- Zle_Qle. lia.
Qed.

Lemma attendance_rate_in_range_witness :
  (0 <= calculate_attendance_rate
          (records_with AttendanceStatus.PRESENT 3 1
           ++ records_with AttendanceStatus.ABSENT 2 4) 180 <= 100)%Q.
Proof.
  apply (attendance_rate_in_range
           (records_with AttendanceStatus.PRESENT 3 1
            ++ records_with AttendanceStatus.ABSENT 2 4) 180).
  vm_compute. discriminate.
Defined.

(** ** The first absence *)

Lemma elem_of_insert_by_date r l x :
  x ∈ insert_by_date r l <-> x = r \/ x ∈ l.
Proof.
  induction l as [| y l IH]; cbn.
  - rewrite list_elem_of_singleton, elem_of_nil. tauto.
  - destruct (_ <=? _).
    + rewrite !elem_of_cons. tauto.
    + rewrite !elem_of_cons, IH. tauto.
Qed.

Lemma elem_of_sorted_by_date l x : x ∈ sorted_by_date l <-> x ∈ l.
Proof.
  induction l as [| y l IH]; cbn; [reflexivity |].
  rewrite elem_of_insert_by_date, elem_of_cons, IH. reflexivity.
Qed.

Lemma date_sorted_insert r l : date_sorted l -> date_sorted (insert_by_date r l).
Proof.
  induction l as [| y l IH]; cbn; [intros _; split; [constructor | exact I] |].
  intros [Hy Hl]. destruct (Z.leb_spec (AttendanceRecord.date r) (AttendanceRecord.date y)).
  - cbn. split; [| split; assumption].
    constructor; [assumption |].
    eapply Forall_impl; [exact Hy |]. cbn. intros; lia.
  - cbn. split; [| apply IH, Hl].
    apply Forall_forall. intros x Hx. apply elem_of_insert_by_date in Hx.
    destruct Hx as [-> | Hx]; [lia |].
    rewrite Forall_forall in Hy. apply Hy, Hx.
Qed.

Lemma date_sorted_sorted_by_date l : date_sorted (sorted_by_date l).
Proof.
  induction l as [| y l IH]; cbn; [exact I | apply date_sorted_insert, IH].
Qed.

Lemma find_date_sorted (p : AttendanceRecord.t -> bool) l r :
  date_sorted l -> List.find p l = Some r ->
  r ∈ l /\ p r = true
  /\ forall r', r' ∈ l -> p r' = true ->
       AttendanceRecord.date r <= AttendanceRecord.date r'.
Proof.
  induction l as [| y l IH]; cbn; [discriminate |].
  intros [Hy Hl]. destruct (p y) eqn:E.
  - intros [= ->]. split; [left |]. split; [exact E |].
    intros r' Hr' _. apply elem_of_cons in Hr'. destruct Hr' as [-> | Hr']; [lia |].
    rewrite Forall_forall in Hy. apply Hy, Hr'.
  - intros Hf. destruct (IH Hl Hf) as (Hin & Hp & Hmin).
    split; [right; exact Hin |]. split; [exact Hp |].
    intros r' Hr' Hpr'. apply elem_of_cons in Hr'.
    destruct Hr' as [-> | Hr']; [congruence | apply Hmin; assumption].
Qed.

Lemma find_none_elem_of {A} (p : A -> bool) (l : list A) :
  List.find p l = None <-> forall x, x ∈ l -> p x = false.
Proof.
  induction l as [| y l IH]; cbn.
  - split; [intros _ x Hx; apply elem_of_nil in Hx; destruct Hx | reflexivity].
  - destruct (p y) eqn:E.
    + split; [discriminate |]. intros H. specialize (H y ltac:(left)). congruence.
    + rewrite IH. split.
      * intros H x Hx. apply elem_of_cons in Hx. destruct Hx as [-> | Hx]; auto.
      * intros H x Hx. apply H. right. exact Hx.
Qed.

(** X5: [find_first_absence_date] returns [None] exactly when no record is
    an absence; otherwise it returns the rendering of the date of an absence
    that no other absence precedes, in whatever order the records come. *)
Theorem find_first_absence_date_earliest isoformat records :
  match find_first_absence_date isoformat records with
  | None =>
    forall r, r ∈ records -> AttendanceRecord.status r <> AttendanceStatus.ABSENT
  | Some s =>
    exists r, r ∈ records
      /\ AttendanceRecord.status r = AttendanceStatus.ABSENT
      /\ s = isoformat (AttendanceRecord.date r)
      /\ forall r', r' ∈ records ->
           AttendanceRecord.status r' = AttendanceStatus.ABSENT ->
           AttendanceRecord.date r <= AttendanceRecord.date r'
  end.
Proof.
  unfold find_first_absence_date.
  destruct (List.find _ _) as [r |] eqn:E.
  - destruct (find_date_sorted _ _ _ (date_sorted_sorted_by_date records) E)
      as (Hin & Hp & Hmin).
    exists r. split; [apply elem_of_sorted_by_date, Hin |].
    split; [unfold has_status in Hp; destruct (AttendanceRecord.status r);
            (reflexivity || discriminate) |].
    split; [reflexivity |].
    intros r' Hr' Hs. apply Hmin; [apply elem_of_sorted_by_date, Hr' |].
    unfold has_status. rewrite Hs. reflexivity.
  - intros r Hr Hs. rewrite find_none_elem_of in E.
    specialize (E r (proj2 (elem_of_sorted_by_date _ _) Hr)).
    unfold has_status in E. rewrite Hs in E. discriminate.
Qed.

(** ** The required days of instruction, written and read back *)

Lemma rstrip_no_space s :
  all_chars (fun c => negb (builtins.is_space c)) s = true -> builtins.rstrip s = s.
Proof.
  induction s as [| c s IH]; cbn; [reflexivity |].
  intros H. apply andb_true_iff in H as [Hc Hs]. rewrite (IH Hs).
  destruct s; [| reflexivity].
  destruct (builtins.is_space c); [discriminate | reflexivity].
Qed.

Lemma lstrip_no_space c s :
  builtins.is_space c = false -> builtins.lstrip (String c s) = String c s.
Proof. intros H. cbn. rewrite H. reflexivity. Qed.

Lemma is_digit_not_space c : builtins.is_digit c = true -> builtins.is_space c = false.
Proof.
  unfold builtins.is_digit, builtins.is_space. cbv zeta. intros H.
  apply andb_true_iff in H as [H1 H2].
  apply Nat.leb_le in H1, H2.
  apply orb_false_iff. split.
  - apply andb_false_iff. right. apply Nat.leb_gt. lia.
  - apply Nat.eqb_neq. lia.
Qed.

Lemma string_of_uint_digits (d : Decimal.uint) :
  all_chars builtins.is_digit (NilZero.string_of_uint d) = true.
Proof.
  assert (all_chars builtins.is_digit (NilEmpty.string_of_uint d) = true) as H
    by (induction d; cbn; [reflexivity | exact IHd ..]).
  destruct d; [reflexivity | exact H ..].
Qed.

Lemma string_of_uint_nonempty (d : Decimal.uint) :
  NilZero.string_of_uint d <> EmptyString.
Proof. destruct d; discriminate. Qed.

Lemma all_chars_impl (p q : ascii -> bool) s :
  (forall c, p c = true -> q c = true) ->
  all_chars p s = true -> all_chars q s = true.
Proof.
  intros Hpq. induction s as [| c s IH]; cbn; [reflexivity |].
  intros H. apply andb_true_iff in H as [Hc Hs].
  rewrite (Hpq c Hc), (IH Hs). reflexivity.
Qed.

Lemma digits_all_digits b s :
  all_chars builtins.is_digit s = true -> (b = true -> s <> EmptyString) ->
  builtins.digits b s = Some s.
Proof.
  revert b. induction s as [| c s IH]; intros b; cbn.
  - intros _ Hb. destruct b; [destruct (Hb eq_refl eq_refl) | reflexivity].
  - intros H _. apply andb_true_iff in H as [Hc Hs]. rewrite Hc.
    rewrite (IH false Hs) by discriminate. reflexivity.
Qed.

Lemma unsigned_string_of_uint (d : Decimal.uint) :
  d <> Decimal.Nil ->
  builtins.unsigned (NilZero.string_of_uint d) = Some (Z.of_uint d).
Proof.
  intros Hd. unfold builtins.unsigned.
  rewrite digits_all_digits.
  - rewrite NilZero.usu by exact Hd. reflexivity.
  - apply string_of_uint_digits.
  - intros _. apply string_of_uint_nonempty.
Qed.

Lemma first_char_digit (d : Decimal.uint) :
  exists c s, NilZero.string_of_uint d = String c s /\ builtins.is_digit c = true.
Proof.
  pose proof (string_of_uint_digits d) as H.
  destruct (NilZero.string_of_uint d) as [| c s] eqn:E;
    [destruct (string_of_uint_nonempty d E) |].
  cbn in H. apply andb_true_iff in H as [Hc _]. eauto.
Qed.

Lemma digit_not_sign c :
  builtins.is_digit c = true -> c <> "+"%char /\ c <> "-"%char.
Proof. intros H. split; intros ->; discriminate. Qed.

Lemma strip_string_of_uint (d : Decimal.uint) :
  builtins.rstrip (builtins.lstrip (NilZero.string_of_uint d)) = NilZero.string_of_uint d.
Proof.
  destruct (first_char_digit d) as (c & s & E & Hc).
  rewrite E, lstrip_no_space by (apply is_digit_not_space, Hc). rewrite <- E.
  apply rstrip_no_space.
  eapply all_chars_impl; [| apply string_of_uint_digits].
  intros c' Hc'. rewrite (is_digit_not_space c' Hc'). reflexivity.
Qed.

Lemma int_string_of_uint (d : Decimal.uint) :
  d <> Decimal.Nil -> builtins.int (NilZero.string_of_uint d) = Some (Z.of_uint d).
Proof.
  intros Hd. unfold builtins.int. rewrite strip_string_of_uint.
  destruct (first_char_digit d) as (c & s & E & Hc).
  destruct (digit_not_sign c Hc) as [Hp Hm].
  rewrite <- (unsigned_string_of_uint d Hd). rewrite E.
  destruct c as [[] [] [] [] [] [] [] []]; try reflexivity; congruence.
Qed.

Lemma int_str n : builtins.int (builtins.str n) = Some n.
Proof.
  unfold builtins.str. destruct n as [| p | p]; cbn [Z.to_int NilZero.string_of_int].
  - reflexivity.
  - rewrite int_string_of_uint by apply Unsigned.to_uint_nonnil.
    f_equal. apply (DecimalZ.of_to (Z.pos p)).
  - unfold builtins.int.
    change (String _ (NilZero.string_of_uint (Pos.to_uint p)))
      with (String "-" (NilZero.string_of_uint (Pos.to_uint p))).
    rewrite lstrip_no_space by reflexivity.
    rewrite rstrip_no_space.
    + rewrite unsigned_string_of_uint by apply Unsigned.to_uint_nonnil.
      cbn [option_map]. f_equal. apply (DecimalZ.of_to (Z.neg p)).
    + cbn [all_chars]. apply andb_true_iff. split; [reflexivity |].
      eapply all_chars_impl; [| apply string_of_uint_digits].
      intros c' Hc'. rewrite (is_digit_not_space c' Hc'). reflexivity.
Qed.

Lemma get_setting_upsert db key value db' setting :
  upsert_setting db key value = Some (db', setting) ->
  get_setting db' key = Some setting
  /\ SystemSettings.setting_value setting = value.
Proof.
  unfold upsert_setting.
  destruct (get_setting db key) as [existing |] eqn:E.
  - intros [= <- <-]. split; [| reflexivity].
    unfold get_setting in *. cbn [system_settings with_system_settings].
    apply find_update_first; [exact E |].
    apply find_some in E as [_ E]. exact E.
  - destruct (existsb _ _); [discriminate |]. intros [= <- <-].
    split; [| reflexivity].
    unfold get_setting in *. cbn [system_settings with_system_settings].
    induction (system_settings db) as [| s l IH]; cbn in *.
    + rewrite String.eqb_refl. reflexivity.
    + destruct (_ && _); [discriminate | apply IH, E].
Qed.

(** X6: when [update_required_days_of_instruction] succeeds, the value lies
    between 1 and 365, [get_required_days_of_instruction] reads the same
    value back, and the attendance rate computed with it is
    (present + late + excused) / required_days * 100. *)
Theorem required_days_round_trip db required_days current_user db' setting :
  update_required_days_of_instruction db required_days current_user
  = (db', Ok setting) ->
  1 <= required_days <= 365
  /\ get_required_days_of_instruction db' = required_days
  /\ forall records,
       calculate_attendance_rate records (get_required_days_of_instruction db')
       = attendance_rate_formula records required_days.
Proof.
  unfold update_required_days_of_instruction.
  destruct (negb _); [discriminate |].
  destruct (Z.ltb_spec required_days 1); [discriminate |].
  destruct (Z.ltb_spec 365 required_days); [discriminate |]. cbn [orb].
  destruct (upsert_setting _ _ _) as [[db1 s1] |] eqn:E; [| discriminate].
  intros [= <- <-]. destruct (get_setting_upsert _ _ _ _ _ E) as [Hget Hval].
  assert (get_required_days_of_instruction db1 = required_days) as Hd.
  { unfold get_required_days_of_instruction, get_setting_value_int.
    rewrite Hget, Hval, int_str. reflexivity. }
  split; [lia |]. split; [exact Hd |].
  intros records. rewrite Hd. apply attendance_rate_positive. lia.
Qed.

Lemma required_days_round_trip_witness :
  let out := update_required_days_of_instruction school_db 170 admin in
  out = (with_system_settings
           [points_enabled;
            SystemSettings.mk "attendance.required_days_of_instruction" "170"
                              true]
           school_db,
         Ok (SystemSettings.mk "attendance.required_days_of_instruction" "170"
                               true))
  /\ 1 <= 170 <= 365
  /\ get_required_days_of_instruction out.1 = 170
  /\ forall records,
       calculate_attendance_rate records (get_required_days_of_instruction out.1)
       = attendance_rate_formula records 170.
Proof.
  cbv zeta. split; [reflexivity |].
  apply (required_days_round_trip school_db 170 admin _ _ eq_refl).
Defined.

(** ** Activating and deleting terms *)

Lemma set_is_active_twice b b' t :
  set_is_active b (set_is_active b' t) = set_is_active b t.
Proof. reflexivity. Qed.

Lemma filter_cleared l :
  List.filter Term.is_active (map (set_is_active false) l) = [].
Proof. induction l as [| y l IH]; [reflexivity | exact IH]. Qed.

Lemma activate_terms_filter term_id l term :
  List.find (has_term_id term_id) l = Some term ->
  List.filter Term.is_active
    (update_first (has_term_id (Term.id term)) (set_is_active true)
                  (map (set_is_active false) l))
  = [set_is_active true term]
  /\ Term.id term = term_id.
Proof.
  induction l as [| x l IH]; cbn; [discriminate |].
  unfold has_term_id at 1. destruct (Z.eqb_spec (Term.id x) term_id) as [Hx | Hx].
  - intros [= ->]. split; [| exact Hx]. unfold has_term_id at 1. cbn.
    rewrite Z.eqb_refl. cbn. f_equal. apply filter_cleared.
  - intros Hf. destruct (IH Hf) as [IH1 IH2]. split; [| exact IH2].
    unfold has_term_id at 1. cbn.
    destruct (Z.eqb_spec (Term.id x) (Term.id term)); [congruence |].
    cbn. exact IH1.
Qed.

Lemma find_filter_singleton {A} (p : A -> bool) (l : list A) (a : A) :
  List.filter p l = [a] -> List.find p l = Some a.
Proof.
  induction l as [| x l IH]; cbn; [discriminate |].
  destruct (p x); [intros [= -> _]; reflexivity | exact IH].
Qed.

(** X7: after [activate_term] has succeeded the activated term is the only
    active one, it carries the requested id, and [get_active_term] returns
    it. *)
Theorem activate_term_single_active db term_id current_user db' term' :
  activate_term db term_id current_user = (db', Ok term') ->
  List.filter Term.is_active (terms db') = [term']
  /\ Term.id term' = term_id
  /\ get_active_term db' = Ok term'.
Proof.
  unfold activate_term. destruct (negb _); [discriminate |].
  destruct (List.find _ _) as [term |] eqn:E; [| discriminate].
  intros [= <- <-]. destruct (activate_terms_filter _ _ _ E) as [Hf Hid].
  cbn [terms with_terms]. split; [exact Hf |]. split; [exact Hid |].
  unfold get_active_term, active_term. cbn [terms with_terms].
  rewrite (find_filter_singleton _ _ _ Hf). reflexivity.
Qed.

Lemma activate_term_single_active_witness :
  let out := activate_term two_terms_db 2 admin in
  List.filter Term.is_active (terms out.1) = [Term.mk 2 "Spring" 201 300 true]
  /\ Term.id (Term.mk 2 "Spring" 201 300 true) = 2
  /\ get_active_term out.1 = Ok (Term.mk 2 "Spring" 201 300 true).
Proof.
  cbv zeta.
  apply (activate_term_single_active two_terms_db 2 admin).
  reflexivity.
Defined.

(** X8: [delete_term] never leaves a subject link without its term: if
    every TermSubject row refers to an existing term before the call, so it
    does afterwards, whatever the call answers. *)
Theorem delete_term_keeps_links_resolved db term_id current_user :
  links_resolve db -> links_resolve (delete_term db term_id current_user).1.
Proof.
  intros Hinv. unfold delete_term. destruct (negb _); [exact Hinv |].
  destruct (List.find _ _) as [term |]; [| exact Hinv].
  destruct (existsb _ _) eqn:E; [exact Hinv |].
  intros ts Hts. cbn [fst term_subjects with_terms] in Hts.
  destruct (Hinv ts Hts) as (t & Ht & Hid). exists t. split; [| exact Hid].
  cbn [fst terms with_terms]. apply list_elem_of_In, filter_In.
  split; [apply list_elem_of_In, Ht |].
  unfold has_term_id. destruct (Z.eqb_spec (Term.id t) (Term.id term)) as [Heq |];
    [| reflexivity].
  exfalso. apply list_elem_of_In in Hts.
  assert (existsb (fun ts => TermSubject.term_id ts =? Term.id term)
                  (term_subjects db) = true) as Hex.
  { apply existsb_exists. exists ts. split; [exact Hts |]. apply Z.eqb_eq. congruence. }
  congruence.
Qed.

Lemma two_terms_db_links_resolve : links_resolve two_terms_db.
Proof.
  intros ts Hts. apply list_elem_of_singleton in Hts. subst.
  exists fall_term. split; [left | reflexivity].
Qed.

Lemma delete_term_keeps_links_resolved_witness :
  links_resolve two_terms_db
  /\ links_resolve (delete_term two_terms_db 2 admin).1
  /\ terms (delete_term two_terms_db 2 admin).1 = [fall_term].
Proof.
  split; [exact two_terms_db_links_resolve |].
  split; [| reflexivity].
  apply (delete_term_keeps_links_resolved two_terms_db 2 admin).
  exact two_terms_db_links_resolve.
Defined.

(** X9: the endpoint [calculate_term_grades] never answers 400: the "Term
    not found" of the service is out of reach behind the endpoint's own
    lookup, since linking changes no term. *)
Theorem calculate_term_grades_never_400 now db term_id current_user student_id :
  (calculate_term_grades now db term_id current_user student_id).2
  <> HTTPException 400.
Proof.
  unfold calculate_term_grades. destruct (negb _); [discriminate |].
  destruct (List.find _ (terms db)) as [term |] eqn:E; [| discriminate].
  unfold calculate_student_term_grades.
  change (terms (auto_link_subjects_to_terms db (Some term_id)).1) with (terms db).
  unfold has_term_id in E. rewrite E. discriminate.
Qed.

(** ** Linking subjects to terms *)

Lemma link_subject_acc term acc k :
  exists extra,
    (link_subject term acc k).1 = acc.1 ++ extra
    /\ (link_subject term acc k).2 = acc.2 + Z.of_nat (length extra)
    /\ (length extra <= 1)%nat.
Proof.
  unfold link_subject, ensure_row. cbn [fst snd].
  destruct (existsb _ _).
  - exists []. rewrite app_nil_r. cbn. split; [reflexivity |]. split; lia.
  - eexists [_]. cbn. split; [reflexivity |]. split; lia.
Qed.

Lemma foldl_link_subject_acc term ks acc :
  exists extra,
    (foldl (link_subject term) acc ks).1 = acc.1 ++ extra
    /\ (foldl (link_subject term) acc ks).2 = acc.2 + Z.of_nat (length extra)
    /\ (length extra <= length ks)%nat.
Proof.
  revert acc. induction ks as [| k ks IH]; intros acc; cbn [foldl].
  - exists []. rewrite app_nil_r. cbn. split; [reflexivity |]. split; lia.
  - destruct (link_subject_acc term acc k) as (e1 & H1 & H2 & H3).
    destruct (IH (link_subject term acc k)) as (e2 & H4 & H5 & H6).
    exists (e1 ++ e2). rewrite H4, H5, H1, H2, length_app, <- app_assoc.
    split; [reflexivity |]. cbn [length]. split; lia.
Qed.

Lemma link_term_acc db acc term :
  exists extra,
    (link_term db acc term).1 = acc.1 ++ extra
    /\ term_subjects_created (link_term db acc term).2
       = term_subjects_created acc.2 + Z.of_nat (length extra)
    /\ Z.of_nat (length extra)
       <= subjects_linked (link_term db acc term).2 - subjects_linked acc.2.
Proof.
  destruct (foldl_link_subject_acc term (linked_subject_ids db term)
              (acc.1, term_subjects_created acc.2)) as (extra & H1 & H2 & H3).
  exists extra. unfold link_term. cbn [fst snd] in *.
  cbn [term_subjects_created subjects_linked].
  split; [exact H1 |]. split; [exact H2 | lia].
Qed.

Lemma foldl_link_term_acc db selected acc :
  exists extra,
    (foldl (link_term db) acc selected).1 = acc.1 ++ extra
    /\ term_subjects_created (foldl (link_term db) acc selected).2
       = term_subjects_created acc.2 + Z.of_nat (length extra)
    /\ Z.of_nat (length extra)
       <= subjects_linked (foldl (link_term db) acc selected).2
          - subjects_linked acc.2.
Proof.
  revert acc. induction selected as [| term selected IH]; intros acc; cbn [foldl].
  - exists []. rewrite app_nil_r. cbn. split; [reflexivity |]. split; lia.
  - destruct (link_term_acc db acc term) as (e1 & H1 & H2 & H3).
    destruct (IH (link_term db acc term)) as (e2 & H4 & H5 & H6).
    exists (e1 ++ e2). rewrite H4, H5, H1, H2, length_app, <- app_assoc.
    split; [reflexivity |]. split; lia.
Qed.

(** X10: [auto_link_subjects_to_terms] only appends to the TermSubject
    table and touches no other table; [term_subjects_created] is the number
    of rows appended and never exceeds [subjects_linked]. *)
Theorem auto_link_accounting db term_id :
  let out := auto_link_subjects_to_terms db term_id in
  exists added,
    out.1 = with_term_subjects (term_subjects db ++ added) db
    /\ term_subjects_created out.2 = Z.of_nat (length added)
    /\ term_subjects_created out.2 <= subjects_linked out.2.
Proof.
  cbv zeta. unfold auto_link_subjects_to_terms. cbn [fst snd].
  destruct (foldl_link_term_acc db (selected_terms db term_id)
              (term_subjects db, mkLinkResults 0 0)) as (added & H1 & H2 & H3).
  cbn [fst snd term_subjects_created subjects_linked] in *.
  exists added. rewrite H1, H2. split; [reflexivity |]. split; lia.
Qed.

Lemma has_link_key link ts :
  has_link link.1 link.2 ts = true <-> link_key ts = link.
Proof.
  destruct link as [t s]. unfold has_link, link_key. cbn.
  rewrite andb_true_iff, !Z.eqb_eq. split; [intros [-> ->] | intros [= -> ->]]; auto.
Qed.

Lemma NoDup_link_step l link :
  NoDup (map link_key l) -> NoDup (map link_key (link_step l link)).
Proof.
  intros Hl. destruct link as [t s]. unfold link_step, ensure_row. cbn [fst snd].
  destruct (existsb _ l) eqn:E; [exact Hl |].
  rewrite map_app. cbn [map]. apply NoDup_app. split; [exact Hl |].
  split; [| apply NoDup_singleton].
  intros k Hk Hk'. apply list_elem_of_singleton in Hk'. subst k.
  apply list_elem_of_fmap in Hk as (ts & Hkey & Hts).
  assert (existsb (has_link t s) l = true) as Hex; [| congruence].
  apply existsb_exists. exists ts. split; [apply list_elem_of_In, Hts |].
  apply (has_link_key (t, s)). symmetry. exact Hkey.
Qed.

Lemma NoDup_foldl_link_step links l :
  NoDup (map link_key l) -> NoDup (map link_key (foldl link_step l links)).
Proof.
  revert l. induction links as [| k links IH]; intros l Hl; [exact Hl |].
  cbn. apply IH, NoDup_link_step, Hl.
Qed.

(** X11: [auto_link_subjects_to_terms] respects the uniqueness constraint
    on (term_id, subject_id): if no two links share the pair before the
    call, none do afterwards. *)
Theorem auto_link_keeps_links_unique db term_id :
  NoDup (map link_key (term_subjects db)) ->
  NoDup (map link_key (term_subjects (auto_link_subjects_to_terms db term_id).1)).
Proof.
  intros H. rewrite auto_link_eq. cbn [term_subjects with_term_subjects].
  apply NoDup_foldl_link_step, H.
Qed.

Lemma auto_link_keeps_links_unique_witness :
  NoDup (map link_key (term_subjects school_db))
  /\ NoDup (map link_key
              (term_subjects (auto_link_subjects_to_terms school_db None).1))
  /\ map link_key (term_subjects (auto_link_subjects_to_terms school_db None).1)
     = [(1, 7)].
Proof.
  split; [apply NoDup_nil_2 |]. split; [| reflexivity].
  apply (auto_link_keeps_links_unique school_db None). apply NoDup_nil_2.
Defined.

(** ** Invariants of the roll-up rows *)

Lemma Forall_update_first {A} (P : A -> Prop) p f (l : list A) :
  (forall x, P (f x)) -> Forall P l -> Forall P (update_first p f l).
Proof.
  intros Hf. induction 1 as [| x l Hx Hl IH]; cbn; [constructor |].
  destruct (p x); constructor; auto.
Qed.

Lemma Forall_ensure_row {A} (P : A -> Prop) p new (l : list A) :
  P new -> Forall P l -> Forall P (ensure_row p new l).
Proof.
  intros Hn Hl. unfold ensure_row. destruct (existsb p l); [exact Hl |].
  apply Forall_app. split; [exact Hl | constructor; [exact Hn | constructor]].
Qed.

Section row_invariant.
Variable P : StudentTermGrade.t -> Prop.
Hypothesis P_new : forall s t, P (StudentTermGrade.new s t).
Hypothesis P_service :
  forall earned possible letter total now g,
    0 <= total ->
    P (StudentTermGrade.set_current earned (inject_Z possible)
         (if 0 <? possible
          then Some (earned / inject_Z possible * 100)%Q else None)
         letter total now g).

Lemma rows_update_term_grade db self tmpl :
  Forall P (student_term_grades db) ->
  Forall P (student_term_grades (update_term_grade db self tmpl).2).
Proof. rewrite update_term_grade_db. auto. Qed.

Lemma rows_run_grading db r :
  Forall P (student_term_grades db) ->
  Forall P (student_term_grades (run_grading db r)).
Proof. rewrite run_grading_term_grades. auto. Qed.

Lemma rows_grade_term_subject now db term student acc ts :
  Forall P acc.1 -> Forall P (grade_term_subject now db term student acc ts).1.
Proof.
  intros H. unfold grade_term_subject.
  destruct (List.filter _ _) as [| row rows]; [exact H |]. cbn [fst].
  apply Forall_update_first; [| apply Forall_ensure_row; auto].
  intros g. apply P_service. lia.
Qed.

Lemma rows_grade_student now db term tss acc student :
  Forall P acc.1 -> Forall P (grade_student now db term tss acc student).1.
Proof.
  intros H. unfold grade_student. cbn [fst].
  generalize (acc.2.1). revert H. generalize (acc.1).
  induction tss as [| ts tss IH]; intros l Hl n; cbn [foldl]; [exact Hl |].
  pose proof (rows_grade_term_subject now db term student (l, n) ts Hl) as Hs.
  destruct (grade_term_subject now db term student (l, n) ts) as [l' n'].
  apply IH, Hs.
Qed.

Lemma rows_service now db term_id student_id :
  Forall P (student_term_grades db) ->
  Forall P (student_term_grades
              (calculate_student_term_grades now db term_id student_id).1).
Proof.
  intros H. unfold calculate_student_term_grades.
  change (terms (auto_link_subjects_to_terms db (Some term_id)).1) with (terms db).
  destruct (List.find _ (terms db)) as [term |]; [| exact H].
  cbn [fst student_term_grades with_student_term_grades].
  change (student_term_grades (auto_link_subjects_to_terms db (Some term_id)).1)
    with (student_term_grades db).
  set (students := List.filter _ (users _)). clearbody students.
  set (tss := List.filter _ (term_subjects _)). clearbody tss.
  set (db1 := (auto_link_subjects_to_terms db (Some term_id)).1). clearbody db1.
  generalize (0, 0). revert H. generalize (student_term_grades db).
  induction students as [| u students IH]; intros l Hl n; cbn [foldl]; [exact Hl |].
  pose proof (rows_grade_student now db1 term tss (l, n) u Hl) as Hs.
  destruct (grade_student now db1 term tss (l, n) u) as [l' n'].
  apply IH, Hs.
Qed.

Lemma rows_recalculations calls db :
  Forall P (student_term_grades db) ->
  Forall P (student_term_grades (foldl recalculate db calls)).
Proof.
  revert db. induction calls as [| c calls IH]; intros db H; [exact H |].
  cbn [foldl]. apply IH. destruct c; cbn [recalculate].
  - apply rows_run_grading, H.
  - apply rows_update_term_grade, H.
  - apply rows_service, H.
Qed.
End row_invariant.

Lemma completion_rate_counts g :
  counts_in_order g -> (0 <= completion_rate g <= 100)%Q.
Proof.
  intros [H0 H1]. unfold completion_rate.
  destruct (Z.ltb_spec 0 (StudentTermGrade.assignments_total g)); [| lra].
  apply percentage_in_range; [assumption | |].
  - change 0%Q with (inject_Z 0). rewrite <- Zle_Qle. exact H0.
  - rewrite <- Zle_Qle. exact H1.
Qed.

(** X12: if every roll-up row has 0 <= assignments_completed <=
    assignments_total, then so has every row after any sequence of
    recalculations (by grading, by the method, by the service), and its
    [completion_rate] lies between 0 and 100. *)
Theorem completion_rate_in_range db calls g :
  Forall counts_in_order (student_term_grades db) ->
  g ∈ student_term_grades (foldl recalculate db calls) ->
  counts_in_order g /\ (0 <= completion_rate g <= 100)%Q.
Proof.
  intros H Hg.
  assert (counts_in_order g) as Hc.
  { revert g Hg. apply Forall_forall.
    apply rows_recalculations; [| | exact H].
    - intros s t. unfold counts_in_order. cbn. lia.
    - intros earned possible letter total now g Hb.
      unfold counts_in_order. cbn. lia. }
  split; [exact Hc | apply completion_rate_counts, Hc].
Qed.

Lemma completion_rate_in_range_witness :
  Forall counts_in_order (student_term_grades school_db)
  /\ essay_rollup
     ∈ student_term_grades (foldl recalculate school_db essay_recalculations)
  /\ counts_in_order essay_rollup
  /\ (0 <= completion_rate essay_rollup <= 100)%Q.
Proof.
  assert (essay_rollup
          ∈ student_term_grades (foldl recalculate school_db essay_recalculations))
    as Hin by (apply list_elem_of_In; vm_compute; left; reflexivity).
  split; [constructor |]. split; [exact Hin |].
  apply (completion_rate_in_range school_db essay_recalculations essay_rollup).
  - constructor.
  - exact Hin.
Defined.

Lemma calculate_current_grade_percentage now g :
  percentage_current (StudentTermGrade.calculate_current_grade now g).
Proof.
  unfold percentage_current, StudentTermGrade.calculate_current_grade, py.float_lt.
  cbn. destruct (Qle_bool (StudentTermGrade.current_points_possible g) 0) eqn:E;
    cbn.
  - apply Qle_bool_iff, E.
  - split; [| reflexivity]. apply Qnot_le_lt. intros Hle.
    apply Qle_bool_iff in Hle. congruence.
Qed.

(** X13: if in every roll-up row current_percentage is
    current_points_earned / current_points_possible * 100 when
    current_points_possible is positive and NULL otherwise, then the same
    holds for every row after any sequence of recalculations, and
    [calculate_current_grade] keeps it so on each of them. *)
Theorem current_percentage_follows_totals db calls g :
  Forall percentage_current (student_term_grades db) ->
  g ∈ student_term_grades (foldl recalculate db calls) ->
  percentage_current g
  /\ forall now,
       percentage_current (StudentTermGrade.calculate_current_grade now g).
Proof.
  intros H Hg. split; [| intros now; apply calculate_current_grade_percentage].
  revert g Hg. apply Forall_forall.
  apply rows_recalculations; [| | exact H].
  - intros s t. unfold percentage_current. cbn. lra.
  - intros earned possible letter total now g _.
    unfold percentage_current. cbn.
    destruct (Z.ltb_spec 0 possible) as [Hp | Hp].
    + split; [apply inject_Z_pos, Hp | reflexivity].
    + change 0%Q with (inject_Z 0). rewrite <- Zle_Qle. exact Hp.
Qed.

Lemma current_percentage_follows_totals_witness :
  Forall percentage_current (student_term_grades school_db)
  /\ essay_rollup
     ∈ student_term_grades (foldl recalculate school_db essay_recalculations)
  /\ percentage_current essay_rollup.
Proof.
  assert (essay_rollup
          ∈ student_term_grades (foldl recalculate school_db essay_recalculations))
    as Hin by (apply list_elem_of_In; vm_compute; left; reflexivity).
  split; [constructor |]. split; [exact Hin |].
  apply (current_percentage_follows_totals school_db essay_recalculations
           essay_rollup).
  - constructor.
  - exact Hin.
Defined.

(** ** The totals of the term grading service *)

Lemma next_id_fresh ids x : x ∈ ids -> x < next_id ids.
Proof.
  unfold next_id. induction ids as [| y ids IH]; [inversion 1 |].
  intros Hx. apply elem_of_cons in Hx as [-> | Hx]; cbn [foldr]; [lia |].
  specialize (IH Hx). lia.
Qed.

Lemma NoDup_id_link_step l link :
  NoDup (map TermSubject.id l) -> NoDup (map TermSubject.id (link_step l link)).
Proof.
  intros Hl. unfold link_step, ensure_row.
  destruct (existsb _ l); [exact Hl |].
  rewrite map_app. cbn [map TermSubject.id]. apply NoDup_app. split; [exact Hl |].
  split; [| apply NoDup_singleton].
  intros x Hx Hx'. apply list_elem_of_singleton in Hx'. subst x.
  apply next_id_fresh in Hx. lia.
Qed.

Lemma NoDup_id_auto_link db term_id :
  NoDup (map TermSubject.id (term_subjects db)) ->
  NoDup (map TermSubject.id
           (term_subjects (auto_link_subjects_to_terms db term_id).1)).
Proof.
  intros H. rewrite auto_link_eq. cbn [term_subjects with_term_subjects].
  generalize (wanted_links db (selected_terms db term_id)). intros links.
  revert H. generalize (term_subjects db).
  induction links as [| k links IH]; intros l Hl; [exact Hl |].
  cbn [foldl]. apply IH, NoDup_id_link_step, Hl.
Qed.

Lemma find_app_not {A} (p : A -> bool) (l : list A) (x : A) :
  p x = false -> List.find p (l ++ [x]) = List.find p l.
Proof.
  intros Hx. induction l as [| y l IH]; cbn; [rewrite Hx; reflexivity |].
  destruct (p y); [reflexivity | exact IH].
Qed.

Lemma find_update_first_other {A} (p q : A -> bool) (f : A -> A) (l : list A) :
  (forall x, p x = true -> q x = false) -> (forall x, q (f x) = q x) ->
  List.find q (update_first p f l) = List.find q l.
Proof.
  intros Hpq Hqf. induction l as [| y l IH]; cbn; [reflexivity |].
  destruct (p y) eqn:Hp; cbn.
  - rewrite Hqf, (Hpq y Hp). reflexivity.
  - destruct (q y); [reflexivity | exact IH].
Qed.

Lemma has_key_set_entry k v now g :
  StudentTermGrade.has_key k.1 k.2 (set_entry v now g)
  = StudentTermGrade.has_key k.1 k.2 g.
Proof. destruct v as [[[[? ?] ?] ?] ?]. reflexivity. Qed.

Lemma find_grade_upsert_other now l k kv :
  kv.1 <> k ->
  List.find (StudentTermGrade.has_key k.1 k.2) (grade_upsert now l kv)
  = List.find (StudentTermGrade.has_key k.1 k.2) l.
Proof.
  intros Hne. unfold upsert.
  rewrite find_update_first_other.
  - unfold ensure_row. destruct (existsb _ l); [reflexivity |].
    apply find_app_not. destruct kv as [[s t] v], k as [s' t'].
    unfold StudentTermGrade.has_key. cbn in *.
    destruct (Z.eqb_spec s s'), (Z.eqb_spec t t'); try reflexivity. congruence.
  - intros g Hg. apply has_key_spec in Hg.
    destruct (StudentTermGrade.has_key k.1 k.2 g) eqn:E; [| reflexivity].
    apply has_key_spec in E. congruence.
  - intros g. apply has_key_set_entry.
Qed.

Lemma find_grade_upsert_same now l k v :
  exists g0,
    List.find (StudentTermGrade.has_key k.1 k.2) (grade_upsert now l (k, v))
    = Some (set_entry v now g0).
Proof.
  unfold upsert. cbn [fst snd].
  exists (default (StudentTermGrade.new k.1 k.2)
                  (List.find (StudentTermGrade.has_key k.1 k.2) l)).
  apply find_update_first.
  - apply find_ensure_row. apply has_key_new.
  - rewrite has_key_set_entry.
    destruct (List.find _ l) as [g |] eqn:E; cbn [default].
    + apply find_some in E as [_ E]. exact E.
    + apply has_key_new.
Qed.

Lemma find_foldl_grade_upsert now k v U l :
  (forall v', (k, v') ∈ U -> v' = v) ->
  ((k, v) ∈ U
   \/ exists g0, List.find (StudentTermGrade.has_key k.1 k.2) l
                 = Some (set_entry v now g0)) ->
  exists g0,
    List.find (StudentTermGrade.has_key k.1 k.2) (foldl (grade_upsert now) l U)
    = Some (set_entry v now g0).
Proof.
  revert l. induction U as [| kv U IH]; intros l Hsame Hin.
  - destruct Hin as [Hin | Hin]; [inversion Hin | exact Hin].
  - cbn [foldl]. apply IH.
    + intros v' Hv'. apply Hsame. right. exact Hv'.
    + destruct kv as [k' v']. destruct (decide (k' = k)) as [-> | Hne].
      * right. rewrite (Hsame v' ltac:(left)). apply find_grade_upsert_same.
      * destruct Hin as [Hin | (g0 & Hg0)].
        -- apply elem_of_cons in Hin as [Hin | Hin]; [congruence | left; exact Hin].
        -- right. exists g0. rewrite find_grade_upsert_other by exact Hne. exact Hg0.
Qed.

Lemma elem_of_service_entries db term tss students kv :
  kv ∈ service_entries db term tss students <->
  exists u ts, u ∈ students /\ ts ∈ tss
               /\ term_subject_entry db term u ts = Some kv.
Proof.
  unfold service_entries. rewrite list_elem_of_In, in_concat. split.
  - intros (l & Hl & Hkv). apply in_map_iff in Hl as (u & <- & Hu).
    apply list_elem_of_In, list_elem_of_omap in Hkv as (ts & Hts & E).
    apply list_elem_of_In in Hu. eauto.
  - intros (u & ts & Hu & Hts & E). eexists. split.
    + apply in_map_iff. exists u. split; [reflexivity | apply list_elem_of_In, Hu].
    + apply list_elem_of_In, list_elem_of_omap. eauto.
Qed.

Lemma NoDup_id_inj l (ts ts' : TermSubject.t) :
  NoDup (map TermSubject.id l) -> ts ∈ l -> ts' ∈ l ->
  TermSubject.id ts = TermSubject.id ts' -> ts = ts'.
Proof.
  induction l as [| x l IH]; [inversion 2 |].
  cbn [map]. intros Hnd H1 H2 Hid. apply NoDup_cons in Hnd as [Hx Hnd].
  apply elem_of_cons in H1 as [-> | H1], H2 as [-> | H2].
  - reflexivity.
  - exfalso. apply Hx. rewrite Hid. apply list_elem_of_fmap. eauto.
  - exfalso. apply Hx. rewrite <- Hid. apply list_elem_of_fmap. eauto.
  - apply IH; assumption.
Qed.

Lemma term_subject_entry_key db term u ts kv :
  term_subject_entry db term u ts = Some kv ->
  kv.1 = (User.id u, TermSubject.id ts).
Proof.
  unfold term_subject_entry. destruct (List.filter _ _); [discriminate |].
  intros [= <-]. reflexivity.
Qed.

Lemma term_subject_entry_ext db term u u' ts :
  User.id u' = User.id u ->
  term_subject_entry db term u' ts = term_subject_entry db term u ts.
Proof. intros H. unfold term_subject_entry. rewrite H. reflexivity. Qed.

(** X14: after [calculate_student_term_grades], for every selected student
    and every subject link of the term for which the student has a graded
    assignment completed within the term, the roll-up row exists and holds
    the sum of [points_earned or 0], the sum of [max_points], the percentage
    and letter these give, and the number of such assignments as both
    counts.  (TermSubject ids are unique.) *)
Theorem service_totals now db term_id student_id term u ts :
  NoDup (map TermSubject.id (term_subjects db)) ->
  List.find (fun t => Term.id t =? term_id) (terms db) = Some term ->
  let db' := (calculate_student_term_grades now db term_id student_id).1 in
  u ∈ users db ->
  User.role u = UserRole.STUDENT ->
  (py.int_truthy student_id = true -> student_id = Some (User.id u)) ->
  ts ∈ term_subjects db' ->
  TermSubject.term_id ts = term_id ->
  let rows :=
    List.filter
      (graded_in_term (User.id u) (TermSubject.subject_id ts) term)
      (assignments_joined db) in
  rows <> [] ->
  exists g,
    term_grade_of db' (User.id u) (TermSubject.id ts) = Some g
    /\ StudentTermGrade.current_points_earned g = sum_points_earned rows
    /\ StudentTermGrade.current_points_possible g
       = inject_Z (sum_max_points rows)
    /\ StudentTermGrade.current_percentage g
       = (if 0 <? sum_max_points rows
          then Some (sum_points_earned rows / inject_Z (sum_max_points rows)
                     * 100)%Q
          else None)
    /\ StudentTermGrade.current_letter_grade g
       = _calculate_letter_grade (StudentTermGrade.current_percentage g)
    /\ StudentTermGrade.assignments_completed g = Z.of_nat (length rows)
    /\ StudentTermGrade.assignments_total g = Z.of_nat (length rows).
Proof.
  intros Hnd Hterm db' Hu Hrole Hsel Hts Htid rows Hrows.
  pose proof (NoDup_id_auto_link db (Some term_id) Hnd) as Hnd1.
  unfold db' in *. clear db'.
  rewrite calculate_student_term_grades_eq in *. cbv zeta in *.
  rewrite Hterm in *.
  cbn [term_subjects with_student_term_grades] in Hts.
  unfold term_grade_of. cbn [student_term_grades with_student_term_grades].
  set (db1 := (auto_link_subjects_to_terms db (Some term_id)).1) in *.
  set (tss := List.filter _ (term_subjects db1)).
  set (students := List.filter _ (users db)).
  set (v := (sum_points_earned rows, inject_Z (sum_max_points rows),
             (if 0 <? sum_max_points rows
              then Some (sum_points_earned rows / inject_Z (sum_max_points rows)
                         * 100)%Q
              else None),
             _calculate_letter_grade
               (if 0 <? sum_max_points rows
                then Some (sum_points_earned rows / inject_Z (sum_max_points rows)
                           * 100)%Q
                else None),
             Z.of_nat (length rows))).
  assert (term_subject_entry db term u ts
          = Some ((User.id u, TermSubject.id ts), v)) as Hentry.
  { unfold term_subject_entry. fold rows. destruct rows; [congruence | reflexivity]. }
  assert (u ∈ students) as Hu'.
  { apply list_elem_of_In, filter_In. split; [apply list_elem_of_In, Hu |].
    rewrite Hrole. cbn. destruct (py.int_truthy student_id); [| reflexivity].
    apply bool_decide_eq_true. symmetry. apply Hsel. reflexivity. }
  assert (ts ∈ tss) as Hts'.
  { apply list_elem_of_In, filter_In. split; [apply list_elem_of_In, Hts |].
    apply Z.eqb_eq, Htid. }
  destruct (find_foldl_grade_upsert now (User.id u, TermSubject.id ts) v
              (service_entries db term tss students) (student_term_grades db))
    as (g0 & Hg0).
  - intros v' Hv'. apply elem_of_service_entries in Hv' as (u' & ts' & _ & Hin' & E).
    pose proof (term_subject_entry_key _ _ _ _ _ E) as Hk. cbn in Hk.
    injection Hk as Hku Hkt.
    assert (ts' = ts) as ->.
    { apply (NoDup_id_inj (term_subjects db1)); [exact Hnd1 | | exact Hts | congruence].
      apply list_elem_of_In in Hin'. apply filter_In in Hin' as [Hin' _].
      apply list_elem_of_In, Hin'. }
    rewrite (term_subject_entry_ext db term u u' ts) in E by congruence.
    congruence.
  - left. apply elem_of_service_entries. eauto.
  - cbn [fst snd] in Hg0. exists (set_entry v now g0). split; [exact Hg0 |].
    unfold v. cbn. repeat split; reflexivity.
Qed.

Lemma service_totals_witness :
  let db' := (calculate_student_term_grades 7 graded_school_db 1 None).1 in
  let ts := TermSubject.mk 1 1 7 true 1%Q in
  let rows :=
    List.filter (graded_in_term 2 7 fall_term)
                (assignments_joined graded_school_db) in
  NoDup (map TermSubject.id (term_subjects graded_school_db))
  /\ ts ∈ term_subjects db'
  /\ rows <> []
  /\ exists g,
       term_grade_of db' 2 1 = Some g
       /\ StudentTermGrade.current_points_earned g = sum_points_earned rows
       /\ StudentTermGrade.current_points_possible g
          = inject_Z (sum_max_points rows)
       /\ StudentTermGrade.current_percentage g
          = (if 0 <? sum_max_points rows
             then Some (sum_points_earned rows / inject_Z (sum_max_points rows)
                        * 100)%Q
             else None)
       /\ StudentTermGrade.current_letter_grade g
          = _calculate_letter_grade (StudentTermGrade.current_percentage g)
       /\ StudentTermGrade.assignments_completed g = Z.of_nat (length rows)
       /\ StudentTermGrade.assignments_total g = Z.of_nat (length rows).
Proof.
  cbv zeta.
  assert (TermSubject.mk 1 1 7 true 1%Q
          ∈ term_subjects (calculate_student_term_grades 7 graded_school_db 1 None).1)
    as Hts by (apply list_elem_of_In; vm_compute; left; reflexivity).
  assert (List.filter (graded_in_term 2 7 fall_term)
                      (assignments_joined graded_school_db) <> []) as Hrows
    by (vm_compute; discriminate).
  split; [apply NoDup_nil_2 |]. split; [exact Hts |]. split; [exact Hrows |].
  apply (service_totals 7 graded_school_db 1 None fall_term pupil
           (TermSubject.mk 1 1 7 true 1%Q)).
  - apply NoDup_nil_2.
  - reflexivity.
  - apply list_elem_of_In. right. left. reflexivity.
  - reflexivity.
  - discriminate.
  - exact Hts.
  - reflexivity.
  - exact Hrows.
Defined.

(** ** Grading and the service *)

Lemma filter_nil_all {A} (p : A -> bool) (l : list A) :
  (forall x, x ∈ l -> p x = false) -> List.filter p l = [].
Proof.
  induction l as [| x l IH]; intros H; [reflexivity |]. cbn.
  rewrite (H x) by left. apply IH. intros y Hy. apply H. right. exact Hy.
Qed.

Lemma elem_of_assignments_joined db row :
  row ∈ assignments_joined db -> row.1 ∈ student_assignments db.
Proof.
  unfold assignments_joined. intros H.
  apply list_elem_of_omap in H as (a & Ha & E).
  destruct (template_of db a); [| discriminate].
  injection E as <-. exact Ha.
Qed.

Lemma nothing_completed_in_term db term :
  nothing_completed db ->
  List.filter (completed_in_term term) (assignments_joined db) = [].
Proof.
  intros H. apply filter_nil_all. intros row Hrow.
  unfold completed_in_term.
  rewrite (H _ (elem_of_assignments_joined db row Hrow)). reflexivity.
Qed.

Lemma nothing_completed_graded db term s subj :
  nothing_completed db ->
  List.filter (graded_in_term s subj term) (assignments_joined db) = [].
Proof.
  intros H. apply filter_nil_all. intros row Hrow.
  unfold graded_in_term, completed_in_term.
  rewrite (H _ (elem_of_assignments_joined db row Hrow)).
  apply andb_false_r.
Qed.

Lemma with_term_subjects_id db : with_term_subjects (term_subjects db) db = db.
Proof. destruct db; reflexivity. Qed.

Lemma auto_link_nothing_completed db term_id :
  nothing_completed db ->
  (auto_link_subjects_to_terms db term_id).1 = db.
Proof.
  intros H. rewrite auto_link_eq.
  assert (wanted_links db (selected_terms db term_id) = []) as ->.
  { unfold wanted_links. induction (selected_terms db term_id) as [| t l IH];
      [reflexivity |].
    cbn [map concat]. rewrite IH. unfold linked_subject_ids.
    rewrite (nothing_completed_in_term db t H). reflexivity. }
  apply with_term_subjects_id.
Qed.

Lemma service_nothing_completed now db term_id student_id :
  nothing_completed db ->
  (calculate_student_term_grades now db term_id student_id).1 = db.
Proof.
  intros H. rewrite calculate_student_term_grades_eq. cbv zeta.
  rewrite (auto_link_nothing_completed db (Some term_id) H).
  destruct (List.find _ (terms db)) as [term |]; [| reflexivity].
  assert (forall tss students, service_entries db term tss students = []) as ->.
  { intros tss students. unfold service_entries.
    assert (forall u, omap (term_subject_entry db term u) tss = []) as Hu.
    { intros u. induction tss as [| ts tss IHt]; [reflexivity |].
      cbn [omap list_omap]. unfold term_subject_entry at 1.
      rewrite (nothing_completed_graded db term _ _ H). exact IHt. }
    induction students as [| u students IH]; [reflexivity |].
    cbn [map concat]. rewrite IH, app_nil_r. apply Hu. }
  apply with_student_term_grades_id.
Qed.

Lemma graded_assignment_completed_date today gd grader a tmpl :
  StudentAssignment.completed_date (graded_assignment today gd grader a tmpl)
  = StudentAssignment.completed_date a.
Proof. rewrite graded_assignment_eq. reflexivity. Qed.

Lemma run_grading_nothing_completed db r :
  nothing_completed db -> nothing_completed (run_grading db r).
Proof.
  intros H. unfold run_grading.
  destruct (grade_student_assignment_cases (req_fails r) (req_today r)
              db (req_assignment_id r) (req_grade_data r) (req_current_user r))
    as [-> | (a & tmpl & Hvalid & ->)]; [exact H |].
  cbn [fst].
  intros x Hx. rewrite try_award_points_assignments in Hx.
  cbn [flush_assignment student_assignments with_student_assignments] in Hx.
  apply elem_of_update_first in Hx as [Hx | (y & Hy & _ & ->)]; [apply H, Hx |].
  rewrite graded_assignment_completed_date.
  destruct Hvalid as (_ & _ & Hfind & _).
  apply find_some_elem_of in Hfind as [Ha _]. apply H, Ha.
Qed.

(** X15: the grading endpoint sets no completed_date and the service counts
    completed assignments only: from a database in which no assignment is
    completed, after any sequence of grading requests,
    [calculate_student_term_grades] changes nothing. *)
Theorem gradings_alone_never_feed_the_service db requests now term_id student_id :
  nothing_completed db ->
  (calculate_student_term_grades now (run_gradings db requests) term_id
     student_id).1
  = run_gradings db requests.
Proof.
  intros H. apply service_nothing_completed.
  unfold run_gradings. revert db H.
  induction requests as [| r requests IH]; intros db H; [exact H |].
  cbn [foldl]. apply IH, run_grading_nothing_completed, H.
Qed.

Lemma gradings_alone_never_feed_the_service_witness :
  let graded := run_gradings fresh_school_db [lab_request 40; lab_request 45] in
  nothing_completed fresh_school_db
  /\ (StudentAssignment.points_earned
        <$> List.find (has_id 2) (student_assignments graded))
     = Some (Some 45%Q)
  /\ balance_of graded 2 = 85
  /\ (calculate_student_term_grades 7 graded 1 None).1 = graded.
Proof.
  cbv zeta.
  assert (nothing_completed fresh_school_db) as H.
  { intros a Ha. apply list_elem_of_singleton in Ha. subst a. reflexivity. }
  split; [exact H |].
  split; [vm_compute; reflexivity |].
  split; [vm_compute; reflexivity |].
  apply (gradings_alone_never_feed_the_service fresh_school_db
           [lab_request 40; lab_request 45] 7 1 None H).
Defined.

(** ** The counters of a StudentPoints row *)

Lemma apply_amount_totals amount row :
  totals_agree row -> totals_agree (apply_amount amount row).
Proof.
  unfold totals_agree, apply_amount. intros (Hb & He & Hs).
  destruct (Z.ltb_spec 0 amount); cbn; lia.
Qed.

Lemma create_point_transaction_totals tx admin_id fails db :
  totals_consistent db ->
  totals_consistent
    (run_request (create_point_transaction tx admin_id) fails db).1.
Proof.
  intros Hinv.
  destruct (create_point_transaction_cases tx admin_id fails db)
    as [[-> _] | [(_ & -> & _) | (_ & _ & -> & _)]]; [exact Hinv | |];
    intros s row; cbn [student_points with_student_points with_point_transactions];
    (destruct (Z.eq_dec s (PointTransactionCreate.student_id tx)) as [-> | Hne];
     [rewrite lookup_insert_eq; intros [= <-]
     | rewrite lookup_insert_ne by congruence; apply Hinv]).
  - unfold totals_agree. cbn. lia.
  - apply apply_amount_totals.
    destruct (student_points db !! _) as [r |] eqn:E; cbn.
    + apply (Hinv _ _ E).
    + unfold totals_agree. cbn. lia.
Qed.

Lemma perform_totals db o :
  totals_consistent db -> totals_consistent (perform db o).
Proof.
  intros Hinv. unfold perform.
  destruct o as [fails s a p title | fails adj admin_id]; cbn [outcome].
  - unfold award_assignment_points. destruct (validate_int p).
    + apply create_point_transaction_totals, Hinv.
    + exact Hinv.
  - apply create_point_transaction_totals, Hinv.
Qed.

(** X16: the counters of a StudentPoints row stay in step: if every row has
    current_balance = total_earned - total_spent with both totals not
    negative, so has every row after any sequence of awards and
    adjustments, whichever of them fail on the way. *)
Theorem points_totals_agree db ops s row :
  totals_consistent db ->
  student_points (foldl perform db ops) !! s = Some row ->
  StudentPoints.current_balance row
  = StudentPoints.total_earned row - StudentPoints.total_spent row
  /\ 0 <= StudentPoints.total_earned row
  /\ 0 <= StudentPoints.total_spent row.
Proof.
  intros H. revert s row. change (totals_consistent (foldl perform db ops)).
  revert db H. induction ops as [| o ops IH]; intros db H; [exact H |].
  cbn [foldl]. apply IH, perform_totals, H.
Qed.

Lemma points_totals_agree_witness :
  let ops := [AwardAssignment no_failure 2 1 85 "Essay";
              AdminAdjust final_commit_fails
                (AdminPointAdjustment.mk 2 5 "bonus") (Some 1);
              AdminAdjust no_failure
                (AdminPointAdjustment.mk 2 (-20) "store redemption") (Some 1)] in
  let row := StudentPoints.mk 2 65 85 20 in
  totals_consistent school_db
  /\ student_points (foldl perform school_db ops) !! 2 = Some row
  /\ StudentPoints.current_balance row
     = StudentPoints.total_earned row - StudentPoints.total_spent row
  /\ 0 <= StudentPoints.total_earned row
  /\ 0 <= StudentPoints.total_spent row.
Proof.
  cbv zeta.
  assert (totals_consistent school_db) as H0.
  { intros s row. cbn. rewrite lookup_empty. discriminate. }
  split; [exact H0 |]. split; [vm_compute; reflexivity |].
  apply (points_totals_agree school_db
           [AwardAssignment no_failure 2 1 85 "Essay";
            AdminAdjust final_commit_fails
              (AdminPointAdjustment.mk 2 5 "bonus") (Some 1);
            AdminAdjust no_failure
              (AdminPointAdjustment.mk 2 (-20) "store redemption") (Some 1)]
           2 (StudentPoints.mk 2 65 85 20) H0).
  vm_compute. reflexivity.
Defined.

(** ** Awards, grading by grading *)

(** X17: with the points system enabled and no database call failing,
    every grading that the endpoint answers with success, with a whole
    number of points and an award that the amount, description and counter
    columns can hold, appends one "assignment" transaction of that amount,
    described by the template's name as the description column keeps it, and
    raises the student's balance by it, whether or not the assignment was
    graded, and awarded, before. *)
Theorem grading_awards_each_time today db id gd user a tmpl n :
  valid_grade_request db id gd user a tmpl ->
  (grade_student_assignment no_failure today db id gd user).2
  = Ok (graded_assignment today gd (Some (User.id user)) a tmpl) ->
  is_points_system_enabled db = true ->
  validate_int (StudentAssignmentGrade.points_earned gd) = Some n ->
  award_fits db (StudentAssignment.student_id a) n
    (AssignmentTemplate.name tmpl) = true ->
  let db' := (grade_student_assignment no_failure today db id gd user).1 in
  point_transactions db'
  = point_transactions db
    ++ [PointTransaction.mk (StudentAssignment.student_id a) n "assignment"
          (Some (StudentAssignment.id a))
          (Some (as_String 255 ("Assignment: " ++ AssignmentTemplate.name tmpl)))
          None]
  /\ balance_of db' (StudentAssignment.student_id a)
     = balance_of db (StudentAssignment.student_id a) + n.
Proof.
  intros Hvalid Hok Hon Hint Hfits. cbv zeta. revert Hok.
  rewrite (grade_student_assignment_valid _ _ _ _ _ _ _ _ Hvalid).
  set (a' := graded_assignment today gd (Some (User.id user)) a tmpl).
  destruct (commit_grade_cases db a' tmpl) as [[-> _] | [-> _]];
    [discriminate |].
  intros _. cbn [fst].
  unfold try_award_points.
  change (is_points_system_enabled (flush_assignment a' db))
    with (is_points_system_enabled db).
  rewrite Hon. unfold award_assignment_points. rewrite Hint.
  unfold a'. rewrite graded_assignment_id, graded_assignment_student_id.
  fold a'. apply andb_true_iff in Hfits as [Hfits Hc].
  apply andb_true_iff in Hfits as [Hn Hd].
  rewrite create_point_transaction_ok;
    [| unfold transaction_fits; cbn [PointTransaction.amount
         PointTransaction.transaction_type PointTransaction.source_description
         PointTransactionCreate.amount PointTransactionCreate.transaction_type
         PointTransactionCreate.source_description];
       rewrite Hn, Hd; reflexivity
     | exact Hc].
  cbn [fst point_transactions student_points with_student_points
       with_point_transactions flush_assignment with_student_assignments
       PointTransactionCreate.student_id PointTransactionCreate.amount
       PointTransactionCreate.transaction_type PointTransactionCreate.source_id
       PointTransactionCreate.source_description].
  split; [reflexivity |].
  unfold balance_of. cbn [student_points with_student_points].
  rewrite lookup_insert_eq, apply_amount_balance.
  destruct (student_points db !! StudentAssignment.student_id a); reflexivity.
Qed.

Lemma grading_awards_each_time_witness :
  let a := graded_assignment 120 (grade_of 85) (Some 1) essay essay_template in
  let db' :=
    (grade_student_assignment no_failure 121 graded_school_db 1 (grade_of 90)
       admin).1 in
  balance_of graded_school_db 2 = 85
  /\ point_transactions db'
     = point_transactions graded_school_db
       ++ [PointTransaction.mk 2 90 "assignment" (Some 1)
             (Some "Assignment: Essay"%string) None]
  /\ balance_of db' 2 = 85 + 90.
Proof.
  cbv zeta. split; [reflexivity |].
  apply (grading_awards_each_time 121 graded_school_db 1 (grade_of 90) admin
           (graded_assignment 120 (grade_of 85) (Some 1) essay essay_template)
           essay_template 90).
  - valid_request.
  - vm_compute. reflexivity.
  - reflexivity.
  - reflexivity.
  - vm_compute. reflexivity.
Defined.

(** ** Deleting a student's points *)

Lemma ledger_sum_filter_other s s' txs :
  s' <> s ->
  ledger_sum s'
    (List.filter (fun t => negb (PointTransaction.student_id t =? s)) txs)
  = ledger_sum s' txs.
Proof.
  intros Hne. induction txs as [| t txs IH]; [reflexivity |].
  cbn [List.filter]. destruct (Z.eqb_spec (PointTransaction.student_id t) s) as [E | E];
    cbn [negb].
  - etrans; [exact IH |]. cbn. rewrite E.
    destruct (Z.eqb_spec s s'); [congruence | reflexivity].
  - cbn [ledger_sum foldr]. unfold ledger_sum in IH. rewrite IH. reflexivity.
Qed.

Lemma Forall_filter_other s txs :
  Forall (fun t => PointTransaction.student_id t <> s)
    (List.filter (fun t => negb (PointTransaction.student_id t =? s)) txs).
Proof.
  apply Forall_forall. intros t Ht. apply list_elem_of_In, filter_In in Ht as [_ Ht].
  destruct (Z.eqb_spec (PointTransaction.student_id t) s); [discriminate | assumption].
Qed.

(** X18: [delete_student_points_data] keeps the ledger consistent; when it
    answers [False] nothing has changed, when it answers [True] the student
    has neither a StudentPoints row nor a transaction left while every other
    student keeps row and ledger sum. *)
Theorem delete_student_points_data_clears raises db student_id :
  ledger_consistent db ->
  let out := delete_student_points_data raises db student_id in
  ledger_consistent out.1
  /\ (out.2 = false -> out.1 = db)
  /\ (out.2 = true ->
      student_points out.1 !! student_id = None
      /\ Forall (fun t => PointTransaction.student_id t <> student_id)
                (point_transactions out.1)
      /\ forall s, s <> student_id ->
           student_points out.1 !! s = student_points db !! s
           /\ ledger_sum s (point_transactions out.1)
              = ledger_sum s (point_transactions db)).
Proof.
  intros Hinv. cbv zeta. unfold delete_student_points_data.
  destruct raises; cbn [fst snd].
  - split; [exact Hinv |]. split; [reflexivity | discriminate].
  - cbn [student_points point_transactions with_student_points
         with_point_transactions].
    split; [| split; [discriminate |]].
    + intros s. cbn [student_points point_transactions with_student_points
                     with_point_transactions].
      destruct (Z.eq_dec s student_id) as [-> | Hne].
      * rewrite lookup_delete_eq. apply Forall_filter_other.
      * rewrite lookup_delete_ne by congruence. specialize (Hinv s).
        destruct (student_points db !! s).
        -- rewrite ledger_sum_filter_other by exact Hne. exact Hinv.
        -- apply Forall_forall. intros t Ht.
           apply list_elem_of_In, filter_In in Ht as [Ht _].
           rewrite Forall_forall in Hinv. apply Hinv, list_elem_of_In, Ht.
    + intros _. split; [apply lookup_delete_eq |].
      split; [apply Forall_filter_other |].
      intros s Hne. split; [apply lookup_delete_ne; congruence |].
      apply ledger_sum_filter_other, Hne.
Qed.

Lemma delete_student_points_data_clears_witness :
  let out := delete_student_points_data false ledger_db 2 in
  ledger_consistent ledger_db
  /\ ledger_consistent out.1
  /\ (out.2 = false -> out.1 = ledger_db)
  /\ (out.2 = true ->
      student_points out.1 !! 2 = None
      /\ Forall (fun t => PointTransaction.student_id t <> 2)
                (point_transactions out.1)
      /\ forall s, s <> 2 ->
           student_points out.1 !! s = student_points ledger_db !! s
           /\ ledger_sum s (point_transactions out.1)
              = ledger_sum s (point_transactions ledger_db)).
Proof.
  cbv zeta.
  assert (ledger_consistent ledger_db) as H.
  { apply performs_consistent.
    - intros s. cbn. rewrite lookup_empty. constructor.
    - unfold ledger_ops.
      repeat (split; [eexists; vm_compute; reflexivity |]). exact I. }
  split; [exact H |].
  apply (delete_student_points_data_clears false ledger_db 2 H).
Defined.

(** ** Switching the points system *)

Lemma get_system_setting_update db key value setting :
  get_system_setting db key = Some setting ->
  get_system_setting
    (with_system_settings
       (update_first
          (fun s => String.eqb (SystemSettings.setting_key s) key
                    && SystemSettings.is_active s)
          (set_setting_value value) (system_settings db))
       db) key
  = Some (set_setting_value value setting).
Proof.
  intros H. unfold get_system_setting in *. cbn [system_settings with_system_settings].
  apply find_update_first; [exact H |].
  apply find_some in H as [_ H]. exact H.
Qed.

Lemma get_system_setting_insert db key value :
  get_system_setting db key = None ->
  get_system_setting
    (with_system_settings
       (system_settings db ++ [SystemSettings.mk key value true]) db) key
  = Some (SystemSettings.mk key value true).
Proof.
  unfold get_system_setting. cbn [system_settings with_system_settings].
  induction (system_settings db) as [| s l IH]; cbn.
  - rewrite String.eqb_refl. reflexivity.
  - destruct (_ && _); [discriminate | exact IH].
Qed.

(** X19: for an admin [toggle_points_system] inverts what
    [is_points_system_enabled] answers, reports the new status and changes
    only the settings table; anyone else gets 403.  The one way to fail is a
    deactivated row holding the key: the insert then breaks the uniqueness
    of [setting_key] and nothing changes. *)
Theorem toggle_points_system_flips db current_user :
  match toggle_points_system db current_user with
  | (db', Ok enabled) =>
    enabled = negb (is_points_system_enabled db)
    /\ is_points_system_enabled db' = enabled
    /\ same_except_settings db db'
  | (db', HTTPException status_code) =>
    status_code = 403 /\ User.role current_user <> UserRole.ADMIN /\ db' = db
  | (db', InternalServerError) =>
    db' = db
    /\ get_system_setting db "points_system_enabled" = None
    /\ existsb (has_setting_key "points_system_enabled") (system_settings db)
       = true
  end.
Proof.
  unfold toggle_points_system, is_admin.
  destruct (User.role current_user) eqn:Hrole; cbn [UserRole.eqb negb];
    [| split; [reflexivity | split; [discriminate | reflexivity]]].
  unfold update_system_setting.
  destruct (get_system_setting db "points_system_enabled") as [setting |] eqn:E.
  - split; [reflexivity |]. split; [| unfold same_except_settings; destruct db; reflexivity].
    unfold is_points_system_enabled at 1.
    rewrite (get_system_setting_update _ _ _ _ E). cbn [SystemSettings.setting_value set_setting_value].
    destruct (is_points_system_enabled db); reflexivity.
  - destruct (existsb _ _) eqn:Ex; [split; [reflexivity | split; reflexivity] |].
    split; [reflexivity |]. split; [| unfold same_except_settings; destruct db; reflexivity].
    unfold is_points_system_enabled at 1.
    rewrite (get_system_setting_insert _ _ _ E). cbn [SystemSettings.setting_value].
    destruct (is_points_system_enabled db); reflexivity.
Qed.

(** ** The pages of a ledger *)

Lemma ledger_page_eq newest_first db s page per_page :
  ledger_page newest_first db s page per_page
  = (take (Z.to_nat per_page)
          (drop (Z.to_nat ((page - 1) * per_page))
                (newest_first (transactions_of s db))),
     (Z.of_nat (length (transactions_of s db)) + per_page - 1) / per_page).
Proof.
  unfold ledger_page, run_request, get_student_points_ledger,
    get_or_create_student_points, db_read, db_stage, db_query, db_commit,
    db_refresh, mbind, mret, op_bind, op_ret, no_failure.
  cbn. destruct (student_points db !! s); reflexivity.
Qed.

Lemma concat_pages {A} (k : nat) (l : list A) (n : nat) :
  concat (map (fun i => take k (drop (i * k) l)) (seq 0 n)) = take (n * k) l.
Proof.
  induction n as [| n IH]; [reflexivity |].
  rewrite seq_S, map_app, concat_app, IH. cbn [map concat Nat.add].
  rewrite app_nil_r.
  replace (S n * k)%nat with (n * k + k)%nat by lia.
  rewrite <- (take_drop (n * k) (take (n * k + k) l)).
  f_equal.
  - rewrite take_take. f_equal. lia.
  - rewrite skipn_firstn_comm. f_equal. lia.
Qed.

(** X20: with [per_page >= 1], the pages 1 to [total_pages] of
    [get_student_points_ledger], put one after the other, are the student's
    transactions, newest first; no page holds more than [per_page]
    transactions and every page beyond [total_pages] is empty. *)
Theorem ledger_pages_partition newest_first db student_id per_page :
  (forall l, length (newest_first l) = length l) ->
  1 <= per_page ->
  let shown page := (ledger_page newest_first db student_id page per_page).1 in
  let total_pages := (ledger_page newest_first db student_id 1 per_page).2 in
  concat (map shown (seqZ 1 total_pages))
  = newest_first (transactions_of student_id db)
  /\ (forall page, 1 <= page ->
        Z.of_nat (length (shown page)) <= per_page
        /\ (total_pages < page -> shown page = [])).
Proof.
  intros Hlen Hk. cbv zeta.
  set (L := newest_first (transactions_of student_id db)).
  assert (length L = length (transactions_of student_id db)) as HL by apply Hlen.
  set (n := Z.of_nat (length (transactions_of student_id db))) in *.
  assert (Htp : n <= ((n + per_page - 1) / per_page) * per_page).
  { pose proof (Z.mul_succ_div_gt (n + per_page - 1) per_page ltac:(lia)). lia. }
  assert (Htp0 : 0 <= (n + per_page - 1) / per_page).
  { apply Z.div_pos; lia. }
  split.
  - rewrite ledger_page_eq. cbn [snd]. fold n.
    unfold seqZ. rewrite <- list_fmap_compose.
    erewrite (map_ext _ (fun i => take (Z.to_nat per_page)
                                    (drop (i * Z.to_nat per_page) L))).
    + change (fmap ?f ?l) with (map f l).
      rewrite concat_pages. apply take_ge. lia.
    + intros i. cbn. rewrite ledger_page_eq. cbn [fst]. fold L.
      do 2 f_equal. lia.
  - intros page Hpage. rewrite !ledger_page_eq. cbn [fst snd]. fold L n.
    split.
    + rewrite length_take. lia.
    + intros Hlt. rewrite drop_ge; [apply take_nil |]. nia.
Qed.

Lemma ledger_pages_partition_witness :
  let shown page := (ledger_page (@rev _) ledger_db 2 page 1).1 in
  (forall l : list PointTransaction.t, length (rev l) = length l)
  /\ 1 <= 1
  /\ concat (map shown (seqZ 1 (ledger_page (@rev _) ledger_db 2 1 1).2))
     = rev (transactions_of 2 ledger_db)
  /\ (forall page, 1 <= page ->
        Z.of_nat (length (shown page)) <= 1
        /\ ((ledger_page (@rev _) ledger_db 2 1 1).2 < page -> shown page = [])).
Proof.
  cbv zeta. split; [apply length_rev |]. split; [lia |].
  apply (ledger_pages_partition (@rev _) ledger_db 2 1).
  - apply length_rev.
  - lia.
Defined.

(** ** Starting and completing assignments *)

Lemma find_has_id id l a :
  List.find (has_id id) l = Some a -> StudentAssignment.id a = id.
Proof. intros H. apply find_some in H as [_ H]. apply Z.eqb_eq, H. Qed.

Lemma update_status_id today a :
  StudentAssignment.id (StudentAssignment.update_status today a)
  = StudentAssignment.id a.
Proof.
  unfold StudentAssignment.update_status.
  destruct (StudentAssignment.is_graded a); [reflexivity |].
  destruct (py.date_truthy (StudentAssignment.submitted_date a)); [reflexivity |].
  destruct (py.date_truthy (StudentAssignment.started_date a)); [reflexivity |].
  destruct (StudentAssignment.extended_due_date a); [destruct (_ <? _); reflexivity |].
  destruct (StudentAssignment.due_date a); [destruct (_ <? _); reflexivity | reflexivity].
Qed.

Lemma update_status_student_id today a :
  StudentAssignment.student_id (StudentAssignment.update_status today a)
  = StudentAssignment.student_id a.
Proof.
  unfold StudentAssignment.update_status.
  destruct (StudentAssignment.is_graded a); [reflexivity |].
  destruct (py.date_truthy (StudentAssignment.submitted_date a)); [reflexivity |].
  destruct (py.date_truthy (StudentAssignment.started_date a)); [reflexivity |].
  destruct (StudentAssignment.extended_due_date a); [destruct (_ <? _); reflexivity |].
  destruct (StudentAssignment.due_date a); [destruct (_ <? _); reflexivity | reflexivity].
Qed.

Lemma update_status_started_date today a :
  StudentAssignment.started_date (StudentAssignment.update_status today a)
  = StudentAssignment.started_date a.
Proof.
  unfold StudentAssignment.update_status.
  destruct (StudentAssignment.is_graded a); [reflexivity |].
  destruct (py.date_truthy (StudentAssignment.submitted_date a)); [reflexivity |].
  destruct (py.date_truthy (StudentAssignment.started_date a)); [reflexivity |].
  destruct (StudentAssignment.extended_due_date a); [destruct (_ <? _); reflexivity |].
  destruct (StudentAssignment.due_date a); [destruct (_ <? _); reflexivity | reflexivity].
Qed.

Lemma verify_student_access_ext db db' u a a' :
  users db' = users db ->
  StudentAssignment.student_id a' = StudentAssignment.student_id a ->
  verify_student_access db' u a' = verify_student_access db u a.
Proof. intros Hu Hs. unfold verify_student_access. rewrite Hu, Hs. reflexivity. Qed.

(** X21: [start_assignment] is idempotent: a second call, on whatever day,
    changes nothing and answers as the first did, so that a start date is
    never overwritten. *)
Theorem start_assignment_idempotent today today' db assignment_id current_user :
  start_assignment today'
    (start_assignment today db assignment_id current_user).1
    assignment_id current_user
  = start_assignment today db assignment_id current_user.
Proof.
  unfold start_assignment at 2 3.
  destruct (List.find _ _) as [a |] eqn:Hfind;
    [| cbn [fst]; unfold start_assignment; rewrite Hfind; reflexivity].
  destruct (verify_student_access db current_user a) as [code |] eqn:Hacc;
    [cbn [fst]; unfold start_assignment; rewrite Hfind, Hacc; reflexivity |].
  destruct (StudentAssignment.started_date a) as [d |] eqn:Hs;
    [cbn [fst]; unfold start_assignment; rewrite Hfind, Hacc, Hs; reflexivity |].
  cbn [fst].
  set (a' := StudentAssignment.update_status today (set_started_date (Some today) a)).
  assert (StudentAssignment.id a' = assignment_id) as Hid.
  { unfold a'. rewrite update_status_id. cbn. apply (find_has_id _ _ _ Hfind). }
  unfold start_assignment.
  assert (List.find (has_id assignment_id) (student_assignments (flush_assignment a' db))
          = Some a') as Hfind'.
  { unfold flush_assignment. cbn [student_assignments with_student_assignments].
    rewrite Hid. apply (find_update_first _ (fun _ => a') _ a Hfind).
    unfold has_id. rewrite Hid. apply Z.eqb_refl. }
  rewrite Hfind'.
  rewrite (verify_student_access_ext db (flush_assignment a' db) current_user a a'),
    Hacc; [| reflexivity | unfold a'; rewrite update_status_student_id; reflexivity].
  unfold a' at 1. rewrite update_status_started_date. cbn. reflexivity.
Qed.

Lemma update_first_lookup {A} (p : A -> bool) (f : A -> A) (l : list A) x i a :
  List.find p l = Some x -> l !! i = Some a ->
  update_first p f l !! i = Some a
  \/ (a = x /\ update_first p f l !! i = Some (f x)).
Proof.
  revert i. induction l as [| y l IH]; intros i; cbn [List.find update_first];
    [discriminate |].
  destruct (p y) eqn:Hp.
  - intros [= ->] Hi. destruct i as [| i]; cbn in *.
    + injection Hi as <-. right. split; reflexivity.
    + left. exact Hi.
  - intros Hf Hi. destruct i as [| i]; cbn in *.
    + left. exact Hi.
    + apply IH; assumption.
Qed.

Lemma same_students_refl l protected : same_students l l protected.
Proof. intros i a H. exists a. auto. Qed.

Lemma same_students_trans l1 l2 l3 protected :
  same_students l1 l2 protected -> same_students l2 l3 protected ->
  same_students l1 l3 protected.
Proof.
  intros H12 H23 i a Ha.
  destruct (H12 i a Ha) as (a2 & Ha2 & E2 & P2).
  destruct (H23 i a2 Ha2) as (a3 & Ha3 & E3 & P3).
  exists a3. split; [exact Ha3 |]. split; [congruence |].
  intros Hp. rewrite <- (P2 Hp). apply P3. rewrite E2. exact Hp.
Qed.

Lemma same_students_flush db a a' protected :
  List.find (has_id (StudentAssignment.id a')) (student_assignments db) = Some a ->
  StudentAssignment.student_id a' = StudentAssignment.student_id a ->
  protected (StudentAssignment.student_id a) = false ->
  same_students (student_assignments db)
                (student_assignments (flush_assignment a' db)) protected.
Proof.
  intros Hfind Hs Hp i x Hx. unfold flush_assignment.
  cbn [student_assignments with_student_assignments].
  destruct (update_first_lookup _ (fun _ => a') _ _ i x Hfind Hx) as [H | [-> H]].
  - exists x. auto.
  - exists a'. split; [exact H |]. split; [exact Hs | congruence].
Qed.

Lemma verify_student_access_student db u a :
  User.role u = UserRole.STUDENT ->
  verify_student_access db u a = None ->
  StudentAssignment.student_id a = User.id u.
Proof.
  intros Hr. unfold verify_student_access. rewrite Hr.
  destruct (Z.eqb_spec (User.id u) (StudentAssignment.student_id a));
    [auto | discriminate].
Qed.

Lemma other_than_self s : other_than s s = false.
Proof. unfold other_than. rewrite Z.eqb_refl. reflexivity. Qed.

Lemma workflow_same_students u db c :
  User.role u = UserRole.STUDENT ->
  same_students (student_assignments db) (student_assignments (workflow u db c))
                (other_than (User.id u)).
Proof.
  intros Hr. destruct c as [today id | today id]; cbn [workflow].
  - unfold start_assignment.
    destruct (List.find _ _) as [a |] eqn:Hfind; [| apply same_students_refl].
    destruct (verify_student_access db u a) eqn:Hacc; [apply same_students_refl |].
    destruct (StudentAssignment.started_date a); [apply same_students_refl |].
    cbn [fst]. pose proof (find_has_id _ _ _ Hfind) as Hid.
    apply (same_students_flush db a).
    + rewrite update_status_id. cbn. rewrite Hid. exact Hfind.
    + rewrite update_status_student_id. reflexivity.
    + rewrite (verify_student_access_student db u a Hr Hacc). apply other_than_self.
  - unfold complete_assignment.
    destruct (List.find _ _) as [a |] eqn:Hfind; [| apply same_students_refl].
    destruct (verify_student_access db u a) eqn:Hacc; [apply same_students_refl |].
    cbn [fst]. pose proof (find_has_id _ _ _ Hfind) as Hid.
    apply (same_students_flush db a).
    + rewrite update_status_id.
      destruct (StudentAssignment.started_date (set_completed today a));
        cbn; rewrite Hid; exact Hfind.
    + rewrite update_status_student_id.
      destruct (StudentAssignment.started_date (set_completed today a)); reflexivity.
    + rewrite (verify_student_access_student db u a Hr Hacc). apply other_than_self.
Qed.

(** X22: whatever sequence of [start_assignment] and [complete_assignment]
    calls a student makes, the assignments of the other students stay as
    they were. *)
Theorem student_workflow_isolated current_user db calls i a :
  User.role current_user = UserRole.STUDENT ->
  student_assignments db !! i = Some a ->
  StudentAssignment.student_id a <> User.id current_user ->
  student_assignments (foldl (workflow current_user) db calls) !! i = Some a.
Proof.
  intros Hr Ha Hne.
  assert (same_students (student_assignments db)
            (student_assignments (foldl (workflow current_user) db calls))
            (other_than (User.id current_user))) as H.
  { clear Ha Hne i a. revert db.
    induction calls as [| c calls IH]; intros db; [apply same_students_refl |].
    cbn [foldl]. eapply same_students_trans; [| apply IH].
    apply workflow_same_students, Hr. }
  destruct (H i a Ha) as (a' & Ha' & _ & Hp). rewrite Ha'. f_equal. apply Hp.
  unfold other_than. destruct (Z.eqb_spec (StudentAssignment.student_id a)
                                 (User.id current_user)); [contradiction | reflexivity].
Qed.

Lemma student_workflow_isolated_witness :
  let calls := [StartAssignment 100 3; CompleteAssignment 101 3;
                StartAssignment 100 1; CompleteAssignment 102 1] in
  User.role pupil = UserRole.STUDENT
  /\ student_assignments classroom_db !! 1%nat = Some classmate_essay
  /\ StudentAssignment.student_id classmate_essay <> User.id pupil
  /\ student_assignments (foldl (workflow pupil) classroom_db calls) !! 1%nat
     = Some classmate_essay.
Proof.
  cbv zeta. split; [reflexivity |]. split; [reflexivity |].
  split; [discriminate |].
  apply (student_workflow_isolated pupil classroom_db
           [StartAssignment 100 3; CompleteAssignment 101 3;
            StartAssignment 100 1; CompleteAssignment 102 1]
           1%nat classmate_essay).
  - reflexivity.
  - reflexivity.
  - discriminate.
Defined.

(** ** Grading through the external API *)








(** ** The ledger while the points system is switched off *)

Lemma try_award_points_disabled fails db a tmpl p :
  is_points_system_enabled db = false -> try_award_points fails db a tmpl p = db.
Proof. intros H. unfold try_award_points. rewrite H. reflexivity. Qed.

Lemma run_grading_disabled db r :
  is_points_system_enabled db = false ->
  system_settings (run_grading db r) = system_settings db
  /\ student_points (run_grading db r) = student_points db
  /\ point_transactions (run_grading db r) = point_transactions db.
Proof.
  intros Hoff. unfold run_grading.
  destruct (grade_student_assignment_cases (req_fails r) (req_today r)
              db (req_assignment_id r) (req_grade_data r) (req_current_user r))
    as [-> | (a & tmpl & _ & ->)]; [auto |].
  cbn [fst]. rewrite try_award_points_disabled by exact Hoff. auto.
Qed.

Lemma grade_assignment_via_api_disabled fails today db id gd key :
  is_points_system_enabled db = false ->
  let db' := (grade_assignment_via_api fails today db id gd key).1 in
  system_settings db' = system_settings db
  /\ student_points db' = student_points db
  /\ point_transactions db' = point_transactions db.
Proof.
  intros Hoff. cbv zeta. unfold grade_assignment_via_api.
  destruct (negb (APIKeyUser.has_permission _ _)); [auto |].
  destruct (negb (Qle_bool _ _)); [auto |].
  destruct (List.find _ _) as [a |]; [| auto].
  destruct (template_of db a) as [tmpl |]; [| auto].
  destruct (py.float_lt _ _); [auto |].
  destruct (commit_grade_cases db (graded_assignment today gd None a tmpl) tmpl)
    as [[-> _] | [-> _]]; [auto |].
  cbn [fst]. rewrite try_award_points_disabled by exact Hoff. auto.
Qed.

Lemma serve_disabled db r :
  is_points_system_enabled db = false ->
  is_points_system_enabled (serve db r) = false
  /\ student_points (serve db r) = student_points db
  /\ point_transactions (serve db r) = point_transactions db.
Proof.
  intros Hoff.
  destruct r as [request | fails today id gd key | fails adjustment auth_user];
    cbn [serve].
  - destruct (run_grading_disabled db request Hoff) as (Hs & Hsp & Hpt).
    split; [| split; assumption].
    rewrite <- Hoff. unfold is_points_system_enabled, get_system_setting.
    rewrite Hs. reflexivity.
  - destruct (grade_assignment_via_api_disabled fails today db id gd key Hoff)
      as (Hs & Hsp & Hpt).
    split; [| split; assumption].
    rewrite <- Hoff. unfold is_points_system_enabled, get_system_setting.
    rewrite Hs. reflexivity.
  - unfold adjust_student_points.
    destruct (require_admin_or_permission _ _); [auto |].
    destruct (_ || _)%nat; [auto |]. rewrite Hoff. auto.
Qed.

(** X24: while the points system is disabled, no sequence of gradings, by
    either route, and adjustments changes a StudentPoints row or the
    ledger. *)
Theorem ledger_frozen_while_disabled db requests :
  is_points_system_enabled db = false ->
  student_points (foldl serve db requests) = student_points db
  /\ point_transactions (foldl serve db requests) = point_transactions db.
Proof.
  revert db. induction requests as [| r requests IH]; intros db Hoff;
    [split; reflexivity |].
  cbn [foldl]. destruct (serve_disabled db r Hoff) as (Hoff' & Hsp & Hpt).
  destruct (IH _ Hoff') as [H1 H2]. split; congruence.
Qed.

Lemma ledger_frozen_while_disabled_witness :
  let requests :=
    [Grade (grade_request 85);
     GradeViaApi no_failure 121 1 (grade_of 90) grading_key;
     Adjust no_failure (AdminPointAdjustment.mk 2 10 "bonus")
            (UserSession admin)] in
  is_points_system_enabled closed_db = false
  /\ student_points (foldl serve closed_db requests) = student_points closed_db
  /\ point_transactions (foldl serve closed_db requests)
     = point_transactions closed_db.
Proof.
  cbv zeta. split; [reflexivity |].
  apply (ledger_frozen_while_disabled closed_db
           [Grade (grade_request 85);
            GradeViaApi no_failure 121 1 (grade_of 90) grading_key;
            Adjust no_failure (AdminPointAdjustment.mk 2 10 "bonus")
                   (UserSession admin)]).
  reflexivity.
Defined.

(** ** The two letter-grade chains *)

(** X25: the letter chain written out in the two grading routes and
    [_calculate_letter_grade] give the same letter exactly for the
    percentages outside the band from 60 up to 65; inside it the routes
    give F, where the service gives D- below 63 and D from 63 on. *)
Theorem letter_chains_differ_between_60_and_65 pct :
  (Some (endpoint_letter_grade pct) = _calculate_letter_grade (Some pct)
   <-> ~ (60 <= pct /\ pct < 65)%Q)
  /\ ((60 <= pct /\ pct < 65)%Q ->
      endpoint_letter_grade pct = "F"%string
      /\ _calculate_letter_grade (Some pct)
         = Some (if Qle_bool 63 pct then "D" else "D-")%string).
Proof.
  split.
  - unfold endpoint_letter_grade, _calculate_letter_grade.
    repeat (case_threshold;
            [split; [intros _ [? ?]; lra | reflexivity] |]).
    case_threshold.
    + (* 65 <= pct < 67 *)
      case_threshold; [| lra].
      split; [intros _ [? ?]; lra | reflexivity].
    + case_threshold.
      * split; [discriminate | intros Hn; exfalso; apply Hn; split; lra].
      * case_threshold.
        -- split; [discriminate | intros Hn; exfalso; apply Hn; split; lra].
        -- split; [intros _ [? ?]; lra | reflexivity].
  - intros [Hlo Hhi]. split; [apply endpoint_letter_grade_below_65, Hhi |].
    unfold _calculate_letter_grade.
    repeat (case_threshold; [lra |]).
    case_threshold; [reflexivity |].
    case_threshold; [reflexivity | lra].
Qed.

Lemma letter_chains_differ_between_60_and_65_witness :
  (60 <= 64 /\ 64 < 65)%Q
  /\ endpoint_letter_grade 64 = "F"%string
  /\ _calculate_letter_grade (Some 64%Q) = Some "D"%string
  /\ endpoint_letter_grade 61 = "F"%string
  /\ _calculate_letter_grade (Some 61%Q) = Some "D-"%string.
Proof.
  assert (H64 : (60 <= 64 /\ 64 < 65)%Q) by (split; [discriminate | reflexivity]).
  assert (H61 : (60 <= 61 /\ 61 < 65)%Q) by (split; [discriminate | reflexivity]).
  split; [exact H64 |].
  destruct (proj2 (letter_chains_differ_between_60_and_65 64) H64) as [HF HD].
  destruct (proj2 (letter_chains_differ_between_60_and_65 61) H61) as [HF' HD'].
  repeat split; assumption.
Defined.
